(** * ollama-ctl: the typed API client, its data models and utilities

    A shallow embedding of [ollama_ctl/client.py], [ollama_ctl/models.py]
    and [ollama_ctl/utils.py], and of the pure parts of
    [ollama_ctl/config.py] and [ollama_ctl/mcp.py].

    Conventions of the embedding:
    - a Python [str] is a Rocq [string]; a character is read as the code
      point of the same number, so the texts covered are those of the range
      U+0000..U+00FF;
    - a Python [int] is a [Z];
    - a value obtained from JSON (what [json.loads] and [response.json()]
      return, what [model_dump()] produces) is a [JSON] tree, a [dict]
      being an association list in insertion order;
    - a call that may raise returns [Result A]: [Ok] for a normal return,
      [Raise] for the exception that leaves the call;
    - a generator is given by what it yields when it is consumed to the
      end: the yielded values in order, and the exception that ends the
      iteration, if any;
    - the HTTP server is outside the program: what [httpx] hands back for a
      request (a response, or a transport exception) is an input of the
      operations. *)

From Stdlib Require Import ZArith NArith List String Ascii Bool Lia DecimalString.
Import ListNotations.

Open Scope string_scope.

(** ** Python strings *)

Definition str := string.

Definition code (c : ascii) : N := N_of_ascii c.

Definition newline : ascii := ascii_of_N 10.

(** [str.isspace] on one character: the ASCII controls 9..13 and 28..31,
    the space, NEL (0x85) and the no-break space (0xA0). *)
Definition isspace (c : ascii) : bool :=
  let n := code c in
  (((9 <=? n) && (n <=? 13)) || ((28 <=? n) && (n <=? 32))
   || (n =? 133) || (n =? 160))%N.

Fixpoint lstrip (s : str) : str :=
  match s with
  | EmptyString => EmptyString
  | String c r => if isspace c then lstrip r else s
  end.

Fixpoint rstrip (s : str) : str :=
  match s with
  | EmptyString => EmptyString
  | String c r =>
      match rstrip r with
      | EmptyString => if isspace c then EmptyString else String c EmptyString
      | r' => String c r'
      end
  end.

(** [s.strip()] *)
Definition strip (s : str) : str := rstrip (lstrip s).

(** Truth value of a string: [if s:] / [if not s:]. *)
Definition truthy (s : str) : bool :=
  match s with EmptyString => false | String _ _ => true end.

(** [c.lower()] for one character: the ASCII capitals, and the Latin-1
    capitals 0xC0..0xDE except the multiplication sign 0xD7. *)
Definition lower_char (c : ascii) : ascii :=
  let n := code c in
  if ((65 <=? n) && (n <=? 90))%N then ascii_of_N (n + 32)
  else if ((192 <=? n) && (n <=? 222) && negb (n =? 215))%N then ascii_of_N (n + 32)
  else c.

Fixpoint lower (s : str) : str :=
  match s with
  | EmptyString => EmptyString
  | String c r => String (lower_char c) (lower r)
  end.

(** [str(n)] and [f"{n}"] for an [int]. *)
Definition str_of_int (z : Z) : str := NilZero.string_of_int (Z.to_int z).

(** [needle in haystack] for two strings. *)
Fixpoint str_contains (needle haystack : str) : bool :=
  prefix needle haystack
  || match haystack with
     | EmptyString => false
     | String _ r => str_contains needle r
     end.

(** The text [t] occurs inside [s]. *)
Definition occurs_in (t s : str) : Prop :=
  exists before after, s = before ++ t ++ after.

Fixpoint chars (s : str) : list ascii :=
  match s with
  | EmptyString => []
  | String c r => c :: chars r
  end.

(** ** utils.py: validate_model_name *)

Module Utils.

(** The character class [[a-z0-9._:/-]] of the pattern. *)
Definition model_name_char (c : ascii) : bool :=
  let n := code c in
  (((97 <=? n) && (n <=? 122)) || ((48 <=? n) && (n <=? 57))
   || (n =? 46) || (n =? 95) || (n =? 58) || (n =? 47) || (n =? 45))%N.

(** The longest prefix of class characters, and what follows it. *)
Fixpoint span_class (s : str) : str * str :=
  match s with
  | EmptyString => (EmptyString, EmptyString)
  | String c r =>
      if model_name_char c
      then let (w, rest) := span_class r in (String c w, rest)
      else (EmptyString, s)
  end.

(** [$] without [re.MULTILINE]: at the very end of the text, or just before
    a newline that is its last character. *)
Definition at_dollar (rest : str) : bool :=
  match rest with
  | EmptyString => true
  | String c EmptyString => (code c =? 10)%N
  | _ => false
  end.

(** [bool(re.match(r"^[a-z0-9._:/-]+$", s))].  The class excludes the
    newline, so once the greedy [+] has taken every class character no
    shorter choice can reach [$]. *)
Definition re_match_pattern (s : str) : bool :=
  let (w, rest) := span_class s in truthy w && at_dollar rest.

Definition validate_model_name (name : str) : bool :=
  if negb (truthy name) then false
  else re_match_pattern (lower name).

(** The set of names the documentation describes: non-empty, every
    character a lowercase letter, a digit or one of [. _ : / -]. *)
Definition lowercase_name (name : str) : bool :=
  truthy name && forallb model_name_char (chars name).

(** The last character of the text is a newline. *)
Fixpoint ends_with_newline (s : str) : bool :=
  match s with
  | EmptyString => false
  | String c EmptyString => (code c =? 10)%N
  | String _ r => ends_with_newline r
  end.

End Utils.

(** ** JSON values and Python containers *)

#[warnings="-register-all"]
Inductive JSON : Type :=
| JNull
| JBool (b : bool)
| JInt (n : Z)
| JFloat (literal : str)
| JStr (s : str)
| JList (items : list JSON)
| JDict (entries : list (str * JSON)).

Definition dict := list (str * JSON).

(** [d.get(k)]: the value stored under [k], if any. *)
Fixpoint dict_get (k : str) (d : dict) : option JSON :=
  match d with
  | [] => None
  | (k', v) :: rest => if k' =? k then Some v else dict_get k rest
  end.

(** [k in d] *)
Definition dict_has (k : str) (d : dict) : bool :=
  match dict_get k d with Some _ => true | None => false end.

(** [d[k] = v]: replaces the value of a key already there, else appends. *)
Fixpoint dict_set (k : str) (v : JSON) (d : dict) : dict :=
  match d with
  | [] => [(k, v)]
  | (k', v') :: rest =>
      if k' =? k then (k', v) :: rest else (k', v') :: dict_set k v rest
  end.

Definition is_null (v : JSON) : bool :=
  match v with JNull => true | _ => false end.

(** ** Exception classes

    The classes of [httpx] that a request can raise, then the hierarchy
    they sit in, with the three classes of [client.py]. *)

Inductive httpx_error_class : Type :=
| ConnectTimeout | ReadTimeout | WriteTimeout | PoolTimeout
| ConnectError | ReadError | WriteError | CloseError
| LocalProtocolError | RemoteProtocolError
| ProxyError | UnsupportedProtocol | DecodingError | TooManyRedirects.

Inductive py_class : Type :=
| Exception
| TypeError | ValueError | KeyError | RuntimeError | RecursionError
| JSONDecodeError | ValidationError
| HTTPError | RequestError | TransportError | TimeoutException
| NetworkError | ProtocolError | HTTPStatusError
| StreamError | ResponseNotRead
| Httpx (c : httpx_error_class)
| OllamaClientError | OllamaConnectionError | OllamaAPIError.

Scheme Equality for httpx_error_class.
Scheme Equality for py_class.

(** The direct base class. *)
Definition base (c : py_class) : option py_class :=
  match c with
  | Exception => None
  | TypeError | ValueError | KeyError | RuntimeError => Some Exception
  | RecursionError => Some RuntimeError
  | JSONDecodeError | ValidationError => Some ValueError
  | HTTPError => Some Exception
  | RequestError | HTTPStatusError => Some HTTPError
  | TransportError => Some RequestError
  | TimeoutException | NetworkError | ProtocolError => Some TransportError
  | StreamError => Some RuntimeError
  | ResponseNotRead => Some StreamError
  | Httpx (ConnectTimeout | ReadTimeout | WriteTimeout | PoolTimeout) =>
      Some TimeoutException
  | Httpx (ConnectError | ReadError | WriteError | CloseError) =>
      Some NetworkError
  | Httpx (LocalProtocolError | RemoteProtocolError) => Some ProtocolError
  | Httpx (ProxyError | UnsupportedProtocol) => Some TransportError
  | Httpx (DecodingError | TooManyRedirects) => Some RequestError
  (* client.py: class OllamaClientError(Exception) and its two subclasses *)
  | OllamaClientError => Some Exception
  | OllamaConnectionError => Some OllamaClientError
  | OllamaAPIError => Some OllamaClientError
  end.

(** The class and its bases, nearest first. *)
Fixpoint mro (depth : nat) (c : py_class) : list py_class :=
  c :: match depth, base c with
       | S d, Some b => mro d b
       | _, _ => []
       end.

(** [issubclass(c, target)]; no chain of bases is longer than six. *)
Definition issubclass (c target : py_class) : bool :=
  existsb (py_class_beq target) (mro 8 c).

(** An exception object: its class, its first argument (the message) and
    the [status_code] attribute that [OllamaAPIError] adds. *)
Record exn : Type := mk_exn {
  exn_class : py_class;
  exn_message : JSON;
  exn_status_code : option Z
}.

Definition isinstance (e : exn) (c : py_class) : bool :=
  issubclass (exn_class e) c.

(** An exception of a library caught by a handler: class and [str(e)]. *)
Record lib_exn : Type := {
  lib_class : py_class;
  lib_str : str
}.

(** The exception leaves the function as it is. *)
Definition propagate (e : lib_exn) : exn :=
  mk_exn (lib_class e) (JStr (lib_str e)) None.

Inductive Result (A : Type) : Type :=
| Ok (a : A)
| Raise (e : exn).
Arguments Ok {A} a.
Arguments Raise {A} e.

Definition raised_by {A : Type} (r : Result A) : option exn :=
  match r with Ok _ => None | Raise e => Some e end.

(** A generator consumed to the end. *)
Record Gen (A : Type) : Type := mk_gen {
  yielded : list A;
  ended_by : option exn
}.
Arguments mk_gen {A} yielded ended_by.
Arguments yielded {A} g.
Arguments ended_by {A} g.

(** What an operation with a [stream] flag returns. *)
Inductive Mode (S U : Type) : Type :=
| Streamed (g : Gen S)
| Unary (r : Result U).
Arguments Streamed {S U} g.
Arguments Unary {S U} r.

(** What [json.loads] raises on a text: [json.JSONDecodeError] when the
    text is no JSON; a plain [ValueError] when an integer literal in it
    is longer than the interpreter converts (4300 digits by default);
    [RecursionError] when its arrays and objects are nested too deep. *)
Inductive json_error : Type :=
| NotJSON
| IntegerTooLong
| NestingTooDeep.

Definition json_error_class (e : json_error) : py_class :=
  match e with
  | NotJSON => JSONDecodeError
  | IntegerTooLong => ValueError
  | NestingTooDeep => RecursionError
  end.

(** ** The libraries under the client

    [json.loads] and the scalar validators of pydantic are library code.
    The client is written against this interface; every theorem below
    holds for whatever these functions compute.

    - [json_loads s] is [Some v] when [json.loads(s)] returns [v] and
      [None] when it raises; the exception is then the one
      [json_raises s] names, and its text is [json_error_text s];
    - [validate_str], [validate_int], [validate_bool] and [validate_float]
      are what pydantic does with an input offered for a field annotated
      [str], [int], [bool] or [float]: [None] is a validation error. *)
Class PythonLibs : Type := {
  json_loads : str -> option JSON;
  json_raises : str -> json_error;
  json_error_text : str -> str;
  pyfloat : Type;
  validate_str : JSON -> option str;
  validate_int : JSON -> option Z;
  validate_bool : JSON -> option bool;
  validate_float : JSON -> option pyfloat
}.

(** ** models.py *)

Declare Scope pydantic_scope.
Delimit Scope pydantic_scope with pydantic.

Notation "x <- e ;; k" :=
  (match e with Some x => k | None => None end)
  (at level 60, e at next level, right associativity) : pydantic_scope.

Module Pydantic.
Section Validators.
Context `{PythonLibs}.
Context {A : Type}.
Variable validate : JSON -> option A.

(** A field without a default: [x: T]. *)
Definition required (k : str) (d : dict) : option A :=
  match dict_get k d with
  | Some v => validate v
  | None => None
  end.

(** A field with a default: [x: T = default].  The default is not
    validated. *)
Definition with_default (default : A) (k : str) (d : dict) : option A :=
  match dict_get k d with
  | Some v => validate v
  | None => Some default
  end.

(** [Optional[T]]: [None], or a [T]. *)
Definition nullable (v : JSON) : option (option A) :=
  match v with
  | JNull => Some None
  | _ => option_map Some (validate v)
  end.

(** [list[T]] *)
Fixpoint validate_items (items : list JSON) : option (list A) :=
  match items with
  | [] => Some []
  | v :: rest =>
      match validate v, validate_items rest with
      | Some a, Some l => Some (a :: l)
      | _, _ => None
      end
  end.

Definition validate_list (v : JSON) : option (list A) :=
  match v with
  | JList items => validate_items items
  | _ => None
  end.

End Validators.

(** [x: Optional[T] = None] *)
Definition optional `{PythonLibs} {A : Type} (validate : JSON -> option A)
    (k : str) (d : dict) : option (option A) :=
  with_default (nullable validate) None k d.

(** [dict[str, Any]] *)
Definition validate_dict (v : JSON) : option dict :=
  match v with
  | JDict d => Some d
  | _ => None
  end.

(** Calling a model class on unpacked [data], as in [Model( **data )]:
    the double star needs a mapping and raises [TypeError] on anything
    else; the fields are then validated, and a failure is a
    [ValidationError].  The texts stand in for the reports of the
    interpreter and of pydantic; what the client tests is the class. *)
Definition construct {A : Type} (cls : str) (validate : dict -> option A)
    (data : JSON) : lib_exn + A :=
  match data with
  | JDict d =>
      match validate d with
      | Some a => inr a
      | None =>
          inl {| lib_class := ValidationError;
                 lib_str := "validation error for " ++ cls |}
      end
  | _ =>
      inl {| lib_class := TypeError;
             lib_str := cls ++ "() argument after ** must be a mapping" |}
  end.

(** A nested model: pydantic takes a mapping for a field whose type is
    another model. *)
Definition nested {A : Type} (validate : dict -> option A)
    (v : JSON) : option A :=
  match v with
  | JDict d => validate d
  | _ => None
  end.

End Pydantic.

Import Pydantic.
Local Open Scope pydantic_scope.

Module HostConfig.
Record t : Type := {
  hostname : str;
  port : Z;            (* default 11434 *)
  protocol : str;      (* default "http" *)
  verify_ssl : bool    (* default True *)
}.

(** [f"{self.protocol}://{self.hostname}:{self.port}"] *)
Definition get_base_url (self : t) : str :=
  protocol self ++ "://" ++ hostname self ++ ":" ++ str_of_int (port self).
End HostConfig.

Module ModelDetails.
Record t : Type := {
  parent_model : option str;
  format : option str;
  family : option str;
  families : option (list str);
  parameter_size : option str;
  quantization_level : option str
}.

Definition validate `{PythonLibs} (d : dict) : option t :=
  a <- optional validate_str "parent_model" d ;;
  b <- optional validate_str "format" d ;;
  c <- optional validate_str "family" d ;;
  e <- optional (validate_list validate_str) "families" d ;;
  f <- optional validate_str "parameter_size" d ;;
  g <- optional validate_str "quantization_level" d ;;
  Some {| parent_model := a; format := b; family := c; families := e;
          parameter_size := f; quantization_level := g |}.
End ModelDetails.

Module ModelInfo.
Record t : Type := {
  name : str;
  model : str;     (* default: the empty string.  "Some API responses use
                      'model' instead of 'name'" *)
  modified_at : str;
  size : Z;
  digest : str;
  details : option ModelDetails.t
}.

Definition validate `{PythonLibs} (d : dict) : option t :=
  a <- required validate_str "name" d ;;
  b <- with_default validate_str EmptyString "model" d ;;
  c <- required validate_str "modified_at" d ;;
  e <- required validate_int "size" d ;;
  f <- required validate_str "digest" d ;;
  g <- optional (nested ModelDetails.validate) "details" d ;;
  Some {| name := a; model := b; modified_at := c; size := e; digest := f;
          details := g |}.

(** [return self.name or self.model] *)
Definition get_name (self : t) : str :=
  if truthy (name self) then name self else model self.
End ModelInfo.

Module GenerateResponse.
Record t : Type := {
  model : str;
  created_at : str;
  response : str;
  done : bool;
  context : option (list Z);
  total_duration : option Z;
  load_duration : option Z;
  prompt_eval_count : option Z;
  prompt_eval_duration : option Z;
  eval_count : option Z;
  eval_duration : option Z
}.

Definition validate `{PythonLibs} (d : dict) : option t :=
  a <- required validate_str "model" d ;;
  b <- required validate_str "created_at" d ;;
  c <- required validate_str "response" d ;;
  e <- required validate_bool "done" d ;;
  f <- optional (validate_list validate_int) "context" d ;;
  g <- optional validate_int "total_duration" d ;;
  h <- optional validate_int "load_duration" d ;;
  i <- optional validate_int "prompt_eval_count" d ;;
  j <- optional validate_int "prompt_eval_duration" d ;;
  k <- optional validate_int "eval_count" d ;;
  l <- optional validate_int "eval_duration" d ;;
  Some {| model := a; created_at := b; response := c; done := e;
          context := f; total_duration := g; load_duration := h;
          prompt_eval_count := i; prompt_eval_duration := j;
          eval_count := k; eval_duration := l |}.

Definition required_fields : list str :=
  ["model"; "created_at"; "response"; "done"].
End GenerateResponse.

Module ChatMessage.
(** [Literal["system", "user", "assistant"]] *)
Inductive Role : Type := system | user | assistant.

Definition role_name (r : Role) : str :=
  match r with
  | system => "system"
  | user => "user"
  | assistant => "assistant"
  end.

Definition validate_role (v : JSON) : option Role :=
  match v with
  | JStr s =>
      if s =? "system" then Some system
      else if s =? "user" then Some user
      else if s =? "assistant" then Some assistant
      else None
  | _ => None
  end.

Record t : Type := {
  role : Role;
  content : str;
  images : option (list str)
}.

Definition validate `{PythonLibs} (d : dict) : option t :=
  a <- required validate_role "role" d ;;
  b <- required validate_str "content" d ;;
  c <- optional (validate_list validate_str) "images" d ;;
  Some {| role := a; content := b; images := c |}.
End ChatMessage.

Module ChatResponse.
Record t : Type := {
  model : str;
  created_at : str;
  message : ChatMessage.t;
  done : bool;
  total_duration : option Z;
  load_duration : option Z;
  prompt_eval_count : option Z;
  prompt_eval_duration : option Z;
  eval_count : option Z;
  eval_duration : option Z
}.

Definition validate `{PythonLibs} (d : dict) : option t :=
  a <- required validate_str "model" d ;;
  b <- required validate_str "created_at" d ;;
  c <- required (nested ChatMessage.validate) "message" d ;;
  e <- required validate_bool "done" d ;;
  g <- optional validate_int "total_duration" d ;;
  h <- optional validate_int "load_duration" d ;;
  i <- optional validate_int "prompt_eval_count" d ;;
  j <- optional validate_int "prompt_eval_duration" d ;;
  k <- optional validate_int "eval_count" d ;;
  l <- optional validate_int "eval_duration" d ;;
  Some {| model := a; created_at := b; message := c; done := e;
          total_duration := g; load_duration := h;
          prompt_eval_count := i; prompt_eval_duration := j;
          eval_count := k; eval_duration := l |}.

Definition required_fields : list str :=
  ["model"; "created_at"; "message"; "done"].
End ChatResponse.

Module PullResponse.
Record t : Type := {
  status : str;
  digest : option str;
  total : option Z;
  completed : option Z
}.

Definition validate `{PythonLibs} (d : dict) : option t :=
  a <- required validate_str "status" d ;;
  b <- optional validate_str "digest" d ;;
  c <- optional validate_int "total" d ;;
  e <- optional validate_int "completed" d ;;
  Some {| status := a; digest := b; total := c; completed := e |}.

Definition required_fields : list str := ["status"].
End PullResponse.

Module PushResponse.
Record t : Type := {
  status : str;
  digest : option str;
  total : option Z;
  completed : option Z
}.

Definition validate `{PythonLibs} (d : dict) : option t :=
  a <- required validate_str "status" d ;;
  b <- optional validate_str "digest" d ;;
  c <- optional validate_int "total" d ;;
  e <- optional validate_int "completed" d ;;
  Some {| status := a; digest := b; total := c; completed := e |}.

Definition required_fields : list str := ["status"].
End PushResponse.

Module ShowResponse.
Record t : Type := {
  modelfile : option str;
  parameters : option str;
  template : option str;
  details : option ModelDetails.t;
  model_info : option dict
}.

Definition validate `{PythonLibs} (d : dict) : option t :=
  a <- optional validate_str "modelfile" d ;;
  b <- optional validate_str "parameters" d ;;
  c <- optional validate_str "template" d ;;
  e <- optional (nested ModelDetails.validate) "details" d ;;
  f <- optional validate_dict "model_info" d ;;
  Some {| modelfile := a; parameters := b; template := c; details := e;
          model_info := f |}.
End ShowResponse.

Module ListModelsResponse.
Record t : Type := { models : list ModelInfo.t }.

Definition validate `{PythonLibs} (d : dict) : option t :=
  a <- required (validate_list (nested ModelInfo.validate)) "models" d ;;
  Some {| models := a |}.
End ListModelsResponse.

Module EmbeddingsResponse.
Record t `{PythonLibs} : Type := { embedding : list pyfloat }.

Definition validate `{PythonLibs} (d : dict) : option t :=
  a <- required (validate_list validate_float) "embedding" d ;;
  Some {| embedding := a |}.
End EmbeddingsResponse.

(** *** Request models and [model_dump()]

    [model_dump()] returns a dict with every field of the model, in the
    order of declaration; a field whose value is [None] is kept, with the
    value [None]. *)

Definition dump_optional {A : Type} (dump : A -> JSON) (o : option A) : JSON :=
  match o with
  | Some a => dump a
  | None => JNull
  end.

Definition dump_list {A : Type} (dump : A -> JSON) (l : list A) : JSON :=
  JList (map dump l).

Module ChatMessageDump.
Import ChatMessage.
Definition model_dump (self : ChatMessage.t) : dict :=
  [ ("role", JStr (role_name (role self)));
    ("content", JStr (content self));
    ("images", dump_optional (dump_list JStr) (images self)) ].
End ChatMessageDump.

Module GenerateRequest.
Record t : Type := {
  model : str;
  prompt : str;
  stream : bool;                 (* = True *)
  system : option str;           (* = None *)
  template : option str;         (* = None *)
  context : option (list Z);     (* = None *)
  options : option dict;         (* = None *)
  format : option str;           (* = None *)
  raw : bool;                    (* = False *)
  keep_alive : option str        (* = None *)
}.

Definition model_dump (self : t) : dict :=
  [ ("model", JStr (model self));
    ("prompt", JStr (prompt self));
    ("stream", JBool (stream self));
    ("system", dump_optional JStr (system self));
    ("template", dump_optional JStr (template self));
    ("context", dump_optional (dump_list JInt) (context self));
    ("options", dump_optional JDict (options self));
    ("format", dump_optional JStr (format self));
    ("raw", JBool (raw self));
    ("keep_alive", dump_optional JStr (keep_alive self)) ].
End GenerateRequest.

Module ChatRequest.
Record t : Type := {
  model : str;
  messages : list ChatMessage.t;
  stream : bool;                 (* = True *)
  format : option str;           (* = None *)
  options : option dict;         (* = None *)
  template : option str;         (* = None *)
  keep_alive : option str        (* = None *)
}.

Definition model_dump (self : t) : dict :=
  [ ("model", JStr (model self));
    ("messages",
       dump_list (fun m => JDict (ChatMessageDump.model_dump m)) (messages self));
    ("stream", JBool (stream self));
    ("format", dump_optional JStr (format self));
    ("options", dump_optional JDict (options self));
    ("template", dump_optional JStr (template self));
    ("keep_alive", dump_optional JStr (keep_alive self)) ].
End ChatRequest.

Module PullRequest.
Record t : Type := {
  name : str;
  insecure : bool;   (* = False *)
  stream : bool      (* = True *)
}.

Definition model_dump (self : t) : dict :=
  [ ("name", JStr (name self));
    ("insecure", JBool (insecure self));
    ("stream", JBool (stream self)) ].
End PullRequest.

Module PushRequest.
Record t : Type := {
  name : str;
  insecure : bool;   (* = False *)
  stream : bool      (* = True *)
}.

Definition model_dump (self : t) : dict :=
  [ ("name", JStr (name self));
    ("insecure", JBool (insecure self));
    ("stream", JBool (stream self)) ].
End PushRequest.

Module DeleteRequest.
Record t : Type := { name : str }.
Definition model_dump (self : t) : dict := [ ("name", JStr (name self)) ].
End DeleteRequest.

Module ShowRequest.
Record t : Type := { name : str }.
Definition model_dump (self : t) : dict := [ ("name", JStr (name self)) ].
End ShowRequest.

Module EmbeddingsRequest.
Record t : Type := {
  model : str;
  prompt : str;
  options : option dict;     (* = None *)
  keep_alive : option str    (* = None *)
}.

Definition model_dump (self : t) : dict :=
  [ ("model", JStr (model self));
    ("prompt", JStr (prompt self));
    ("options", dump_optional JDict (options self));
    ("keep_alive", dump_optional JStr (keep_alive self)) ].
End EmbeddingsRequest.

(** ** client.py *)

(** *** What httpx gives the client *)

Record Request : Type := {
  method : str;
  endpoint : str;
  json_data : option JSON
}.

(** An exception of httpx raised while a request is sent or its body is
    read, with its text. *)
Record transport_error : Type := {
  te_class : httpx_error_class;
  te_text : str
}.

(** The response of [client.request]: the body has been read. *)
Record Response : Type := {
  status_code : Z;
  content : str
}.

(** The response of [client.stream]: the body arrives through
    [iter_lines()], which yields [stream_lines] and then stops, or raises
    [stream_broken]. *)
Record StreamResponse : Type := {
  stream_status_code : Z;
  stream_lines : list str;
  stream_broken : option transport_error
}.

(** The [httpx.Client] held by the client, bound to one server. *)
Record HttpxClient : Type := {
  request : Request -> transport_error + Response;
  stream : Request -> transport_error + StreamResponse
}.

(** [response.is_success]: a 2xx status. *)
Definition is_success (status : Z) : bool :=
  (200 <=? status)%Z && (status <=? 299)%Z.

(** What the body of the [try] block of a request raises; [R] is the type
    of the response an [HTTPStatusError] carries. *)
Inductive raised (R : Type) : Type :=
| FromTransport (e : transport_error)
| FromStatus (response : R)       (* response.raise_for_status() *)
| FromJson (e : json_error) (text : str).   (* response.json(), json.loads *)
Arguments FromTransport {R} e.
Arguments FromStatus {R} response.
Arguments FromJson {R} e text.

Definition raised_class {R : Type} (e : raised R) : py_class :=
  match e with
  | FromTransport t => Httpx (te_class t)
  | FromStatus _ => HTTPStatusError
  | FromJson e _ => json_error_class e
  end.

(** [str(e)].  The client never formats an [HTTPStatusError]. *)
Definition raised_str {R : Type} (e : raised R) : str :=
  match e with
  | FromTransport t => te_text t
  | FromStatus _ => "HTTP status error"
  | FromJson _ text => text
  end.

Definition raised_lib {R : Type} (e : raised R) : lib_exn :=
  {| lib_class := raised_class e; lib_str := raised_str e |}.

Definition type_error (text : str) : exn := mk_exn TypeError (JStr text) None.

(** ["error" in error_data] *)
Definition py_in (k : str) (container : JSON) : Result bool :=
  match container with
  | JDict d => Ok (dict_has k d)
  | JStr s => Ok (str_contains k s)
  | JList l =>
      Ok (existsb (fun x => match x with JStr s => s =? k | _ => false end) l)
  | _ => Raise (type_error "argument is not iterable")
  end.

(** [error_data["error"]] *)
Definition py_getitem (container : JSON) (k : str) : Result JSON :=
  match container with
  | JDict d =>
      match dict_get k d with
      | Some v => Ok v
      | None => Raise (mk_exn KeyError (JStr k) None)
      end
  | JStr _ => Raise (type_error "string indices must be integers")
  | JList _ => Raise (type_error "list indices must be integers or slices")
  | _ => Raise (type_error "object is not subscriptable")
  end.

Definition connection_error (text : str) : exn :=
  mk_exn OllamaConnectionError (JStr text) None.

Definition client_error (text : str) : exn :=
  mk_exn OllamaClientError (JStr text) None.

(** [OllamaAPIError(message, status_code)] *)
Definition api_error (message : JSON) (status : Z) : exn :=
  mk_exn OllamaAPIError message (Some status).

(** The handler of [httpx.HTTPStatusError], the same in both request
    functions.  [error_data] is the outcome of [e.response.json()]; any
    exception inside the inner [try] leaves [error_msg] as it was. *)
Definition on_status_error (status : Z) (error_data : Result JSON) : exn :=
  let error_msg := JStr ("API error: " ++ str_of_int status) in
  let error_msg :=
    match error_data with
    | Ok error_data =>
        match py_in "error" error_data with
        | Ok true =>
            match py_getitem error_data "error" with
            | Ok v => v
            | Raise _ => error_msg
            end
        | Ok false => error_msg
        | Raise _ => error_msg
        end
    | Raise _ => error_msg
    end in
  api_error error_msg status.

Module OllamaClient.

Record t : Type := {
  host_config : HostConfig.t;
  base_url : str;
  timeout : Z;
  client : HttpxClient
}.

(** [OllamaClient(host_config, timeout)]; [net] is the server behind the
    [httpx.Client] that the constructor opens on [base_url]. *)
Definition __init__ (host_config : HostConfig.t) (timeout : Z)
    (net : HttpxClient) : t :=
  {| host_config := host_config;
     base_url := HostConfig.get_base_url host_config;
     timeout := timeout;
     client := net |}.

Section Methods.
Context `{PythonLibs}.

(** [response.json()] on a response whose body has been read. *)
Definition response_json (response : Response) : Result JSON :=
  match json_loads (content response) with
  | Some v => Ok v
  | None =>
      Raise (mk_exn (json_error_class (json_raises (content response)))
               (JStr (json_error_text (content response))) None)
  end.

(** [response.json()] on a streaming response: the body has not been
    read, httpx raises [ResponseNotRead]. *)
Definition stream_response_json (response : StreamResponse) : Result JSON :=
  Raise (mk_exn ResponseNotRead
           (JStr "Attempted to access streaming response content") None).

(** The three [except] clauses that [_make_request] and [_stream_request]
    share, tried in order; [None] when none of them matches. *)
Definition except_clauses {R : Type} (self : t) (status_of : R -> Z)
    (json_of : R -> Result JSON) (e : raised R) : option exn :=
  if issubclass (raised_class e) (Httpx ConnectError) then
    Some (connection_error
            ("Failed to connect to Ollama server at " ++ base_url self
             ++ ": " ++ raised_str e))
  else if issubclass (raised_class e) TimeoutException then
    Some (connection_error
            ("Request to " ++ base_url self ++ " timed out: " ++ raised_str e))
  else
    match e with
    | FromStatus response =>
        Some (on_status_error (status_of response) (json_of response))
    | _ => None
    end.

(** The body of the [try] block of [_make_request]. *)
Definition make_request_body (self : t) (req : Request)
    : raised Response + JSON :=
  match request (client self) req with
  | inl e => inl (FromTransport e)
  | inr response =>
      if is_success (status_code response) then
        match json_loads (content response) with
        | Some v => inr v
        | None =>
            inl (FromJson (json_raises (content response))
                   (json_error_text (content response)))
        end
      else inl (FromStatus response)
  end.

Definition _make_request (self : t) (method endpoint : str)
    (json_data : option JSON) : Result JSON :=
  match make_request_body self
          {| method := method; endpoint := endpoint; json_data := json_data |}
  with
  | inr data => Ok data
  | inl e =>
      match except_clauses self status_code response_json e with
      | Some e' => Raise e'
      | None =>
          if issubclass (raised_class e) Exception then
            Raise (client_error ("Unexpected error: " ++ raised_str e))
          else Raise (propagate (raised_lib e))
      end
  end.

(** The loop over [response.iter_lines()]: the chunks it yields and, when
    [json.loads] raises what [except json.JSONDecodeError] does not
    catch, the exception that ends it. *)
Fixpoint iter_lines_loop (lines : list str)
    : list JSON * option (raised StreamResponse) :=
  match lines with
  | [] => ([], None)
  | line :: rest =>
      if truthy (strip line) then
        match json_loads line with
        | Some chunk =>
            let (chunks, e) := iter_lines_loop rest in (chunk :: chunks, e)
        | None =>
            if issubclass (json_error_class (json_raises line))
                 JSONDecodeError
            then iter_lines_loop rest        (* skip invalid JSON lines *)
            else ([], Some (FromJson (json_raises line)
                              (json_error_text line)))
        end
      else iter_lines_loop rest
  end.

(** How an exception raised inside the [with] block leaves
    [_stream_request]: through one of the three clauses, or as it is. *)
Definition stream_raise (self : t) (e : raised StreamResponse) : exn :=
  match except_clauses self stream_status_code stream_response_json e with
  | Some e' => e'
  | None => propagate (raised_lib e)
  end.

Definition _stream_request (self : t) (method endpoint : str)
    (json_data : JSON) : Gen JSON :=
  match stream (client self)
          {| method := method; endpoint := endpoint;
             json_data := Some json_data |}
  with
  | inl e => mk_gen [] (Some (stream_raise self (FromTransport e)))
  | inr response =>
      if is_success (stream_status_code response) then
        match iter_lines_loop (stream_lines response) with
        | (chunks, Some e) => mk_gen chunks (Some (stream_raise self e))
        | (chunks, None) =>
            mk_gen chunks
                   (match stream_broken response with
                    | Some e => Some (stream_raise self (FromTransport e))
                    | None => None
                    end)
        end
      else mk_gen [] (Some (stream_raise self (FromStatus response)))
  end.

(** The handler [except ValidationError as e] of the unary operations:
    [raise OllamaClientError(f"<failure>: {e}")]; any other exception
    leaves the operation. *)
Definition except_validation_error {A : Type} (failure : str)
    (r : lib_exn + A) : Result A :=
  match r with
  | inr a => Ok a
  | inl e =>
      if issubclass (lib_class e) ValidationError then
        Raise (client_error (failure ++ ": " ++ lib_str e))
      else Raise (propagate e)
  end.

(** The nested [generator()] of the streaming operations: every chunk of
    the inner generator goes through the model class; a
    [ValidationError] skips the chunk, any other exception ends the
    generator; when the chunks are exhausted the generator ends as the
    inner one did. *)
Fixpoint generator_loop {A : Type} (ctor : JSON -> lib_exn + A)
    (chunks : list JSON) (inner_end : option exn) : Gen A :=
  match chunks with
  | [] => mk_gen [] inner_end
  | chunk :: rest =>
      match ctor chunk with
      | inr r =>
          let g := generator_loop ctor rest inner_end in
          mk_gen (r :: yielded g) (ended_by g)
      | inl e =>
          if issubclass (lib_class e) ValidationError then
            generator_loop ctor rest inner_end      (* skip invalid chunks *)
          else mk_gen [] (Some (propagate e))
      end
  end.

Definition generator {A : Type} (ctor : JSON -> lib_exn + A)
    (inner : Gen JSON) : Gen A :=
  generator_loop ctor (yielded inner) (ended_by inner).

(** **** Model management *)

Definition list_models (self : t) : Result (list ModelInfo.t) :=
  match _make_request self "GET" "/api/tags" None with
  | Raise e => Raise e
  | Ok data =>
      match except_validation_error "Failed to parse models list"
              (construct "ListModelsResponse" ListModelsResponse.validate data)
      with
      | Ok response => Ok (ListModelsResponse.models response)
      | Raise e => Raise e
      end
  end.

Definition show_model (self : t) (name : str) : Result ShowResponse.t :=
  let request := {| ShowRequest.name := name |} in
  match _make_request self "POST" "/api/show"
          (Some (JDict (ShowRequest.model_dump request)))
  with
  | Raise e => Raise e
  | Ok data =>
      except_validation_error "Failed to parse model details"
        (construct "ShowResponse" ShowResponse.validate data)
  end.

Definition pull_model (self : t) (name : str) (stream insecure : bool)
    : Mode PullResponse.t JSON :=
  let request :=
    {| PullRequest.name := name; PullRequest.stream := stream;
       PullRequest.insecure := insecure |} in
  if stream then
    Streamed
      (generator (construct "PullResponse" PullResponse.validate)
         (_stream_request self "POST" "/api/pull"
            (JDict (PullRequest.model_dump request))))
  else
    Unary (_make_request self "POST" "/api/pull"
             (Some (JDict (PullRequest.model_dump request)))).

Definition push_model (self : t) (name : str) (stream insecure : bool)
    : Mode PushResponse.t JSON :=
  let request :=
    {| PushRequest.name := name; PushRequest.stream := stream;
       PushRequest.insecure := insecure |} in
  if stream then
    Streamed
      (generator (construct "PushResponse" PushResponse.validate)
         (_stream_request self "POST" "/api/push"
            (JDict (PushRequest.model_dump request))))
  else
    Unary (_make_request self "POST" "/api/push"
             (Some (JDict (PushRequest.model_dump request)))).

Definition delete_model (self : t) (name : str) : Result unit :=
  let request := {| DeleteRequest.name := name |} in
  match _make_request self "DELETE" "/api/delete"
          (Some (JDict (DeleteRequest.model_dump request)))
  with
  | Raise e => Raise e
  | Ok _ => Ok tt
  end.

(** **** Generation *)

(** [GenerateRequest(model=..., prompt=..., stream=..., system=...,
    template=..., context=..., options=...)]: the three other fields take
    their defaults. *)
Definition generate_request (model prompt : str) (stream : bool)
    (system template : option str) (context : option (list Z))
    (options : option dict) : GenerateRequest.t :=
  {| GenerateRequest.model := model;
     GenerateRequest.prompt := prompt;
     GenerateRequest.stream := stream;
     GenerateRequest.system := system;
     GenerateRequest.template := template;
     GenerateRequest.context := context;
     GenerateRequest.options := options;
     GenerateRequest.format := None;
     GenerateRequest.raw := false;
     GenerateRequest.keep_alive := None |}.

Definition generate (self : t) (model prompt : str) (stream : bool)
    (system template : option str) (context : option (list Z))
    (options : option dict) : Mode GenerateResponse.t GenerateResponse.t :=
  let request :=
    generate_request model prompt stream system template context options in
  if stream then
    Streamed
      (generator (construct "GenerateResponse" GenerateResponse.validate)
         (_stream_request self "POST" "/api/generate"
            (JDict (GenerateRequest.model_dump request))))
  else
    Unary
      match _make_request self "POST" "/api/generate"
              (Some (JDict (GenerateRequest.model_dump request)))
      with
      | Raise e => Raise e
      | Ok data =>
          except_validation_error "Failed to parse generate response"
            (construct "GenerateResponse" GenerateResponse.validate data)
      end.

(** [ChatRequest(model=..., messages=..., stream=..., options=...)]: the
    three other fields take their defaults. *)
Definition chat_request_of (model : str) (messages : list ChatMessage.t)
    (stream : bool) (options : option dict) : ChatRequest.t :=
  {| ChatRequest.model := model;
     ChatRequest.messages := messages;
     ChatRequest.stream := stream;
     ChatRequest.format := None;
     ChatRequest.options := options;
     ChatRequest.template := None;
     ChatRequest.keep_alive := None |}.

(** The caller's messages are dicts, which pydantic validates as
    [ChatMessage] when the request is built. *)
Definition chat_request (model : str) (messages : list JSON) (stream : bool)
    (options : option dict) : lib_exn + ChatRequest.t :=
  match validate_items (nested ChatMessage.validate) messages with
  | Some ms => inr (chat_request_of model ms stream options)
  | None =>
      inl {| lib_class := ValidationError;
             lib_str := "validation error for ChatRequest" |}
  end.

Definition chat (self : t) (model : str) (messages : list JSON)
    (stream : bool) (options : option dict)
    : Result (Mode ChatResponse.t ChatResponse.t) :=
  match chat_request model messages stream options with
  | inl e => Raise (propagate e)
  | inr request =>
      Ok (if stream then
            Streamed
              (generator (construct "ChatResponse" ChatResponse.validate)
                 (_stream_request self "POST" "/api/chat"
                    (JDict (ChatRequest.model_dump request))))
          else
            Unary
              match _make_request self "POST" "/api/chat"
                      (Some (JDict (ChatRequest.model_dump request)))
              with
              | Raise e => Raise e
              | Ok data =>
                  except_validation_error "Failed to parse chat response"
                    (construct "ChatResponse" ChatResponse.validate data)
              end)
  end.

(** **** Utilities *)

Definition embeddings_request (model prompt : str) (options : option dict)
    : EmbeddingsRequest.t :=
  {| EmbeddingsRequest.model := model;
     EmbeddingsRequest.prompt := prompt;
     EmbeddingsRequest.options := options;
     EmbeddingsRequest.keep_alive := None |}.

Definition embeddings (self : t) (model prompt : str)
    (options : option dict) : Result (list pyfloat) :=
  let request := embeddings_request model prompt options in
  match _make_request self "POST" "/api/embeddings"
          (Some (JDict (EmbeddingsRequest.model_dump request)))
  with
  | Raise e => Raise e
  | Ok data =>
      match except_validation_error "Failed to parse embeddings response"
              (construct "EmbeddingsResponse" EmbeddingsResponse.validate data)
      with
      | Ok response => Ok (EmbeddingsResponse.embedding response)
      | Raise e => Raise e
      end
  end.

(** [try: self._make_request("GET", "/"); return True]
    [except Exception: return False] *)
Definition health_check (self : t) : Result bool :=
  match _make_request self "GET" "/" None with
  | Ok _ => Ok true
  | Raise e => if isinstance e Exception then Ok false else Raise e
  end.

(** **** The operations as one family *)

Inductive Call : Type :=
| ListModels
| ShowModel (name : str)
| PullModel (name : str) (stream insecure : bool)
| PushModel (name : str) (stream insecure : bool)
| DeleteModel (name : str)
| Generate (model prompt : str) (stream : bool)
    (system template : option str) (context : option (list Z))
    (options : option dict)
| Chat (model : str) (messages : list JSON) (stream : bool)
    (options : option dict)
| Embeddings (model prompt : str) (options : option dict)
| HealthCheck.

(** The call is made in unary mode: the operation has no [stream] flag, or
    the flag is off. *)
Definition is_unary (c : Call) : bool :=
  match c with
  | PullModel _ stream _ | PushModel _ stream _
  | Generate _ _ stream _ _ _ _ | Chat _ _ stream _ => negb stream
  | _ => true
  end.

Definition mode_error {S U : Type} (m : Mode S U) : option exn :=
  match m with
  | Streamed g => ended_by g
  | Unary r => raised_by r
  end.

(** The exception the caller sees: raised by the call, or by the generator
    it returned when that is consumed to the end. *)
Definition call_error (self : t) (c : Call) : option exn :=
  match c with
  | ListModels => raised_by (list_models self)
  | ShowModel name => raised_by (show_model self name)
  | PullModel name stream insecure =>
      mode_error (pull_model self name stream insecure)
  | PushModel name stream insecure =>
      mode_error (push_model self name stream insecure)
  | DeleteModel name => raised_by (delete_model self name)
  | Generate model prompt stream system template context options =>
      mode_error
        (generate self model prompt stream system template context options)
  | Chat model messages stream options =>
      match chat self model messages stream options with
      | Raise e => Some e
      | Ok m => mode_error m
      end
  | Embeddings model prompt options =>
      raised_by (embeddings self model prompt options)
  | HealthCheck => raised_by (health_check self)
  end.

End Methods.
End OllamaClient.

(** ** A reference instance of the libraries

    A decoder for JSON texts and exact-type scalar validators, to run the
    client on concrete inputs.  The decoder follows [json.loads]: optional
    white space (space, tab, line feed, carriage return) around one value;
    objects, whose later duplicate keys replace earlier ones; arrays;
    strings in strict mode (no raw control character); numbers, an integer
    when there is neither fraction nor exponent and otherwise a float kept
    as its literal; [true], [false], [null], [NaN], [Infinity] and
    [-Infinity].  An integer of more than 4300 digits is refused with
    the [ValueError] of [int()]; whatever fails first from the left is
    what is raised.  A [\u] escape above U+00FF denotes a character
    outside the range of this embedding and is not taken; the limit on
    nesting, which hangs on the depth of the interpreter's stack at the
    call, is not reproduced. *)
Module Reference.

Definition is_ws (c : ascii) : bool :=
  let n := code c in ((n =? 32) || (n =? 9) || (n =? 10) || (n =? 13))%N.

Fixpoint skip_ws (s : str) : str :=
  match s with
  | String c r => if is_ws c then skip_ws r else s
  | EmptyString => s
  end.

Definition is_digit (c : ascii) : bool :=
  let n := code c in ((48 <=? n) && (n <=? 57))%N.

Fixpoint take_digits (s : str) : str * str :=
  match s with
  | String c r =>
      if is_digit c then let (ds, rest) := take_digits r in (String c ds, rest)
      else (EmptyString, s)
  | EmptyString => (EmptyString, s)
  end.

Fixpoint digits_value (acc : Z) (ds : str) : Z :=
  match ds with
  | String c r => digits_value (10 * acc + Z.of_N (code c - 48)) r
  | EmptyString => acc
  end.

(** The optional groups [(\.\d+)?] and [([eE][-+]?\d+)?] of the number
    pattern: the text matched (empty when the group does not match) and
    what follows. *)
Definition take_frac (s : str) : str * str :=
  match s with
  | String "." r =>
      match take_digits r with
      | (EmptyString, _) => (EmptyString, s)
      | (ds, rest) => (String "." ds, rest)
      end
  | _ => (EmptyString, s)
  end.

Definition take_exp (s : str) : str * str :=
  match s with
  | String e r =>
      if ((code e =? 101) || (code e =? 69))%N then
        let (sign, r') :=
          match r with
          | String "-" r' => ("-", r')
          | String "+" r' => ("+", r')
          | _ => (EmptyString, r)
          end in
        match take_digits r' with
        | (EmptyString, _) => (EmptyString, s)
        | (ds, rest) => (String e (sign ++ ds), rest)
        end
      else (EmptyString, s)
  | _ => (EmptyString, s)
  end.

(** The number of digits up to which [int()] converts a text
    ([sys.get_int_max_str_digits()]). *)
Definition max_str_digits : nat := 4300.

(** An optional minus sign, then a single zero or a digit string that
    does not start with zero, then the optional groups.  An integer is
    converted by [int()], which refuses more than [max_str_digits]
    digits with a [ValueError]. *)
Definition parse_number (s : str) : json_error + (JSON * str) :=
  let (neg, s1) :=
    match s with
    | String "-" r => (true, r)
    | _ => (false, s)
    end in
  let int_part :=
    match s1 with
    | String "0" r => Some ("0", r)
    | String c r =>
        if is_digit c
        then let (ds, rest) := take_digits r in Some (String c ds, rest)
        else None
    | EmptyString => None
    end in
  match int_part with
  | None => inl NotJSON
  | Some (ds, r1) =>
      let (frac, r2) := take_frac r1 in
      let (exp, r3) := take_exp r2 in
      match frac, exp with
      | EmptyString, EmptyString =>
          if (max_str_digits <? length ds)%nat then inl IntegerTooLong
          else
            let n := digits_value 0 ds in
            inr (JInt (if neg then - n else n), r3)
      | _, _ =>
          inr (JFloat ((if neg then "-" else EmptyString) ++ ds ++ frac ++ exp), r3)
      end
  end.

Definition hex_value (c : ascii) : option N :=
  let n := code c in
  if ((48 <=? n) && (n <=? 57))%N then Some (n - 48)%N
  else if ((97 <=? n) && (n <=? 102))%N then Some (n - 87)%N
  else if ((65 <=? n) && (n <=? 70))%N then Some (n - 55)%N
  else None.

(** The character an escape letter stands for. *)
Definition simple_escape (e : ascii) : option ascii :=
  let n := code e in
  if (n =? 34)%N then Some e            (* quotation mark *)
  else if (n =? 92)%N then Some e       (* reverse solidus *)
  else if (n =? 47)%N then Some e       (* solidus *)
  else if (n =? 98)%N then Some (ascii_of_N 8)     (* b *)
  else if (n =? 102)%N then Some (ascii_of_N 12)   (* f *)
  else if (n =? 110)%N then Some (ascii_of_N 10)   (* n *)
  else if (n =? 114)%N then Some (ascii_of_N 13)   (* r *)
  else if (n =? 116)%N then Some (ascii_of_N 9)    (* t *)
  else None.

(** Four hexadecimal digits naming a character up to U+00FF. *)
Definition unicode_escape (a b c d : ascii) : option ascii :=
  match hex_value a, hex_value b, hex_value c, hex_value d with
  | Some 0%N, Some 0%N, Some h, Some l => Some (ascii_of_N (16 * h + l))
  | _, _, _, _ => None
  end.

Definition cons_char (c : ascii) (o : option (str * str)) : option (str * str) :=
  match o with
  | Some (t, rest) => Some (String c t, rest)
  | None => None
  end.

(** The characters of a string literal after its opening quote, up to the
    closing quote, and what follows it. *)
Fixpoint parse_string (s : str) : option (str * str) :=
  match s with
  | EmptyString => None
  | String c r =>
      let n := code c in
      if (n =? 34)%N then Some (EmptyString, r)
      else if (n =? 92)%N then
        match r with
        | String e r1 =>
            if (code e =? 117)%N then
              match r1 with
              | String a (String b (String x (String y r2))) =>
                  match unicode_escape a b x y with
                  | Some u => cons_char u (parse_string r2)
                  | None => None
                  end
              | _ => None
              end
            else
              match simple_escape e with
              | Some u => cons_char u (parse_string r1)
              | None => None
              end
        | EmptyString => None
        end
      else if (n <? 32)%N then None
      else cons_char c (parse_string r)
  end.

(** A word such as [null] at the head of the text. *)
Definition take_word (w : str) (v : JSON) (s : str)
    : json_error + (JSON * str) :=
  if prefix w s then inr (v, substring (length w) (length s - length w) s)
  else inl NotJSON.

Definition parse_scalar (s : str) : json_error + (JSON * str) :=
  match s with
  | String c _ =>
      let n := code c in
      if (n =? 110)%N then take_word "null" JNull s
      else if (n =? 116)%N then take_word "true" (JBool true) s
      else if (n =? 102)%N then take_word "false" (JBool false) s
      else
        match parse_number s with
        | inr r => inr r
        | inl IntegerTooLong => inl IntegerTooLong
        | inl _ =>
            if (n =? 78)%N then take_word "NaN" (JFloat "NaN") s
            else if (n =? 73)%N then take_word "Infinity" (JFloat "Infinity") s
            else if (n =? 45)%N then take_word "-Infinity" (JFloat "-Infinity") s
            else inl NotJSON
        end
  | EmptyString => inl NotJSON
  end.

(** One value; the first failure met from the left is the one raised.
    [fuel] bounds the nesting and the number of items read; twice the
    length of the text is enough. *)
Fixpoint parse_value (fuel : nat) (s : str) : json_error + (JSON * str) :=
  match fuel with
  | O => inl NotJSON
  | S fuel =>
      match s with
      | String c r =>
          let n := code c in
          if (n =? 34)%N then
            match parse_string r with
            | Some (t, rest) => inr (JStr t, rest)
            | None => inl NotJSON
            end
          else if (n =? 123)%N then
            match skip_ws r with
            | String c' r' =>
                if (code c' =? 125)%N then inr (JDict [], r')
                else parse_members fuel (skip_ws r) []
            | EmptyString => inl NotJSON
            end
          else if (n =? 91)%N then
            match skip_ws r with
            | String c' r' =>
                if (code c' =? 93)%N then inr (JList [], r')
                else parse_items fuel (skip_ws r) []
            | EmptyString => inl NotJSON
            end
          else parse_scalar s
      | EmptyString => inl NotJSON
      end
  end
with parse_items (fuel : nat) (s : str) (acc : list JSON)
    : json_error + (JSON * str) :=
  match fuel with
  | O => inl NotJSON
  | S fuel =>
      match parse_value fuel s with
      | inr (v, r) =>
          match skip_ws r with
          | String c r' =>
              if (code c =? 93)%N then inr (JList (rev (v :: acc)), r')
              else if (code c =? 44)%N
              then parse_items fuel (skip_ws r') (v :: acc)
              else inl NotJSON
          | EmptyString => inl NotJSON
          end
      | inl e => inl e
      end
  end
with parse_members (fuel : nat) (s : str) (acc : dict)
    : json_error + (JSON * str) :=
  match fuel with
  | O => inl NotJSON
  | S fuel =>
      match s with
      | String q r =>
          if (code q =? 34)%N then
            match parse_string r with
            | Some (k, r1) =>
                match skip_ws r1 with
                | String colon r2 =>
                    if (code colon =? 58)%N then
                      match parse_value fuel (skip_ws r2) with
                      | inr (v, r3) =>
                          match skip_ws r3 with
                          | String c r4 =>
                              if (code c =? 125)%N
                              then inr (JDict (dict_set k v acc), r4)
                              else if (code c =? 44)%N
                              then parse_members fuel (skip_ws r4)
                                     (dict_set k v acc)
                              else inl NotJSON
                          | EmptyString => inl NotJSON
                          end
                      | inl e => inl e
                      end
                    else inl NotJSON
                | EmptyString => inl NotJSON
                end
            | None => inl NotJSON
            end
          else inl NotJSON
      | EmptyString => inl NotJSON
      end
  end.

(** [json.loads(s)]: the value, or the exception raised. *)
Definition decode (s : str) : json_error + JSON :=
  match parse_value (2 * length s + 2) (skip_ws s) with
  | inr (v, rest) =>
      match skip_ws rest with
      | EmptyString => inr v
      | _ => inl NotJSON           (* extra data *)
      end
  | inl e => inl e
  end.

Definition loads (s : str) : option JSON :=
  match decode s with
  | inr v => Some v
  | inl _ => None
  end.

Definition raises (s : str) : json_error :=
  match decode s with
  | inr _ => NotJSON
  | inl e => e
  end.

(** A stand-in for [str(e)]: the opening words of the text of the
    library. *)
Definition error_text (s : str) : str :=
  match raises s with
  | IntegerTooLong =>
      "Exceeds the limit (4300 digits) for integer string conversion"
  | _ => "Expecting value"
  end.

Definition exact_str (v : JSON) : option str :=
  match v with JStr s => Some s | _ => None end.

Definition exact_int (v : JSON) : option Z :=
  match v with JInt n => Some n | _ => None end.

Definition exact_bool (v : JSON) : option bool :=
  match v with JBool b => Some b | _ => None end.

(** A float is kept as its decimal literal. *)
Definition exact_float (v : JSON) : option str :=
  match v with
  | JFloat l => Some l
  | JInt n => Some (str_of_int n)
  | _ => None
  end.

(** The JSON text of a value, to write the examples: what [json.dumps]
    prints for values whose strings hold neither quotes, reverse solidi
    nor control characters. *)
Definition quoted (s : str) : str :=
  String (ascii_of_N 34) (s ++ String (ascii_of_N 34) EmptyString).

Fixpoint join (sep : str) (parts : list str) : str :=
  match parts with
  | [] => EmptyString
  | [p] => p
  | p :: rest => p ++ sep ++ join sep rest
  end.

Fixpoint dumps (v : JSON) : str :=
  match v with
  | JNull => "null"
  | JBool true => "true"
  | JBool false => "false"
  | JInt n => str_of_int n
  | JFloat l => l
  | JStr s => quoted s
  | JList items => "[" ++ join ", " (map dumps items) ++ "]"
  | JDict entries =>
      "{" ++ join ", "
               (map (fun kv => quoted (fst kv) ++ ": " ++ dumps (snd kv))
                    entries)
      ++ "}"
  end.

#[export] Instance libs : PythonLibs := {
  json_loads := loads;
  json_raises := raises;
  json_error_text := error_text;
  pyfloat := str;
  validate_str := exact_str;
  validate_int := exact_int;
  validate_bool := exact_bool;
  validate_float := exact_float
}.

End Reference.

(** ** Vocabulary of the statements *)

(** A line that holds white space only. *)
Definition is_blank (line : str) : bool := forallb isspace (chars line).

Section Decoding.
Context `{PythonLibs}.

(** NDJSON decoding as the specification words it: a blank line gives
    nothing, a line that is not JSON gives nothing, a JSON line gives its
    value, and the order of the lines is kept. *)
Inductive decodes : list str -> list JSON -> Prop :=
| decodes_end : decodes [] []
| decodes_blank line rest vs :
    is_blank line = true -> decodes rest vs -> decodes (line :: rest) vs
| decodes_malformed line rest vs :
    is_blank line = false -> json_loads line = None ->
    decodes rest vs -> decodes (line :: rest) vs
| decodes_valid line rest v vs :
    is_blank line = false -> json_loads line = Some v ->
    decodes rest vs -> decodes (line :: rest) (v :: vs).

(** The decoder copes with the line: the line is blank, so never
    decoded, or [json.loads] returns a value, or it raises
    [json.JSONDecodeError]. *)
Definition decoder_copes (line : str) : bool :=
  is_blank line
  || match json_loads line with
     | Some _ => true
     | None =>
         issubclass (json_error_class (json_raises line)) JSONDecodeError
     end.

(** The value of the ["error"] field of a body that decodes to a JSON
    object holding that field. *)
Definition error_field (body : str) : option JSON :=
  match json_loads body with
  | Some (JDict d) => dict_get "error" d
  | _ => None
  end.

End Decoding.

Definition keys (d : dict) : list str := map fst d.

(** The keys of a payload whose value is [null]. *)
Definition null_keys (d : dict) : list str :=
  map fst (filter (fun kv => is_null (snd kv)) d).

(** The key of an optional argument that was not supplied. *)
Definition absent {A : Type} (k : str) (o : option A) : list str :=
  match o with
  | None => [k]
  | Some _ => []
  end.

(** Every key in [ks] is present in the dict. *)
Definition has_keys (ks : list str) (d : dict) : Prop :=
  Forall (fun k => dict_has k d = true) ks.

(** The exception, when it is an [OllamaConnectionError], has a text
    message in which the base URL of the client occurs. *)
Definition names_base_url (self : OllamaClient.t) (e : exn) : Prop :=
  isinstance e OllamaConnectionError = true ->
  exists text,
    exn_message e = JStr text /\ occurs_in (OllamaClient.base_url self) text.

(** What a unary call may raise: an instance of [OllamaClientError], or
    the [TypeError] of a body that is no mapping, or the
    [ValidationError] of a chat message the request model refuses. *)
Definition unary_error_kind (e : exn) : Prop :=
  isinstance e OllamaClientError = true
  \/ exn_class e = TypeError
  \/ exn_class e = ValidationError.

(** *** Servers for the examples *)

Module Examples.

Definition host : HostConfig.t :=
  {| HostConfig.hostname := "example.com";
     HostConfig.port := 443;
     HostConfig.protocol := "https";
     HostConfig.verify_ssl := true |}.

Definition refused : transport_error :=
  {| te_class := ConnectError; te_text := "connection refused" |}.

(** Nothing listens at the address. *)
Definition refusing : HttpxClient :=
  {| request := fun _ => inl refused; stream := fun _ => inl refused |}.

(** Every request is answered with this status and body. *)
Definition answering (status : Z) (body : str) : HttpxClient :=
  {| request := fun _ => inr {| status_code := status; content := body |};
     stream := fun _ =>
       inr {| stream_status_code := status; stream_lines := [body];
              stream_broken := None |} |}.

(** Every streaming request is answered with status 200 and these lines. *)
Definition streaming (lines : list str) : HttpxClient :=
  {| request := fun _ => inl refused;
     stream := fun _ =>
       inr {| stream_status_code := 200; stream_lines := lines;
              stream_broken := None |} |}.

Definition client_of (net : HttpxClient) : OllamaClient.t :=
  OllamaClient.__init__ host 120 net.

(** Lines of a pull stream, with a blank line, a line that is not JSON and
    a line of spaces among them. *)
Definition ndjson : list str :=
  [ Reference.dumps (JDict [("status", JStr "pulling manifest")]);
    EmptyString;
    "not json";
    "   ";
    Reference.dumps (JDict [("status", JStr "success")]) ].

(** Lines of a pull stream, the second a JSON number. *)
Definition pull_lines_with_number : list str :=
  [ Reference.dumps (JDict [("status", JStr "pulling manifest")]);
    "42";
    Reference.dumps (JDict [("status", JStr "success")]) ].

(** The body of a 404 answer of the server. *)
Definition not_found_body : str :=
  Reference.dumps (JDict [("error", JStr "model not found")]).

(** A JSON object that is no [PullResponse]: its status is a number. *)
Definition odd_status_body : str :=
  Reference.dumps (JDict [("status", JInt 7)]).

(** A server that answers every request with status 200 and the JSON
    body it was sent. *)
Definition echo : HttpxClient :=
  {| request := fun req =>
       inr {| status_code := 200;
              content := Reference.dumps
                           match json_data req with
                           | Some v => v
                           | None => JNull
                           end |};
     stream := fun _ => inl refused |}.

(** A model list whose only entry carries its name under ["model"]. *)
Definition entry_named_by_model : dict :=
  [ ("model", JStr "llama2");
    ("modified_at", JStr "2024-01-01T00:00:00Z");
    ("size", JInt 3825819519);
    ("digest", JStr "abc123") ].

Definition tags_named_by_model : str :=
  Reference.dumps (JDict [("models", JList [JDict entry_named_by_model])]).

End Examples.

From Stdlib Require DecimalZ.

(** ** More of Python's strings *)

(** [len(s)] *)
Definition py_len (s : str) : Z := Z.of_nat (length s).

(** [s[:stop]]: a negative [stop] counts from the end; the bound is
    clamped to the text. *)
Definition slice_to (s : str) (stop : Z) : str :=
  let n := py_len s in
  let k := if (stop <? 0)%Z then Z.max 0 (n + stop) else Z.min stop n in
  substring 0 (Z.to_nat k) s.

Definition is_colon (c : ascii) : bool := (code c =? 58)%N.

(** The test [":" in s] and the split [s.rsplit(":", 1)] in one: [None]
    when the text holds no colon, else the text before the last colon and
    the text after it. *)
Fixpoint rsplit_colon (s : str) : option (str * str) :=
  match s with
  | EmptyString => None
  | String c r =>
      match rsplit_colon r with
      | Some (a, b) => Some (String c a, b)
      | None => if is_colon c then Some (EmptyString, r) else None
      end
  end.

(** The body of an integer literal given to [int()]: decimal digits, with
    single underscores allowed between two digits. *)
Fixpoint int_body (s : str) : bool :=
  match s with
  | EmptyString => false
  | String c r =>
      Reference.is_digit c
      && match r with
         | EmptyString => true
         | String u r' => if (code u =? 95)%N then int_body r' else int_body r
         end
  end.

Fixpoint remove_underscores (s : str) : str :=
  match s with
  | EmptyString => EmptyString
  | String c r =>
      if (code c =? 95)%N then remove_underscores r
      else String c (remove_underscores r)
  end.

(** The white space that [int()] drops around a literal: the ASCII
    controls 9..13, the space, NEL (0x85) and the no-break space (0xA0).
    The separators 28..31, which [str.isspace] takes for white space, are
    not dropped: [int] refuses a text that holds one. *)
Definition int_space (c : ascii) : bool :=
  let n := code c in
  (((9 <=? n) && (n <=? 13)) || (n =? 32) || (n =? 133) || (n =? 160))%N.

Fixpoint int_lstrip (s : str) : str :=
  match s with
  | EmptyString => EmptyString
  | String c r => if int_space c then int_lstrip r else s
  end.

Fixpoint int_rstrip (s : str) : str :=
  match s with
  | EmptyString => EmptyString
  | String c r =>
      match int_rstrip r with
      | EmptyString => if int_space c then EmptyString else String c EmptyString
      | r' => String c r'
      end
  end.

(** [int(s)] in base ten: white space around the literal is dropped, a
    sign may lead, the digits follow.  [None] is [ValueError].  (The limit
    of the interpreter on the number of digits, 4300 by default, is not
    modelled: on a text within that length [py_int] is [int].) *)
Definition py_int (s : str) : option Z :=
  let t := int_rstrip (int_lstrip s) in
  let (negative, body) :=
    match t with
    | String c r =>
        if (code c =? 45)%N then (true, r)
        else if (code c =? 43)%N then (false, r)
        else (false, t)
    | EmptyString => (false, t)
    end in
  if int_body body then
    match NilEmpty.uint_of_string (remove_underscores body) with
    | Some d => Some (if negative then (- Z.of_uint d)%Z else Z.of_uint d)
    | None => None
    end
  else None.

(** ** utils.py: parse_host_arg and truncate_string *)

Module HostArg.

Definition parse_host_arg (host : option str) : str * option Z :=
  match host with
  | None => ("localhost", None)
  | Some host =>
      if negb (truthy host) then ("localhost", None)
      else
        match rsplit_colon host with
        | Some (hostname, port_str) =>
            match py_int port_str with
            | Some port => (hostname, Some port)
            | None => (host, None)     (* not a valid port *)
            end
        | None => (host, None)
        end
  end.

(** [truncate_string(text, max_length=80, suffix="...")] *)
Definition truncate_string (text : str) (max_length : Z) (suffix : str) : str :=
  if (py_len text <=? max_length)%Z then text
  else slice_to text (max_length - py_len suffix) ++ suffix.

End HostArg.

(** ** models.py: Config *)

Module Config.

Record t : Type := {
  default_host : str;                       (* = "local" *)
  hosts : list (str * HostConfig.t);        (* = {"local": HostConfig(hostname="localhost")} *)
  settings : dict                           (* = {} *)
}.

(** [self.hosts[alias]], when [alias in self.hosts]. *)
Fixpoint hosts_get (alias : str) (hs : list (str * HostConfig.t))
    : option HostConfig.t :=
  match hs with
  | [] => None
  | (k, h) :: rest => if k =? alias then Some h else hosts_get alias rest
  end.

(** [HostConfig(hostname=..., port=...)] and [HostConfig(hostname=...)]:
    the other fields take their defaults. *)
Definition host_at (hostname : str) (port : Z) : HostConfig.t :=
  {| HostConfig.hostname := hostname;
     HostConfig.port := port;
     HostConfig.protocol := "http";
     HostConfig.verify_ssl := true |}.

Definition host_named (hostname : str) : HostConfig.t := host_at hostname 11434.

Definition get_host_config (self : t) (host_alias : option str)
    : HostConfig.t :=
  let host_alias :=
    match host_alias with
    | None => default_host self
    | Some a => a
    end in
  match hosts_get host_alias (hosts self) with
  | Some h => h
  | None =>
      (* not found in config: a direct hostname, or hostname:port *)
      match rsplit_colon host_alias with
      | Some (hostname, port_str) =>
          match py_int port_str with
          | Some port => host_at hostname port
          | None => host_named host_alias
          end
      | None => host_named host_alias
      end
  end.

End Config.

(** ** config.py: merge_configs and get_env_overrides

    A configuration is the tree that [yaml.safe_load] returns, here with
    the value types of JSON and strings as mapping keys. *)

Module ConfigFile.

(** The loop [for key, value in override_config.items()] over [result],
    with [merge] deciding what is stored under a key from what is there
    and what the override holds. *)
Fixpoint merge_loop (merge : option JSON -> JSON -> JSON)
    (result : dict) (items : list (str * JSON)) : dict :=
  match items with
  | [] => result
  | (key, value) :: rest =>
      merge_loop merge (dict_set key (merge (dict_get key result) value) result)
        rest
  end.

(** What [result[key]] becomes: the merge of the two dicts when the key
    is in [result] with a dict and the override value is a dict, else the
    override value. *)
Fixpoint merge_value (old : option JSON) (value : JSON) {struct value} : JSON :=
  match value with
  | JDict override =>
      match old with
      | Some (JDict base) => JDict (merge_loop merge_value base override)
      | _ => value
      end
  | _ => value
  end.

Definition merge_configs (base_config override_config : dict) : dict :=
  merge_loop merge_value base_config override_config.

(** [os.environ.get(name)] *)
Definition Environ : Type := str -> option str.

(** The part of [get_env_overrides] that reads [OLLAMA_HOST]. *)
Definition host_from_env (ollama_host : str) : dict :=
  match rsplit_colon ollama_host with
  | Some (hostname, port_str) =>
      match py_int port_str with
      | Some port => [("hostname", JStr hostname); ("port", JInt port)]
      | None => [("hostname", JStr ollama_host)]   (* not a valid port *)
      end
  | None => [("hostname", JStr ollama_host)]
  end.

Definition port_from_env (environ : Environ) (host_config : dict) : dict :=
  match environ "OLLAMA_PORT" with
  | Some ollama_port =>
      if truthy ollama_port then
        match py_int ollama_port with
        | Some port => dict_set "port" (JInt port) host_config
        | None => host_config
        end
      else host_config
  | None => host_config
  end.

Definition protocol_from_env (environ : Environ) (host_config : dict) : dict :=
  match environ "OLLAMA_PROTOCOL" with
  | Some ollama_protocol =>
      if truthy ollama_protocol
         && ((ollama_protocol =? "http") || (ollama_protocol =? "https"))
      then dict_set "protocol" (JStr ollama_protocol) host_config
      else host_config
  | None => host_config
  end.

Definition get_env_overrides (environ : Environ) : dict :=
  match environ "OLLAMA_HOST" with
  | Some ollama_host =>
      if truthy ollama_host then
        let host_config := host_from_env ollama_host in
        let host_config := port_from_env environ host_config in
        let host_config := protocol_from_env environ host_config in
        match host_config with
        | [] => []
        | _ =>
            [ ("hosts", JDict [("env", JDict host_config)]);
              ("default_host", JStr "env") ]
        end
      else []
  | None => []
  end.

End ConfigFile.

(** ** mcp.py *)

Module Mcp.

(** [s.replace(old, new)] for two strings of one character. *)
Fixpoint replace_char (old new : ascii) (s : str) : str :=
  match s with
  | EmptyString => EmptyString
  | String c r =>
      String (if (code c =? code old)%N then new else c)
             (replace_char old new r)
  end.

Definition is_hyphen (c : ascii) : bool := (code c =? 45)%N.

(** The class [[a-z0-9-]]. *)
Definition alias_char (c : ascii) : bool :=
  let n := code c in
  (((97 <=? n) && (n <=? 122)) || ((48 <=? n) && (n <=? 57)) || (n =? 45))%N.

(** [re.sub(r"[^a-z0-9-]", "", s)] *)
Fixpoint keep_alias_chars (s : str) : str :=
  match s with
  | EmptyString => EmptyString
  | String c r =>
      if alias_char c then String c (keep_alias_chars r)
      else keep_alias_chars r
  end.

(** [re.sub(r"-+", "-", s)]: of a run of hyphens the last one is kept. *)
Fixpoint collapse_hyphens (s : str) : str :=
  match s with
  | EmptyString => EmptyString
  | String c r =>
      if is_hyphen c then
        match r with
        | String c' _ =>
            if is_hyphen c' then collapse_hyphens r
            else String c (collapse_hyphens r)
        | EmptyString => String c EmptyString
        end
      else String c (collapse_hyphens r)
  end.

Fixpoint lstrip_hyphens (s : str) : str :=
  match s with
  | EmptyString => EmptyString
  | String c r => if is_hyphen c then lstrip_hyphens r else s
  end.

Fixpoint rstrip_hyphens (s : str) : str :=
  match s with
  | EmptyString => EmptyString
  | String c r =>
      match rstrip_hyphens r with
      | EmptyString => if is_hyphen c then EmptyString else String c EmptyString
      | r' => String c r'
      end
  end.

(** [s.strip("-")] *)
Definition strip_hyphens (s : str) : str := rstrip_hyphens (lstrip_hyphens s).

Definition _sanitize_alias (name : str) : str :=
  let alias := lower name in
  let alias := replace_char "_" "-" (replace_char " " "-" alias) in
  let alias := keep_alias_chars alias in
  let alias := collapse_hyphens alias in
  strip_hyphens alias.

(** [s[n:]] for a count within the text. *)
Fixpoint drop (n : nat) (s : str) : str :=
  match n, s with
  | O, _ => s
  | S n', String _ r => drop n' r
  | S _, EmptyString => EmptyString
  end.

(** What [_parse_ollama_env] does with the text of [OLLAMA_HOST]. *)
Definition parse_ollama_host (ollama_host : str) : HostConfig.t :=
  let (protocol, ollama_host) :=
    if prefix "https://" ollama_host then ("https", drop 8 ollama_host)
    else if prefix "http://" ollama_host then ("http", drop 7 ollama_host)
    else ("http", ollama_host) in
  let (hostname, port) :=
    match rsplit_colon ollama_host with
    | Some (hostname, port_str) =>
        match py_int port_str with
        | Some port => (hostname, port)
        | None => (ollama_host, 11434%Z)     (* keep default *)
        end
    | None => (ollama_host, 11434%Z)
    end in
  {| HostConfig.hostname := hostname;
     HostConfig.port := port;
     HostConfig.protocol := protocol;
     HostConfig.verify_ssl := true |}.

(** A call on values read from a JSON file: it returns, or the value at
    hand lacks the method ([AttributeError]) or cannot be searched
    ([TypeError]). *)
Inductive Outcome (A : Type) : Type :=
| Returns (a : A)
| RaisesAttributeError (attribute : str)
| RaisesTypeError (text : str).
Arguments Returns {A} a.
Arguments RaisesAttributeError {A} attribute.
Arguments RaisesTypeError {A} text.

Section OnJson.
(** Whether the float a literal denotes is true, that is, not zero. *)
Variable float_truth : str -> bool.

(** [bool(v)] *)
Definition json_truth (v : JSON) : bool :=
  match v with
  | JNull => false
  | JBool b => b
  | JInt n => negb (n =? 0)%Z
  | JFloat l => float_truth l
  | JStr s => truthy s
  | JList l => match l with [] => false | _ => true end
  | JDict d => match d with [] => false | _ => true end
  end.

(** [env] is what the caller found under ["env"]; only a dict has
    [get], and only a string has [startswith]. *)
Definition _parse_ollama_env (env : JSON) : Outcome (option HostConfig.t) :=
  match env with
  | JDict d =>
      match dict_get "OLLAMA_HOST" d with
      | None => Returns None
      | Some ollama_host =>
          if negb (json_truth ollama_host) then Returns None
          else
            match ollama_host with
            | JStr text => Returns (Some (parse_ollama_host text))
            | _ => RaisesAttributeError "startswith"
            end
      end
  | _ => RaisesAttributeError "get"
  end.

(** [d.get(k, default)] *)
Definition dict_get_default (k : str) (default : JSON) (d : dict) : JSON :=
  match dict_get k d with
  | Some v => v
  | None => default
  end.

(** The test [is_ollama_server]; [or] stops at the first true operand. *)
Definition is_ollama_server (server_name : str) (command env : JSON)
    : Outcome bool :=
  if str_contains "ollama" (lower server_name) then Returns true
  else
    match command with
    | JStr c =>
        if str_contains "ollama" (lower c) then Returns true
        else
          match py_in "OLLAMA_HOST" env with
          | Ok b => Returns b
          | Raise _ => RaisesTypeError "argument is not iterable"
          end
    | _ => RaisesAttributeError "lower"
    end.

(** [hosts[alias] = host_config] *)
Fixpoint hosts_set (alias : str) (h : HostConfig.t)
    (hosts : list (str * HostConfig.t)) : list (str * HostConfig.t) :=
  match hosts with
  | [] => [(alias, h)]
  | (k, h') :: rest =>
      if k =? alias then (k, h) :: rest else (k, h') :: hosts_set alias h rest
  end.

(** The loop of [extract_ollama_hosts] over the items of
    [self.mcp_servers]. *)
Fixpoint extract_loop (servers : list (str * JSON))
    (hosts : list (str * HostConfig.t))
    : Outcome (list (str * HostConfig.t)) :=
  match servers with
  | [] => Returns hosts
  | (server_name, server_config) :: rest =>
      match server_config with
      | JDict sc =>
          let command := dict_get_default "command" (JStr EmptyString) sc in
          let env := dict_get_default "env" (JDict []) sc in
          match is_ollama_server server_name command env with
          | Returns false => extract_loop rest hosts
          | Returns true =>
              match _parse_ollama_env env with
              | Returns (Some host_config) =>
                  extract_loop rest
                    (hosts_set (_sanitize_alias server_name) host_config hosts)
              | Returns None => extract_loop rest hosts
              | RaisesAttributeError a => RaisesAttributeError a
              | RaisesTypeError t => RaisesTypeError t
              end
          | RaisesAttributeError a => RaisesAttributeError a
          | RaisesTypeError t => RaisesTypeError t
          end
      | _ => RaisesAttributeError "get"
      end
  end.

(** [MCPConfig]: the parsed file and what it holds under
    ["mcpServers"]. *)
Record MCPConfig : Type := {
  config_data : dict;
  mcp_servers : JSON
}.

(** [MCPConfig(config_data)] on the value [json.load] returned. *)
Definition __init__ (data : JSON) : Outcome MCPConfig :=
  match data with
  | JDict d =>
      Returns {| config_data := d;
                 mcp_servers := dict_get_default "mcpServers" (JDict []) d |}
  | _ => RaisesAttributeError "get"
  end.

Definition extract_ollama_hosts (self : MCPConfig)
    : Outcome (list (str * HostConfig.t)) :=
  match mcp_servers self with
  | JDict servers => extract_loop servers []
  | _ => RaisesAttributeError "items"
  end.

End OnJson.

End Mcp.

(** ** Vocabulary of the further statements *)

(** The text holds no colon. *)
Definition no_colon (s : str) : bool :=
  forallb (fun c => negb (is_colon c)) (chars s).


(** *** Configurations for the examples *)

Module MoreExamples.

Definition cloud : HostConfig.t :=
  {| HostConfig.hostname := "ollama.example.com";
     HostConfig.port := 443;
     HostConfig.protocol := "https";
     HostConfig.verify_ssl := false |}.

(** A configuration with the hosts [local] and [cloud]. *)
Definition config : Config.t :=
  {| Config.default_host := "local";
     Config.hosts :=
       [ ("local", Config.host_named "localhost"); ("cloud", cloud) ];
     Config.settings := [] |}.

End MoreExamples.

(** The shape of a host alias: lowercase letters, digits and hyphens, no
    hyphen at either end and no two hyphens in a row. *)
Module AliasShape.

Definition starts_with_hyphen (s : str) : bool :=
  match s with
  | String c _ => Mcp.is_hyphen c
  | EmptyString => false
  end.

Fixpoint ends_with_hyphen (s : str) : bool :=
  match s with
  | EmptyString => false
  | String c EmptyString => Mcp.is_hyphen c
  | String _ r => ends_with_hyphen r
  end.

Fixpoint no_double_hyphen (s : str) : bool :=
  match s with
  | EmptyString => true
  | String c r =>
      negb (Mcp.is_hyphen c && starts_with_hyphen r) && no_double_hyphen r
  end.

Definition well_formed (s : str) : bool :=
  forallb Mcp.alias_char (chars s)
  && negb (starts_with_hyphen s)
  && negb (ends_with_hyphen s)
  && no_double_hyphen s.

End AliasShape.

(** A text made of one newline. *)
Definition line_feed : str := String newline EmptyString.

(** Configurations and environments for the examples. *)
Module ConfigExamples.

(** A configuration file with one host and a setting. *)
Definition file_config : dict :=
  [ ("default_host", JStr "local");
    ("hosts",
     JDict [ ("local", JDict [ ("hostname", JStr "localhost");
                               ("port", JInt 11434) ]) ]);
    ("settings", JDict [ ("timeout", JInt 30) ]) ].

(** A local file that adds a host and changes the timeout. *)
Definition local_config : dict :=
  [ ("hosts", JDict [ ("gpu", JDict [ ("hostname", JStr "10.0.0.5") ]) ]);
    ("settings", JDict [ ("timeout", JInt 60) ]) ].

(** An environment with the three variables of the client. *)
Definition environ : ConfigFile.Environ :=
  fun name =>
    if name =? "OLLAMA_HOST" then Some "10.0.0.7:8080"
    else if name =? "OLLAMA_PORT" then Some "9090"
    else if name =? "OLLAMA_PROTOCOL" then Some "https"
    else None.

End ConfigExamples.

(** The host description that [get_env_overrides] builds from the three
    variables, for a non-empty [OLLAMA_HOST]. *)
Definition env_host (environ : ConfigFile.Environ) (ollama_host : str) : dict :=
  ConfigFile.protocol_from_env environ
    (ConfigFile.port_from_env environ (ConfigFile.host_from_env ollama_host)).

(** A server entry of an MCP file as the format has it: a dict whose
    ["command"], when present, is a string and whose ["env"], when
    present, is a dict in which ["OLLAMA_HOST"], when present, is a
    string. *)
Definition plain_server (server_config : JSON) : bool :=
  match server_config with
  | JDict sc =>
      match dict_get "command" sc with
      | None | Some (JStr _) => true
      | _ => false
      end
      && match dict_get "env" sc with
         | None => true
         | Some (JDict env) =>
             match dict_get "OLLAMA_HOST" env with
             | None | Some (JStr _) => true
             | _ => false
             end
         | _ => false
         end
  | _ => false
  end.

(** The text of a non-empty ["OLLAMA_HOST"] in the ["env"] of a server
    entry. *)
Definition server_ollama_host (server_config : JSON) : option str :=
  match server_config with
  | JDict sc =>
      match dict_get "env" sc with
      | Some (JDict env) =>
          match dict_get "OLLAMA_HOST" env with
          | Some (JStr text) => if truthy text then Some text else None
          | _ => None
          end
      | _ => None
      end
  | _ => None
  end.

Module McpExamples.

(** The servers of [create_example_mcp_config], and one that has nothing
    to do with Ollama. *)
Definition servers : list (str * JSON) :=
  [ ("ollama-local",
     JDict [ ("command", JStr "ollama");
             ("args", JList [JStr "serve"]);
             ("env", JDict [("OLLAMA_HOST", JStr "localhost:11434")]) ]);
    ("Remote GPU_box",
     JDict [ ("command", JStr "ssh");
             ("args", JList [JStr "user@remote"; JStr "ollama"; JStr "serve"]);
             ("env",
              JDict [("OLLAMA_HOST", JStr "https://192.168.1.100:11434")]) ]);
    ("filesystem",
     JDict [ ("command", JStr "npx"); ("args", JList []) ]) ].

(** Floats do not occur in the examples. *)
Definition float_truth (literal : str) : bool := true.

End McpExamples.


(** What holds of every entry that [extract_ollama_hosts] returns. *)
Definition extracted_entry (entry : str * HostConfig.t) : Prop :=
  AliasShape.well_formed (fst entry) = true
  /\ HostConfig.verify_ssl (snd entry) = true
  /\ (HostConfig.protocol (snd entry) = "http"
      \/ HostConfig.protocol (snd entry) = "https").

(** *** Vocabulary for the typed generators *)

Definition is_object (v : JSON) : bool :=
  match v with JDict _ => true | _ => false end.

(** The JSON objects at the head of a sequence of chunks, up to the first
    chunk that is no object. *)
Fixpoint leading_objects (chunks : list JSON) : list dict :=
  match chunks with
  | JDict d :: rest => d :: leading_objects rest
  | _ => []
  end.

(** The objects that pass validation, in order. *)
Fixpoint validated {A : Type} (validate : dict -> option A)
    (objects : list dict) : list A :=
  match objects with
  | [] => []
  | d :: rest =>
      match validate d with
      | Some a => a :: validated validate rest
      | None => validated validate rest
      end
  end.

(** The [TypeError] of a model class called on something that is no
    mapping. *)
Definition not_a_mapping (cls : str) : exn :=
  mk_exn TypeError (JStr (cls ++ "() argument after ** must be a mapping")) None.

Module ClientExamples.

(** A streaming response that breaks after two lines. *)
Definition broken_stream (failure : httpx_error_class) : HttpxClient :=
  {| request := fun _ => inl Examples.refused;
     stream := fun _ =>
       inr {| stream_status_code := 200;
              stream_lines :=
                [ Reference.dumps (JDict [("status", JStr "pulling manifest")]);
                  Reference.dumps (JDict [("status", JStr "downloading")]) ];
              stream_broken :=
                Some {| te_class := failure; te_text := "peer closed" |} |} |}.

(** A chat message with a role the model does not know. *)
Definition tool_message : dict :=
  [ ("role", JStr "tool"); ("content", JStr "42") ].

End ClientExamples.

(** ** models.py and mcp.py: Config as a pydantic model, merge_mcp_hosts *)

Module ConfigModel.

(** [HostConfig.model_dump()] *)
Definition host_dump (h : HostConfig.t) : dict :=
  [ ("hostname", JStr (HostConfig.hostname h));
    ("port", JInt (HostConfig.port h));
    ("protocol", JStr (HostConfig.protocol h));
    ("verify_ssl", JBool (HostConfig.verify_ssl h)) ].

Definition dump_hosts (hosts : list (str * HostConfig.t)) : dict :=
  map (fun entry => (fst entry, JDict (host_dump (snd entry)))) hosts.

(** [Config.model_dump()] *)
Definition model_dump (self : Config.t) : dict :=
  [ ("default_host", JStr (Config.default_host self));
    ("hosts", JDict (dump_hosts (Config.hosts self)));
    ("settings", JDict (Config.settings self)) ].

Section Validation.
Context `{PythonLibs}.

(** The fields of [HostConfig]: [hostname] is required, the three others
    have defaults. *)
Definition validate_host (d : dict) : option HostConfig.t :=
  a <- required validate_str "hostname" d ;;
  b <- with_default validate_int 11434%Z "port" d ;;
  c <- with_default validate_str "http" "protocol" d ;;
  e <- with_default validate_bool true "verify_ssl" d ;;
  Some {| HostConfig.hostname := a; HostConfig.port := b;
          HostConfig.protocol := c; HostConfig.verify_ssl := e |}.

(** [dict[str, HostConfig]]: keys and values are validated, in order. *)
Fixpoint validate_hosts (entries : list (str * JSON))
    : option (list (str * HostConfig.t)) :=
  match entries with
  | [] => Some []
  | (k, v) :: rest =>
      match validate_str (JStr k), nested validate_host v,
            validate_hosts rest with
      | Some k', Some h, Some l => Some ((k', h) :: l)
      | _, _, _ => None
      end
  end.

Definition validate_hosts_field (v : JSON)
    : option (list (str * HostConfig.t)) :=
  match v with
  | JDict entries => validate_hosts entries
  | _ => None
  end.

(** The fields of [Config], all with defaults. *)
Definition validate (d : dict) : option Config.t :=
  a <- with_default validate_str "local" "default_host" d ;;
  b <- with_default validate_hosts_field
         [("local", Config.host_named "localhost")] "hosts" d ;;
  c <- with_default validate_dict [] "settings" d ;;
  Some {| Config.default_host := a; Config.hosts := b; Config.settings := c |}.

(** The loop of [merge_mcp_hosts] over [mcp_hosts.items()], on the dict
    under ["hosts"]: an alias already there is left alone. *)
Fixpoint add_missing (mcp_hosts : list (str * HostConfig.t)) (hosts : dict)
    : dict :=
  match mcp_hosts with
  | [] => hosts
  | (alias, host_config) :: rest =>
      add_missing rest
        (if dict_has alias hosts then hosts
         else dict_set alias (JDict (host_dump host_config)) hosts)
  end.

(** [merge_mcp_hosts(config, mcp_hosts)]: the dump of the configuration,
    its hosts completed in place, validated as a new [Config]. *)
Definition merge_mcp_hosts (config : Config.t)
    (mcp_hosts : list (str * HostConfig.t)) : lib_exn + Config.t :=
  let config_data := model_dump config in
  let hosts := add_missing mcp_hosts (dump_hosts (Config.hosts config)) in
  construct "Config" validate (JDict (dict_set "hosts" (JDict hosts) config_data)).

End Validation.

(** The aliases of a list of hosts. *)
Definition aliases (hosts : list (str * HostConfig.t)) : list str :=
  map fst hosts.

Definition has_alias (alias : str) (hosts : list (str * HostConfig.t)) : bool :=
  existsb (String.eqb alias) (aliases hosts).

(** The hosts of [mcp_hosts] whose alias [hosts] does not hold. *)
Definition new_hosts (hosts mcp_hosts : list (str * HostConfig.t))
    : list (str * HostConfig.t) :=
  filter (fun entry => negb (has_alias (fst entry) hosts)) mcp_hosts.

End ConfigModel.

(** *** A line the decoder does not cope with *)

Module StreamExamples.

(** The numeral of [n] digits [1]. *)
Fixpoint ones (n : nat) : str :=
  match n with
  | O => EmptyString
  | S k => String "1" (ones k)
  end.

(** A progress line whose [total] is an integer of 4301 digits: a JSON
    object, one digit over what [int()] converts. *)
Definition long_total_line : str :=
  "{" ++ Reference.quoted "status" ++ ": " ++ Reference.quoted "downloading"
  ++ ", " ++ Reference.quoted "total" ++ ": " ++ ones 4301 ++ "}".

(** Lines of a pull stream, the second with the long integer. *)
Definition lines_with_long_integer : list str :=
  [ Reference.dumps (JDict [("status", JStr "pulling manifest")]);
    long_total_line;
    Reference.dumps (JDict [("status", JStr "success")]) ].

End StreamExamples.

(** * Properties *)

(** ** Strings *)

Lemma chars_lower (s : str) : chars (lower s) = map lower_char (chars s).
Proof.
  induction s as [|c r IH]; simpl; [reflexivity | now rewrite IH].
Qed.

Lemma truthy_lower (s : str) : truthy (lower s) = truthy s.
Proof. destruct s; reflexivity. Qed.

Lemma code_ascii_of_N (n : N) : (n < 256)%N -> code (ascii_of_N n) = n.
Proof. intros Hn. unfold code. now apply N_ascii_embedding. Qed.

Lemma code_bound (c : ascii) : (code c < 256)%N.
Proof. apply N_ascii_bounded. Qed.

Lemma lower_char_newline (c : ascii) :
  (code (lower_char c) =? 10)%N = (code c =? 10)%N.
Proof.
  unfold lower_char.
  pose proof (code_bound c) as Hb.
  destruct ((65 <=? code c) && (code c <=? 90))%N eqn:E1.
  - apply andb_prop in E1 as [H1 H2].
    apply N.leb_le in H1, H2.
    rewrite code_ascii_of_N by lia.
    transitivity false; [apply N.eqb_neq; lia | symmetry; apply N.eqb_neq; lia].
  - destruct ((192 <=? code c) && (code c <=? 222) && negb (code c =? 215))%N eqn:E2.
    + apply andb_prop in E2 as [E2 _]. apply andb_prop in E2 as [H1 H2].
      apply N.leb_le in H1, H2.
      rewrite code_ascii_of_N by lia.
      transitivity false; [apply N.eqb_neq; lia | symmetry; apply N.eqb_neq; lia].
    + reflexivity.
Qed.

Lemma ends_with_newline_lower (s : str) :
  Utils.ends_with_newline (lower s) = Utils.ends_with_newline s.
Proof.
  induction s as [|c r IH]; [reflexivity|].
  simpl. destruct r as [|c' r'].
  - simpl. apply lower_char_newline.
  - simpl in *. exact IH.
Qed.

(** ** validate_model_name *)

Import Utils.

(** When the text does not end in a newline, [$] is reached after the run
    of class characters exactly when the run is the whole text. *)
Lemma at_dollar_after_span (s : str) :
  ends_with_newline s = false ->
  at_dollar (snd (span_class s)) = forallb model_name_char (chars s).
Proof.
  induction s as [|c r IH]; intros Hnl; [reflexivity|].
  simpl. destruct (model_name_char c) eqn:Hc.
  - destruct (span_class r) as [w rest] eqn:Hs. simpl in *.
    apply IH. destruct r; [reflexivity | exact Hnl].
  - simpl. destruct r; [exact Hnl | reflexivity].
Qed.

Lemma re_match_pattern_spec (s : str) :
  ends_with_newline s = false ->
  re_match_pattern s = truthy s && forallb model_name_char (chars s).
Proof.
  intros Hnl. unfold re_match_pattern.
  destruct s as [|c r]; [reflexivity|].
  pose proof (at_dollar_after_span (String c r) Hnl) as Hd.
  simpl in *. destruct (model_name_char c) eqn:Hc.
  - destruct (span_class r) as [w rest]. simpl in *. exact Hd.
  - reflexivity.
Qed.

Lemma forallb_over_map {A B : Type} (f : A -> B) (p : B -> bool) (l : list A) :
  forallb p (map f l) = forallb (fun a => p (f a)) l.
Proof.
  induction l as [|a l IH]; simpl; [reflexivity | now rewrite IH].
Qed.

Lemma validate_model_name_bool (name : str) :
  ends_with_newline name = false ->
  validate_model_name name
  = truthy name
    && forallb (fun c => model_name_char (lower_char c)) (chars name).
Proof.
  intros Hnl. unfold validate_model_name.
  destruct (truthy name) eqn:Ht; simpl; [|reflexivity].
  rewrite re_match_pattern_spec by (now rewrite ends_with_newline_lower).
  rewrite truthy_lower, Ht, chars_lower, forallb_over_map. reflexivity.
Qed.

(** C8, as the claim states it, fails: a name with a capital letter is
    accepted, though it is not made of lowercase letters, digits and
    [. _ : / -] only. *)
Lemma validate_model_name_accepts_capitals :
  validate_model_name "Llama2" = true /\ lowercase_name "Llama2" = false.
Proof. split; reflexivity. Qed.

(** C8, amended: the name is lowercased before it is matched, so for every
    name that does not end in a newline, [validate_model_name] returns
    true exactly when the name is not empty and each of its characters,
    once lowercased, is a lowercase letter, a digit or one of
    [. _ : / -]; the empty name is rejected. *)
Theorem validate_model_name_case_insensitive (name : str) :
  ends_with_newline name = false ->
  (validate_model_name name = true <->
     name <> EmptyString /\
     Forall (fun c => model_name_char (lower_char c) = true) (chars name)).
Proof.
  intros Hnl. rewrite (validate_model_name_bool name Hnl).
  rewrite andb_true_iff, forallb_forall, Forall_forall.
  split; intros [Hne Hall]; split; try exact Hall.
  - intros ->. discriminate Hne.
  - destruct name; [now elim Hne | reflexivity].
Qed.

Lemma validate_model_name_case_insensitive_witness :
  ends_with_newline "Llama2:7b" = false /\
  (validate_model_name "Llama2:7b" = true <->
     "Llama2:7b" <> EmptyString /\
     Forall (fun c => model_name_char (lower_char c) = true)
            (chars "Llama2:7b")).
Proof.
  split; [reflexivity|].
  apply (validate_model_name_case_insensitive "Llama2:7b"). reflexivity.
Defined.

(** The empty name is rejected, whatever the pattern. *)
Lemma validate_model_name_empty : validate_model_name EmptyString = false.
Proof. reflexivity. Qed.

(** ** The streaming request *)

Lemma lstrip_blank (s : str) : is_blank s = true -> lstrip s = EmptyString.
Proof.
  unfold is_blank. induction s as [|c r IH]; simpl; [reflexivity|].
  intros Hb. apply andb_prop in Hb as [Hc Hr]. rewrite Hc. now apply IH.
Qed.

Lemma lstrip_not_blank (s : str) :
  is_blank s = false ->
  exists c r, lstrip s = String c r /\ isspace c = false.
Proof.
  unfold is_blank. induction s as [|c r IH]; simpl; [discriminate|].
  destruct (isspace c) eqn:Hc; simpl.
  - exact IH.
  - intros _. now exists c, r.
Qed.

Lemma rstrip_keeps_head (c : ascii) (r : str) :
  isspace c = false -> truthy (rstrip (String c r)) = true.
Proof.
  intros Hc. simpl. destruct (rstrip r); [now rewrite Hc | reflexivity].
Qed.

(** [if line.strip():] holds exactly for the lines that are not blank. *)
Lemma strip_truthy (line : str) : truthy (strip line) = negb (is_blank line).
Proof.
  unfold strip. destruct (is_blank line) eqn:Hb.
  - now rewrite lstrip_blank.
  - destruct (lstrip_not_blank line Hb) as (c & r & -> & Hc).
    now apply rstrip_keeps_head.
Qed.

Section StreamRequest.
Context `{PythonLibs}.

(** On lines the decoder copes with, the loop yields what the
    specification says and is left by no exception. *)
Lemma iter_lines_loop_decodes (lines : list str) :
  forallb decoder_copes lines = true ->
  decodes lines (fst (OllamaClient.iter_lines_loop lines))
  /\ snd (OllamaClient.iter_lines_loop lines) = None.
Proof.
  induction lines as [|line rest IH]; simpl; [split; constructor|].
  intros Hc. apply andb_prop in Hc as [Hl Hr]. destruct (IH Hr) as [Hd He].
  unfold decoder_copes in Hl.
  rewrite strip_truthy. destruct (is_blank line) eqn:Hb; simpl in *.
  - split; [now apply decodes_blank | exact He].
  - destruct (json_loads line) as [v|] eqn:Hv.
    + destruct (OllamaClient.iter_lines_loop rest) as [chunks e]; simpl in *.
      split; [now apply decodes_valid | exact He].
    + rewrite Hl. split; [now apply decodes_malformed | exact He].
Qed.

(** The relation [decodes] leaves no choice. *)
Lemma decodes_functional (lines : list str) (vs vs' : list JSON) :
  decodes lines vs -> decodes lines vs' -> vs = vs'.
Proof.
  intros Hd. revert vs'.
  induction Hd as [|line rest vs Hb _ IH|line rest vs Hb Hl _ IH
                   |line rest v vs Hb Hl _ IH];
    intros vs' Hd'; inversion Hd'; subst; try congruence; auto.
  f_equal; [congruence | auto].
Qed.

(** Where the code does as the claim C1 says: on a 2xx streaming response
    whose body arrives whole and whose lines the decoder copes with, what
    [_stream_request] yields is exactly the sequence of values of the valid
    JSON lines, in the order of the lines: blank lines and lines that are
    not JSON yield nothing, and the generator ends without an exception. *)
Theorem stream_request_yields_valid_lines
    (self : OllamaClient.t) (method endpoint : str) (json_data : JSON)
    (response : StreamResponse) :
  stream (OllamaClient.client self)
    {| method := method; endpoint := endpoint; json_data := Some json_data |}
  = inr response ->
  is_success (stream_status_code response) = true ->
  stream_broken response = None ->
  forallb decoder_copes (stream_lines response) = true ->
  let g := OllamaClient._stream_request self method endpoint json_data in
  (forall vs, decodes (stream_lines response) vs <-> yielded g = vs)
  /\ ended_by g = None.
Proof.
  intros Hs Hok Hwhole Hc g. subst g.
  unfold OllamaClient._stream_request. rewrite Hs, Hok, Hwhole.
  destruct (iter_lines_loop_decodes _ Hc) as [Hd He].
  destruct (OllamaClient.iter_lines_loop (stream_lines response))
    as [chunks e]; simpl in *. subst e. simpl.
  split; [|reflexivity].
  intros vs. split.
  - intros Hd'. eapply decodes_functional; [exact Hd | exact Hd'].
  - intros <-. exact Hd.
Qed.

End StreamRequest.

(** ** The unary request *)

Lemma append_empty_r (s : str) : s ++ EmptyString = s.
Proof. induction s as [|c r IH]; simpl; [reflexivity | now rewrite IH]. Qed.

Lemma append_assoc (a b c : str) : (a ++ b) ++ c = a ++ (b ++ c).
Proof. induction a as [|x a IH]; simpl; [reflexivity | now rewrite IH]. Qed.

Section MakeRequest.
Context `{PythonLibs}.

(** The message chosen by the handler of [HTTPStatusError]: the ["error"]
    field of a body that is a JSON object holding one, else the
    fallback.  A body that is a JSON string or list goes through the
    [TypeError] of the subscript, a number or a constant through the
    [TypeError] of [in]; both are swallowed by the inner handler. *)
Lemma on_status_error_message (status : Z) (response : Response) :
  on_status_error status (OllamaClient.response_json response)
  = mk_exn OllamaAPIError
      match error_field (content response) with
      | Some v => v
      | None => JStr ("API error: " ++ str_of_int status)
      end
      (Some status).
Proof.
  unfold on_status_error, OllamaClient.response_json, error_field, api_error.
  destruct (json_loads (content response)) as [v|]; [|reflexivity].
  destruct v as [| b | n | l | s | items | d]; simpl; try reflexivity.
  - destruct (str_contains "error" s); reflexivity.
  - destruct (existsb _ items); reflexivity.
  - unfold dict_has. destruct (dict_get "error" d); reflexivity.
Qed.

(** C2: a unary request answered with a status outside 2xx raises
    [OllamaAPIError]; its status code is the HTTP status; its message is
    the value of the ["error"] field when the body is a JSON object that
    holds one, and otherwise the fallback ["API error: <status>"], which
    contains the status in decimal. *)
Theorem make_request_raises_api_error
    (self : OllamaClient.t) (method endpoint : str)
    (json_data : option JSON) (response : Response) :
  request (OllamaClient.client self)
    {| method := method; endpoint := endpoint; json_data := json_data |}
  = inr response ->
  is_success (status_code response) = false ->
  let status := status_code response in
  let fallback := "API error: " ++ str_of_int status in
  OllamaClient._make_request self method endpoint json_data
  = Raise (mk_exn OllamaAPIError
             match error_field (content response) with
             | Some v => v
             | None => JStr fallback
             end
             (Some status))
  /\ occurs_in (str_of_int status) fallback.
Proof.
  intros Hr Hko status fallback. split.
  - unfold OllamaClient._make_request, OllamaClient.make_request_body.
    rewrite Hr, Hko. unfold OllamaClient.except_clauses. simpl.
    now rewrite on_status_error_message.
  - exists "API error: ", EmptyString. subst fallback.
    now rewrite append_empty_r.
Qed.

End MakeRequest.

(** ** The exception hierarchy *)

Lemma every_class_is_an_exception (c : py_class) : issubclass c Exception = true.
Proof.
  destruct c as [| | | | | | | | | | | | | | | | | h | | |]; try reflexivity.
  destruct h; reflexivity.
Qed.

(** [issubclass] is the reflexive and transitive closure of [base]. *)
Lemma issubclass_refl (c : py_class) : issubclass c c = true.
Proof.
  unfold issubclass. simpl.
  assert (py_class_beq c c = true) as ->; [|reflexivity].
  destruct c as [| | | | | | | | | | | | | | | | | h | | |]; try reflexivity.
  destruct h; reflexivity.
Qed.

Lemma client_error_subclasses :
  base OllamaConnectionError = Some OllamaClientError
  /\ base OllamaAPIError = Some OllamaClientError
  /\ issubclass OllamaConnectionError OllamaClientError = true
  /\ issubclass OllamaAPIError OllamaClientError = true
  /\ issubclass OllamaClientError OllamaClientError = true.
Proof. repeat split; reflexivity. Qed.

(** The classes below [OllamaConnectionError]: itself only. *)
Lemma connection_error_class (c : py_class) :
  issubclass c OllamaConnectionError = true -> c = OllamaConnectionError.
Proof.
  destruct c as [| | | | | | | | | | | | | | | | | h | | |];
    try discriminate; try reflexivity.
  destruct h; discriminate.
Qed.

Section MakeRequestCases.
Context `{PythonLibs}.

(** [_make_request] by cases on what httpx gives back. *)
Lemma make_request_cases (self : OllamaClient.t) (method endpoint : str)
    (json_data : option JSON) :
  OllamaClient._make_request self method endpoint json_data
  = match request (OllamaClient.client self)
            {| method := method; endpoint := endpoint;
               json_data := json_data |}
    with
    | inl e =>
        Raise
          (if issubclass (Httpx (te_class e)) (Httpx ConnectError) then
             connection_error
               ("Failed to connect to Ollama server at "
                ++ OllamaClient.base_url self ++ ": " ++ te_text e)
           else if issubclass (Httpx (te_class e)) TimeoutException then
             connection_error
               ("Request to " ++ OllamaClient.base_url self
                ++ " timed out: " ++ te_text e)
           else client_error ("Unexpected error: " ++ te_text e))
    | inr response =>
        if is_success (status_code response) then
          match json_loads (content response) with
          | Some v => Ok v
          | None =>
              Raise (client_error
                       ("Unexpected error: "
                        ++ json_error_text (content response)))
          end
        else
          Raise (on_status_error (status_code response)
                   (OllamaClient.response_json response))
    end.
Proof.
  unfold OllamaClient._make_request, OllamaClient.make_request_body.
  destruct (request _ _) as [e | response].
  - unfold OllamaClient.except_clauses. simpl raised_class. simpl raised_str.
    destruct (issubclass (Httpx (te_class e)) (Httpx ConnectError));
      [reflexivity|].
    destruct (issubclass (Httpx (te_class e)) TimeoutException);
      [reflexivity|].
    now rewrite every_class_is_an_exception.
  - destruct (is_success (status_code response)).
    + destruct (json_loads (content response)); [reflexivity|].
      destruct (json_raises (content response)); reflexivity.
    + reflexivity.
Qed.

(** Whatever [_make_request] raises is an [OllamaClientError]. *)
Lemma make_request_raises_client_errors (self : OllamaClient.t)
    (method endpoint : str) (json_data : option JSON) (e : exn) :
  OllamaClient._make_request self method endpoint json_data = Raise e ->
  isinstance e OllamaClientError = true.
Proof.
  rewrite make_request_cases.
  destruct (request _ _) as [te | response].
  - intros [= <-].
    destruct (issubclass _ (Httpx ConnectError)); [reflexivity|].
    destruct (issubclass _ TimeoutException); reflexivity.
  - destruct (is_success _).
    + destruct (json_loads _); [discriminate | now intros [= <-]].
    + intros [= <-]. reflexivity.
Qed.

(** [health_check] in full.  It never raises.  It returns [False] when the
    request [GET /] fails to connect or times out or fails in any other
    way and when the status is outside 2xx, as its docstring says.  On a
    2xx response it returns what the decoding of the body by
    [_make_request] decides: [True] when the body decodes as JSON and
    [False] when it does not, although the server was reached. *)
Theorem health_check_is_total (self : OllamaClient.t) :
  OllamaClient.health_check self
  = Ok match request (OllamaClient.client self)
               {| method := "GET"; endpoint := "/"; json_data := None |}
       with
       | inl _ => false
       | inr response =>
           is_success (status_code response)
           && match json_loads (content response) with
              | Some _ => true
              | None => false
              end
       end.
Proof.
  unfold OllamaClient.health_check.
  destruct (OllamaClient._make_request self "GET" "/" None) as [v | e] eqn:Hm.
  - rewrite make_request_cases in Hm.
    destruct (request _ _) as [te | response]; [discriminate|].
    destruct (is_success _); [|discriminate].
    destruct (json_loads _); [reflexivity | discriminate].
  - unfold isinstance. rewrite every_class_is_an_exception.
    rewrite make_request_cases in Hm.
    destruct (request _ _) as [te | response]; [reflexivity|].
    destruct (is_success _); [|reflexivity].
    destruct (json_loads _); [discriminate | reflexivity].
Qed.

End MakeRequestCases.

(** C4 at the failing input: [GET /] answered 200 with the text
    [Ollama is running].  The server is reachable and the status is 2xx,
    yet [health_check] returns [False]: the probe goes through
    [_make_request], which decodes the body as JSON and raises on the
    text, and the handler of [health_check] turns that into [False]. *)
Lemma health_check_false_on_2xx_text_body :
  let self := Examples.client_of (Examples.answering 200 "Ollama is running") in
  is_success 200 = true
  /\ @OllamaClient.health_check Reference.libs self = Ok false.
Proof. split; reflexivity. Qed.

(** ** Witnesses on the reference libraries *)

Lemma stream_request_yields_valid_lines_witness :
  let self := Examples.client_of (Examples.streaming Examples.ndjson) in
  let response :=
    {| stream_status_code := 200; stream_lines := Examples.ndjson;
       stream_broken := None |} in
  let g :=
    @OllamaClient._stream_request Reference.libs self "POST" "/api/pull"
      (JDict []) in
  stream (OllamaClient.client self)
    {| method := "POST"; endpoint := "/api/pull";
       json_data := Some (JDict []) |} = inr response
  /\ is_success (stream_status_code response) = true
  /\ stream_broken response = None
  /\ forallb (@decoder_copes Reference.libs) (stream_lines response) = true
  /\ (forall vs,
        @decodes Reference.libs (stream_lines response) vs <-> yielded g = vs)
  /\ ended_by g = None.
Proof.
  intros self response g.
  split; [reflexivity|]. split; [reflexivity|]. split; [reflexivity|].
  split; [reflexivity|].
  apply (@stream_request_yields_valid_lines Reference.libs self
           "POST" "/api/pull" (JDict []) response); reflexivity.
Defined.

(** The lines of the example decode to the two status objects. *)
Lemma stream_request_example :
  yielded
    (@OllamaClient._stream_request Reference.libs
       (Examples.client_of (Examples.streaming Examples.ndjson))
       "POST" "/api/pull" (JDict []))
  = [ JDict [("status", JStr "pulling manifest")];
      JDict [("status", JStr "success")] ].
Proof. vm_compute. reflexivity. Qed.

(** C1 at the failing input: a 2xx stream whose second line is a JSON
    object that holds an integer of 4301 digits.  [json.loads] refuses
    the line with a plain [ValueError], which the handler
    [except json.JSONDecodeError] does not catch: the line is neither
    yielded nor skipped, the generator raises after the first chunk, with
    an exception that is no [OllamaClientError], and the third line, a
    valid chunk, is never yielded. *)
Theorem stream_request_aborts_on_long_integer :
  let g :=
    @OllamaClient._stream_request Reference.libs
      (Examples.client_of
         (Examples.streaming StreamExamples.lines_with_long_integer))
      "POST" "/api/pull" (JDict []) in
  yielded g = [ JDict [("status", JStr "pulling manifest")] ]
  /\ exists e,
       ended_by g = Some e
       /\ exn_class e = ValueError
       /\ isinstance e JSONDecodeError = false
       /\ isinstance e OllamaClientError = false.
Proof.
  intros g.
  assert (g = mk_gen [ JDict [("status", JStr "pulling manifest")] ]
                (Some (mk_exn ValueError
                         (JStr (Reference.error_text
                                  StreamExamples.long_total_line)) None)))
    as -> by (vm_compute; reflexivity).
  split; [reflexivity|].
  eexists. split; [reflexivity|]. repeat split.
Qed.

(** The long line is not blank and the decoder does not cope with it:
    it raises the [ValueError] of [int()].  The limit is sharp: an
    integer of 4300 digits is decoded, one of 4301 digits is refused. *)
Lemma long_integer_is_refused :
  is_blank StreamExamples.long_total_line = false
  /\ @decoder_copes Reference.libs StreamExamples.long_total_line = false
  /\ Reference.raises StreamExamples.long_total_line = IntegerTooLong
  /\ Reference.loads (StreamExamples.ones 4300)
     = Some (JInt (Reference.digits_value 0 (StreamExamples.ones 4300)))
  /\ Reference.raises (StreamExamples.ones 4301) = IntegerTooLong.
Proof. repeat split; vm_compute; reflexivity. Qed.

(** What the specification asks for on these lines: the line that fails
    to parse is passed over and the stream goes on to the last chunk. *)
Lemma long_integer_stream_as_specified :
  @decodes Reference.libs StreamExamples.lines_with_long_integer
    [ JDict [("status", JStr "pulling manifest")];
      JDict [("status", JStr "success")] ].
Proof.
  unfold StreamExamples.lines_with_long_integer.
  apply decodes_valid; [reflexivity | vm_compute; reflexivity |].
  apply decodes_malformed; [reflexivity | vm_compute; reflexivity |].
  apply decodes_valid; [reflexivity | vm_compute; reflexivity |].
  apply decodes_end.
Qed.

Lemma make_request_raises_api_error_witness :
  let self :=
    Examples.client_of (Examples.answering 404 Examples.not_found_body) in
  let response :=
    {| status_code := 404; content := Examples.not_found_body |} in
  request (OllamaClient.client self)
    {| method := "DELETE"; endpoint := "/api/delete"; json_data := None |}
  = inr response
  /\ is_success (status_code response) = false
  /\ @OllamaClient._make_request Reference.libs self
       "DELETE" "/api/delete" None
     = Raise (mk_exn OllamaAPIError
                match @error_field Reference.libs (content response) with
                | Some v => v
                | None => JStr ("API error: " ++ str_of_int 404)
                end
                (Some 404%Z))
  /\ occurs_in (str_of_int 404) ("API error: " ++ str_of_int 404).
Proof.
  intros self response.
  split; [reflexivity|]. split; [reflexivity|].
  apply (@make_request_raises_api_error Reference.libs self
           "DELETE" "/api/delete" None response); reflexivity.
Defined.

(** The 404 of the example: the message is the server's. *)
Lemma make_request_example_404 :
  @OllamaClient._make_request Reference.libs
    (Examples.client_of (Examples.answering 404 Examples.not_found_body))
    "DELETE" "/api/delete" None
  = Raise (mk_exn OllamaAPIError (JStr "model not found") (Some 404%Z)).
Proof. vm_compute. reflexivity. Qed.

(** A body that is a JSON string holding the word: the fallback. *)
Lemma make_request_example_string_body :
  @OllamaClient._make_request Reference.libs
    (Examples.client_of
       (Examples.answering 500 (Reference.quoted "internal error")))
    "GET" "/api/tags" None
  = Raise (mk_exn OllamaAPIError (JStr "API error: 500") (Some 500%Z)).
Proof. vm_compute. reflexivity. Qed.

(** ** Pull and push in unary mode *)

Section RawUnary.
Context `{PythonLibs}.

(** C10: with [stream=False], [pull_model] and [push_model] return what
    [response.json()] gave, untouched: for a 2xx response whose body is
    valid JSON, whatever its shape, the call returns that value and raises
    nothing. *)
Theorem pull_push_unary_return_raw_json
    (self : OllamaClient.t) (name : str) (insecure : bool)
    (pulled pushed : Response) (v w : JSON) :
  request (OllamaClient.client self)
    {| method := "POST"; endpoint := "/api/pull";
       json_data :=
         Some (JDict (PullRequest.model_dump
                        {| PullRequest.name := name;
                           PullRequest.insecure := insecure;
                           PullRequest.stream := false |})) |}
  = inr pulled ->
  is_success (status_code pulled) = true ->
  json_loads (content pulled) = Some v ->
  request (OllamaClient.client self)
    {| method := "POST"; endpoint := "/api/push";
       json_data :=
         Some (JDict (PushRequest.model_dump
                        {| PushRequest.name := name;
                           PushRequest.insecure := insecure;
                           PushRequest.stream := false |})) |}
  = inr pushed ->
  is_success (status_code pushed) = true ->
  json_loads (content pushed) = Some w ->
  OllamaClient.pull_model self name false insecure = Unary (Ok v)
  /\ OllamaClient.push_model self name false insecure = Unary (Ok w).
Proof.
  intros Hpull Hok Hv Hpush Hok' Hw.
  unfold OllamaClient.pull_model, OllamaClient.push_model.
  rewrite !make_request_cases.
  rewrite Hpull, Hok, Hv, Hpush, Hok', Hw. split; reflexivity.
Qed.

End RawUnary.

Lemma pull_push_unary_return_raw_json_witness :
  let self :=
    Examples.client_of (Examples.answering 200 Examples.odd_status_body) in
  let response :=
    {| status_code := 200; content := Examples.odd_status_body |} in
  let v := JDict [("status", JInt 7)] in
  is_success (status_code response) = true
  /\ @json_loads Reference.libs (content response) = Some v
  /\ @OllamaClient.pull_model Reference.libs self "llama2" false false
     = Unary (Ok v)
  /\ @OllamaClient.push_model Reference.libs self "llama2" false false
     = Unary (Ok v).
Proof.
  intros self response v.
  split; [reflexivity|]. split; [vm_compute; reflexivity|].
  apply (@pull_push_unary_return_raw_json Reference.libs self "llama2" false
           response response v v);
    try reflexivity; vm_compute; reflexivity.
Defined.

(** ** Where the exceptions of the operations come from *)

Lemma construct_classes {A : Type} (cls : str) (validate : dict -> option A)
    (data : JSON) (e : lib_exn) :
  Pydantic.construct cls validate data = inl e ->
  lib_class e = ValidationError \/ lib_class e = TypeError.
Proof.
  unfold Pydantic.construct.
  destruct data as [| b | n | l | s | items | d];
    try (intros [= <-]; right; reflexivity).
  destruct (validate d); [discriminate | intros [= <-]; left; reflexivity].
Qed.

(** A generator over a model class ends as the inner generator does, or
    with the [TypeError] of a chunk that is not a mapping. *)
Lemma generator_loop_end {A : Type} (cls : str) (validate : dict -> option A)
    (chunks : list JSON) (inner_end : option exn) (e : exn) :
  ended_by
    (OllamaClient.generator_loop (Pydantic.construct cls validate)
       chunks inner_end) = Some e ->
  inner_end = Some e \/ exn_class e = TypeError.
Proof.
  induction chunks as [|chunk rest IH]; simpl; [now left|].
  destruct (Pydantic.construct cls validate chunk) as [le | r] eqn:Hc.
  - destruct (construct_classes _ _ _ _ Hc) as [Hv | Ht]; rewrite ?Hv, ?Ht; simpl.
    + exact IH.
    + intros [= <-]. right. exact Ht.
  - simpl. exact IH.
Qed.

Lemma except_validation_error_classes {A : Type} (failure cls : str)
    (validate : dict -> option A) (data : JSON) (e : exn) :
  OllamaClient.except_validation_error failure
    (Pydantic.construct cls validate data) = Raise e ->
  exn_class e = OllamaClientError \/ exn_class e = TypeError.
Proof.
  unfold OllamaClient.except_validation_error.
  destruct (Pydantic.construct cls validate data) as [le | a] eqn:Hc;
    [|discriminate].
  destruct (construct_classes _ _ _ _ Hc) as [Hv | Ht]; rewrite ?Hv, ?Ht; simpl.
  - intros [= <-]. now left.
  - intros [= <-]. now right.
Qed.

Lemma other_classes_name_base_url (self : OllamaClient.t) (e : exn) :
  exn_class e <> OllamaConnectionError -> names_base_url self e.
Proof.
  intros Hne Hi. apply connection_error_class in Hi. contradiction.
Qed.

Lemma connect_message_names_base_url (self : OllamaClient.t) (t : str) :
  names_base_url self
    (connection_error
       ("Failed to connect to Ollama server at "
        ++ OllamaClient.base_url self ++ ": " ++ t)).
Proof.
  intros _. eexists. split; [reflexivity|].
  now exists "Failed to connect to Ollama server at ", (": " ++ t).
Qed.

Lemma timeout_message_names_base_url (self : OllamaClient.t) (t : str) :
  names_base_url self
    (connection_error
       ("Request to " ++ OllamaClient.base_url self ++ " timed out: " ++ t)).
Proof.
  intros _. eexists. split; [reflexivity|].
  now exists "Request to ", (" timed out: " ++ t).
Qed.

Section Origins.
Context `{PythonLibs}.

Lemma make_request_names_base_url (self : OllamaClient.t)
    (method endpoint : str) (json_data : option JSON) (e : exn) :
  OllamaClient._make_request self method endpoint json_data = Raise e ->
  names_base_url self e.
Proof.
  rewrite make_request_cases.
  destruct (request _ _) as [te | response].
  - intros [= <-].
    destruct (issubclass _ (Httpx ConnectError));
      [apply connect_message_names_base_url|].
    destruct (issubclass _ TimeoutException);
      [apply timeout_message_names_base_url|].
    now apply other_classes_name_base_url.
  - destruct (is_success _).
    + destruct (json_loads _); [discriminate|].
      intros [= <-]. now apply other_classes_name_base_url.
    + intros [= <-]. now apply other_classes_name_base_url.
Qed.

Lemma stream_raise_names_base_url (self : OllamaClient.t)
    (e : raised StreamResponse) :
  names_base_url self (OllamaClient.stream_raise self e).
Proof.
  unfold OllamaClient.stream_raise, OllamaClient.except_clauses.
  destruct (issubclass (raised_class e) (Httpx ConnectError));
    [apply connect_message_names_base_url|].
  destruct (issubclass (raised_class e) TimeoutException);
    [apply timeout_message_names_base_url|].
  destruct e as [te | response | [| |] text];
    apply other_classes_name_base_url; simpl; try discriminate.
Qed.

Lemma stream_request_names_base_url (self : OllamaClient.t)
    (method endpoint : str) (json_data : JSON) (e : exn) :
  ended_by (OllamaClient._stream_request self method endpoint json_data)
  = Some e ->
  names_base_url self e.
Proof.
  unfold OllamaClient._stream_request.
  destruct (stream _ _) as [te | response].
  - intros [= <-]. apply stream_raise_names_base_url.
  - destruct (is_success _).
    + destruct (OllamaClient.iter_lines_loop _) as [chunks [d|]]; simpl.
      * intros [= <-]. apply stream_raise_names_base_url.
      * destruct (stream_broken response); [|discriminate].
        intros [= <-]. apply stream_raise_names_base_url.
    + intros [= <-]. apply stream_raise_names_base_url.
Qed.

Lemma generator_names_base_url {A : Type} (self : OllamaClient.t)
    (cls : str) (validate : dict -> option A)
    (method endpoint : str) (json_data : JSON) (e : exn) :
  ended_by
    (OllamaClient.generator (Pydantic.construct cls validate)
       (OllamaClient._stream_request self method endpoint json_data))
  = Some e ->
  names_base_url self e.
Proof.
  unfold OllamaClient.generator. intros He.
  apply generator_loop_end in He as [Hi | Ht].
  - now apply stream_request_names_base_url in Hi.
  - apply other_classes_name_base_url. now rewrite Ht.
Qed.

Lemma parsed_names_base_url {A : Type} (self : OllamaClient.t)
    (method endpoint : str) (json_data : option JSON)
    (failure cls : str) (validate : dict -> option A) (e : exn) :
  match OllamaClient._make_request self method endpoint json_data with
  | Raise e' => Raise e'
  | Ok data =>
      OllamaClient.except_validation_error failure
        (Pydantic.construct cls validate data)
  end = Raise e ->
  names_base_url self e.
Proof.
  destruct (OllamaClient._make_request self method endpoint json_data)
    as [data | e'] eqn:Hm.
  - intros Hp. apply except_validation_error_classes in Hp.
    apply other_classes_name_base_url. destruct Hp as [-> | ->]; discriminate.
  - intros [= <-]. now apply make_request_names_base_url in Hm.
Qed.

End Origins.

(** ** Connection errors *)

Section ConnectionErrors.
Context `{PythonLibs}.

Lemma call_error_names_base_url (self : OllamaClient.t)
    (c : OllamaClient.Call) (e : exn) :
  OllamaClient.call_error self c = Some e -> names_base_url self e.
Proof.
  destruct c as [ | name | name st insecure | name st insecure | name
                | model prompt st system template context options
                | model messages st options | model prompt options | ];
    simpl.
  - (* list_models *)
    unfold OllamaClient.list_models.
    destruct (OllamaClient._make_request self "GET" "/api/tags" None)
      as [data | e'] eqn:Hm; simpl.
    + destruct (OllamaClient.except_validation_error _ _) as [r | e'] eqn:Hp;
        simpl; [discriminate|].
      intros [= <-]. apply except_validation_error_classes in Hp.
      apply other_classes_name_base_url. destruct Hp as [-> | ->]; discriminate.
    + intros [= <-]. now apply make_request_names_base_url in Hm.
  - (* show_model *)
    unfold OllamaClient.show_model.
    destruct (match OllamaClient._make_request self _ _ _ with
              | Ok _ => _ | Raise _ => _ end) as [r | e'] eqn:Hp;
      simpl; [discriminate|].
    intros [= <-]. now apply parsed_names_base_url in Hp.
  - (* pull_model *)
    unfold OllamaClient.pull_model. destruct st; simpl.
    + apply generator_names_base_url.
    + destruct (OllamaClient._make_request self _ _ _) as [v | e'] eqn:Hm;
        simpl; [discriminate|].
      intros [= <-]. now apply make_request_names_base_url in Hm.
  - (* push_model *)
    unfold OllamaClient.push_model. destruct st; simpl.
    + apply generator_names_base_url.
    + destruct (OllamaClient._make_request self _ _ _) as [v | e'] eqn:Hm;
        simpl; [discriminate|].
      intros [= <-]. now apply make_request_names_base_url in Hm.
  - (* delete_model *)
    unfold OllamaClient.delete_model.
    destruct (OllamaClient._make_request self _ _ _) as [v | e'] eqn:Hm;
      simpl; [discriminate|].
    intros [= <-]. now apply make_request_names_base_url in Hm.
  - (* generate *)
    unfold OllamaClient.generate. destruct st; simpl.
    + apply generator_names_base_url.
    + destruct (match OllamaClient._make_request self _ _ _ with
                | Ok _ => _ | Raise _ => _ end) as [r | e'] eqn:Hp;
        simpl; [discriminate|].
      intros [= <-]. now apply parsed_names_base_url in Hp.
  - (* chat *)
    unfold OllamaClient.chat, OllamaClient.chat_request.
    destruct (Pydantic.validate_items _ messages) as [ms|].
    + destruct st; simpl.
      * apply generator_names_base_url.
      * destruct (match OllamaClient._make_request self _ _ _ with
                  | Ok _ => _ | Raise _ => _ end) as [r | e'] eqn:Hp;
          simpl; [discriminate|].
        intros [= <-]. now apply parsed_names_base_url in Hp.
    + intros [= <-]. now apply other_classes_name_base_url.
  - (* embeddings *)
    unfold OllamaClient.embeddings.
    destruct (OllamaClient._make_request self _ _ _) as [data | e'] eqn:Hm;
      simpl.
    + destruct (OllamaClient.except_validation_error _ _) as [r | e'] eqn:Hp;
        simpl; [discriminate|].
      intros [= <-]. apply except_validation_error_classes in Hp.
      apply other_classes_name_base_url. destruct Hp as [-> | ->]; discriminate.
    + intros [= <-]. now apply make_request_names_base_url in Hm.
  - (* health_check *)
    unfold OllamaClient.health_check.
    destruct (OllamaClient._make_request self _ _ _) as [v | e']; simpl;
      [discriminate|].
    unfold isinstance. rewrite every_class_is_an_exception. discriminate.
Qed.

(** C7: whatever operation raises it, an [OllamaConnectionError] carries a
    text message in which the base URL of the client occurs, and that base
    URL is [protocol://hostname:port] of the host configuration the client
    was built from. *)
Theorem connection_errors_name_base_url
    (host_config : HostConfig.t) (timeout : Z) (net : HttpxClient)
    (c : OllamaClient.Call) (e : exn) :
  let self := OllamaClient.__init__ host_config timeout net in
  OllamaClient.call_error self c = Some e ->
  isinstance e OllamaConnectionError = true ->
  OllamaClient.base_url self
  = HostConfig.protocol host_config ++ "://"
    ++ HostConfig.hostname host_config ++ ":"
    ++ str_of_int (HostConfig.port host_config)
  /\ exists text,
       exn_message e = JStr text
       /\ occurs_in (OllamaClient.base_url self) text.
Proof.
  intros self Hc Hi. split; [reflexivity|].
  exact (call_error_names_base_url self c e Hc Hi).
Qed.

End ConnectionErrors.

Lemma connection_errors_name_base_url_witness :
  let self := OllamaClient.__init__ Examples.host 120 Examples.refusing in
  let e :=
    connection_error
      "Failed to connect to Ollama server at https://example.com:443: connection refused" in
  @OllamaClient.call_error Reference.libs self OllamaClient.ListModels = Some e
  /\ isinstance e OllamaConnectionError = true
  /\ OllamaClient.base_url self = "https://example.com:443"
  /\ exists text,
       exn_message e = JStr text
       /\ occurs_in (OllamaClient.base_url self) text.
Proof.
  intros self e.
  split; [reflexivity|]. split; [reflexivity|].
  apply (@connection_errors_name_base_url Reference.libs Examples.host 120
           Examples.refusing OllamaClient.ListModels e); reflexivity.
Defined.

(** ** Request payloads *)

(** C3, as the claim states it, fails: the payload of [generate] called
    with no optional argument holds the optional fields, with the value
    null. *)
Lemma generate_payload_holds_nulls :
  let payload :=
    GenerateRequest.model_dump
      (OllamaClient.generate_request "llama2" "hi" true None None None None) in
  dict_has "system" payload = true
  /\ dict_get "system" payload = Some JNull
  /\ null_keys payload <> [].
Proof. repeat split; try reflexivity. discriminate. Qed.

(** C3, amended: [model_dump()] keeps every declared field of a request.
    An optional field is sent as null exactly when it was not supplied:
    it is not omitted.  In the payloads of generate, chat and embeddings
    the fields the operation has no argument for ([format], [keep_alive],
    and [template] for chat) are always null, and so is [images] in a
    chat message without images.  The payloads of pull, push, show and
    delete, which have no optional field, hold no null. *)
Theorem request_payloads_keep_every_field :
  (forall model prompt stream system template context options,
     let payload :=
       GenerateRequest.model_dump
         (OllamaClient.generate_request model prompt stream system template
            context options) in
     keys payload
     = ["model"; "prompt"; "stream"; "system"; "template"; "context";
        "options"; "format"; "raw"; "keep_alive"]
     /\ null_keys payload
        = (absent "system" system ++ absent "template" template
           ++ absent "context" context ++ absent "options" options
           ++ ["format"; "keep_alive"])%list)
  /\ (forall model messages stream options,
        let payload :=
          ChatRequest.model_dump
            (OllamaClient.chat_request_of model messages stream options) in
        keys payload
        = ["model"; "messages"; "stream"; "format"; "options"; "template";
           "keep_alive"]
        /\ null_keys payload
           = (["format"] ++ absent "options" options
              ++ ["template"; "keep_alive"])%list)
  /\ (forall message,
        keys (ChatMessageDump.model_dump message)
        = ["role"; "content"; "images"]
        /\ null_keys (ChatMessageDump.model_dump message)
           = absent "images" (ChatMessage.images message))
  /\ (forall model prompt options,
        let payload :=
          EmbeddingsRequest.model_dump
            (OllamaClient.embeddings_request model prompt options) in
        keys payload = ["model"; "prompt"; "options"; "keep_alive"]
        /\ null_keys payload
           = (absent "options" options ++ ["keep_alive"])%list)
  /\ (forall r,
        keys (PullRequest.model_dump r) = ["name"; "insecure"; "stream"]
        /\ null_keys (PullRequest.model_dump r) = [])
  /\ (forall r,
        keys (PushRequest.model_dump r) = ["name"; "insecure"; "stream"]
        /\ null_keys (PushRequest.model_dump r) = [])
  /\ (forall r,
        keys (ShowRequest.model_dump r) = ["name"]
        /\ null_keys (ShowRequest.model_dump r) = [])
  /\ (forall r,
        keys (DeleteRequest.model_dump r) = ["name"]
        /\ null_keys (DeleteRequest.model_dump r) = []).
Proof.
  repeat split.
  - destruct system, template, context, options; reflexivity.
  - destruct options; reflexivity.
  - destruct (ChatMessage.images message) eqn:Hi;
      unfold null_keys; simpl; rewrite Hi; reflexivity.
  - destruct options; reflexivity.
Qed.

(** The payload on the wire, seen by a server that sends it back: the
    unary pull returns the body untouched. *)
Lemma pull_payload_on_the_wire :
  @OllamaClient.pull_model Reference.libs (Examples.client_of Examples.echo)
    "llama2" false false
  = Unary (Ok (JDict [ ("name", JStr "llama2");
                       ("insecure", JBool false);
                       ("stream", JBool false) ])).
Proof. vm_compute. reflexivity. Qed.

Section Wire.
Context `{PythonLibs}.

(** [generate] consults the server on one request only, whose body is the
    dump of the request model: two servers that answer that request alike
    are not told apart. *)
Lemma generate_sends_its_dump (self self' : OllamaClient.t)
    (model prompt : str) (st : bool) (system template : option str)
    (context : option (list Z)) (options : option dict) :
  let req :=
    {| method := "POST"; endpoint := "/api/generate";
       json_data :=
         Some (JDict (GenerateRequest.model_dump
                        (OllamaClient.generate_request model prompt st system
                           template context options))) |} in
  OllamaClient.base_url self = OllamaClient.base_url self' ->
  request (OllamaClient.client self) req
  = request (OllamaClient.client self') req ->
  stream (OllamaClient.client self) req
  = stream (OllamaClient.client self') req ->
  OllamaClient.generate self model prompt st system template context options
  = OllamaClient.generate self' model prompt st system template context
      options.
Proof.
  intros req Hb Hr Hs. unfold OllamaClient.generate. destruct st.
  - unfold OllamaClient._stream_request, OllamaClient.stream_raise,
      OllamaClient.except_clauses.
    fold req. rewrite Hs, Hb. reflexivity.
  - rewrite !make_request_cases. fold req. rewrite Hr, Hb. reflexivity.
Qed.

End Wire.

(** ** Typed chunks of the streaming operations *)

Ltac head_required :=
  match goal with
  | |- match Pydantic.required ?v ?k ?d with _ => _ end = _ -> _ =>
      let E := fresh "Hreq" in
      destruct (Pydantic.required v k d) eqn:E; [|discriminate]
  end.

Section TypedChunks.
Context `{PythonLibs}.

Lemma required_present {A : Type} (v : JSON -> option A) (k : str)
    (d : dict) (a : A) :
  Pydantic.required v k d = Some a -> dict_has k d = true.
Proof.
  unfold Pydantic.required, dict_has.
  destruct (dict_get k d); [reflexivity | discriminate].
Qed.

Lemma pull_response_required (d : dict) (r : PullResponse.t) :
  PullResponse.validate d = Some r ->
  has_keys PullResponse.required_fields d.
Proof.
  unfold PullResponse.validate. head_required. intros _.
  repeat constructor; eapply required_present; eassumption.
Qed.

Lemma push_response_required (d : dict) (r : PushResponse.t) :
  PushResponse.validate d = Some r ->
  has_keys PushResponse.required_fields d.
Proof.
  unfold PushResponse.validate. head_required. intros _.
  repeat constructor; eapply required_present; eassumption.
Qed.

Lemma generate_response_required (d : dict) (r : GenerateResponse.t) :
  GenerateResponse.validate d = Some r ->
  has_keys GenerateResponse.required_fields d.
Proof.
  unfold GenerateResponse.validate. do 4 head_required. intros _.
  repeat constructor; eapply required_present; eassumption.
Qed.

Lemma chat_response_required (d : dict) (r : ChatResponse.t) :
  ChatResponse.validate d = Some r ->
  has_keys ChatResponse.required_fields d.
Proof.
  unfold ChatResponse.validate. do 4 head_required. intros _.
  repeat constructor; eapply required_present; eassumption.
Qed.

(** Every chunk a typed generator yields was validated from a chunk of
    the inner generator that is a JSON object. *)
Lemma generator_yields_validated {A : Type} (cls : str)
    (validate : dict -> option A) (chunks : list JSON)
    (inner_end : option exn) (r : A) :
  In r (yielded (OllamaClient.generator_loop (Pydantic.construct cls validate)
                   chunks inner_end)) ->
  exists d, In (JDict d) chunks /\ validate d = Some r.
Proof.
  induction chunks as [|chunk rest IH]; simpl; [contradiction|].
  destruct chunk as [| b | n | l | s | items | d]; simpl;
    try contradiction.
  destruct (validate d) as [a|] eqn:Hv; simpl.
  - intros [<- | Hin].
    + exists d. split; [now left | exact Hv].
    + destruct (IH Hin) as (d' & Hd' & Hv'). exists d'. split; [now right | exact Hv'].
  - intros Hin. destruct (IH Hin) as (d' & Hd' & Hv').
    exists d'. split; [now right | exact Hv'].
Qed.

(** A JSON object that fails validation is skipped, and the generator
    goes on with the next chunk. *)
Lemma generator_skips_invalid_object {A : Type} (cls : str)
    (validate : dict -> option A) (d : dict) (rest : list JSON)
    (inner_end : option exn) :
  validate d = None ->
  OllamaClient.generator_loop (Pydantic.construct cls validate)
    (JDict d :: rest) inner_end
  = OllamaClient.generator_loop (Pydantic.construct cls validate)
      rest inner_end.
Proof. intros Hv. simpl. now rewrite Hv. Qed.

(** A chunk that is valid JSON but no object ends the generator with a
    [TypeError]: nothing of the rest of the stream is yielded. *)
Lemma generator_aborts_on_non_object {A : Type} (cls : str)
    (validate : dict -> option A) (chunk : JSON) (rest : list JSON)
    (inner_end : option exn) :
  (forall d, chunk <> JDict d) ->
  let g :=
    OllamaClient.generator_loop (Pydantic.construct cls validate)
      (chunk :: rest) inner_end in
  yielded g = []
  /\ exists e, ended_by g = Some e /\ exn_class e = TypeError.
Proof.
  intros Hn. destruct chunk as [| b | n | l | s | items | d]; simpl;
    try (split; [reflexivity | eexists; split; reflexivity]).
  now elim (Hn d).
Qed.

End TypedChunks.

(** C5 at the failing input: a pull stream whose second line is the JSON
    number 42.  The line parses as JSON and is no [PullResponse]; instead
    of dropping it the generator raises [TypeError] after the first
    chunk, and the third line, a valid chunk, is never yielded. *)
Theorem pull_stream_aborts_on_json_number :
  @OllamaClient.pull_model Reference.libs
    (Examples.client_of (Examples.streaming Examples.pull_lines_with_number))
    "llama2" true false
  = Streamed
      {| yielded :=
           [ {| PullResponse.status := "pulling manifest";
                PullResponse.digest := None;
                PullResponse.total := None;
                PullResponse.completed := None |} ];
         ended_by :=
           Some (mk_exn TypeError
                   (JStr "PullResponse() argument after ** must be a mapping")
                   None) |}.
Proof. vm_compute. reflexivity. Qed.

(** Without the number line the same stream yields both chunks and ends
    normally. *)
Lemma pull_stream_without_the_number :
  @OllamaClient.pull_model Reference.libs
    (Examples.client_of (Examples.streaming Examples.ndjson))
    "llama2" true false
  = Streamed
      {| yielded :=
           [ {| PullResponse.status := "pulling manifest";
                PullResponse.digest := None;
                PullResponse.total := None;
                PullResponse.completed := None |};
             {| PullResponse.status := "success";
                PullResponse.digest := None;
                PullResponse.total := None;
                PullResponse.completed := None |} ];
         ended_by := None |}.
Proof. vm_compute. reflexivity. Qed.

(** ** Name resolution of a model descriptor *)

Lemma get_name_prefers_name (m : ModelInfo.t) :
  ModelInfo.name m <> EmptyString -> ModelInfo.get_name m = ModelInfo.name m.
Proof.
  unfold ModelInfo.get_name. destruct (ModelInfo.name m); [congruence | reflexivity].
Qed.

Lemma get_name_falls_back (m : ModelInfo.t) :
  ModelInfo.name m = EmptyString -> ModelInfo.get_name m = ModelInfo.model m.
Proof. unfold ModelInfo.get_name. now intros ->. Qed.

Section Descriptors.
Context `{PythonLibs}.

(** [name] has no default: a payload without it is not a [ModelInfo]. *)
Lemma model_info_needs_name (d : dict) :
  dict_get "name" d = None -> ModelInfo.validate d = None.
Proof.
  intros Hn. unfold ModelInfo.validate, Pydantic.required. now rewrite Hn.
Qed.

(** A payload without the field [model] gives the empty default, and the
    resolved name is the field [name]. *)
Lemma model_info_without_model (d : dict) (m : ModelInfo.t) :
  dict_get "model" d = None ->
  ModelInfo.validate d = Some m ->
  ModelInfo.model m = EmptyString
  /\ ModelInfo.get_name m = ModelInfo.name m.
Proof.
  intros Hm. unfold ModelInfo.validate.
  destruct (Pydantic.required validate_str "name" d) as [a|]; [|discriminate].
  unfold Pydantic.with_default at 1. rewrite Hm.
  destruct (Pydantic.required validate_str "modified_at" d); [|discriminate].
  destruct (Pydantic.required validate_int "size" d); [|discriminate].
  destruct (Pydantic.required validate_str "digest" d); [|discriminate].
  destruct (Pydantic.optional _ "details" d); [|discriminate].
  intros [= <-]. unfold ModelInfo.get_name. simpl. split; [reflexivity|].
  destruct a; reflexivity.
Qed.

End Descriptors.

(** C6 at the failing input: a model list whose entry carries its name
    under ["model"] and has no ["name"].  The entry is not decoded, with
    any scalar validators, and [list_models] raises; no descriptor exists
    whose resolved name would be ["llama2"]. *)
Theorem model_named_by_model_field_is_rejected :
  (forall libs : PythonLibs,
     @ModelInfo.validate libs Examples.entry_named_by_model = None)
  /\ @OllamaClient.list_models Reference.libs
       (Examples.client_of
          (Examples.answering 200 Examples.tags_named_by_model))
     = Raise (client_error
                "Failed to parse models list: validation error for ListModelsResponse").
Proof.
  split.
  - intros libs. now apply model_info_needs_name.
  - vm_compute. reflexivity.
Qed.

(** With an empty ["name"] next to ["model"] the entry is decoded and the
    resolved name is the value of ["model"]. *)
Lemma model_with_empty_name_resolves :
  option_map ModelInfo.get_name
    (@ModelInfo.validate Reference.libs
       (("name", JStr EmptyString) :: Examples.entry_named_by_model))
  = Some "llama2".
Proof. vm_compute. reflexivity. Qed.

(** ** The classes of the errors of unary calls *)

Section UnaryErrors.
Context `{PythonLibs}.

Lemma parsed_error_kind {A : Type} (self : OllamaClient.t)
    (method endpoint : str) (json_data : option JSON)
    (failure cls : str) (validate : dict -> option A) (e : exn) :
  match OllamaClient._make_request self method endpoint json_data with
  | Raise e' => Raise e'
  | Ok data =>
      OllamaClient.except_validation_error failure
        (Pydantic.construct cls validate data)
  end = Raise e ->
  unary_error_kind e.
Proof.
  destruct (OllamaClient._make_request self method endpoint json_data)
    as [data | e'] eqn:Hm.
  - intros Hp. apply except_validation_error_classes in Hp as [Hc | Hc].
    + left. unfold isinstance. now rewrite Hc.
    + right. now left.
  - intros [= <-]. left. now apply make_request_raises_client_errors in Hm.
Qed.

(** What a unary call raises is an [OllamaClientError], but for two
    leaks: the [TypeError] of a decoded body that is no JSON object, and
    the [ValidationError] of a chat message refused when the request is
    built. *)
Lemma unary_call_error_kind (self : OllamaClient.t) (c : OllamaClient.Call)
    (e : exn) :
  OllamaClient.is_unary c = true ->
  OllamaClient.call_error self c = Some e ->
  unary_error_kind e.
Proof.
  destruct c as [ | name | name st insecure | name st insecure | name
                | model prompt st system template context options
                | model messages st options | model prompt options | ];
    simpl; intros Hu; try (destruct st; [discriminate|]).
  - unfold OllamaClient.list_models.
    destruct (OllamaClient._make_request self "GET" "/api/tags" None)
      as [data | e'] eqn:Hm; simpl.
    + destruct (OllamaClient.except_validation_error _ _) as [r | e'] eqn:Hp;
        simpl; [discriminate|].
      intros [= <-]. apply except_validation_error_classes in Hp as [Hc | Hc].
      * left. unfold isinstance. now rewrite Hc.
      * right. now left.
    + intros [= <-]. left. now apply make_request_raises_client_errors in Hm.
  - unfold OllamaClient.show_model.
    destruct (match OllamaClient._make_request self _ _ _ with
              | Ok _ => _ | Raise _ => _ end) as [r | e'] eqn:Hp;
      simpl; [discriminate|].
    intros [= <-]. now apply parsed_error_kind in Hp.
  - unfold OllamaClient.pull_model. simpl.
    destruct (OllamaClient._make_request self _ _ _) as [v | e'] eqn:Hm;
      simpl; [discriminate|].
    intros [= <-]. left. now apply make_request_raises_client_errors in Hm.
  - unfold OllamaClient.push_model. simpl.
    destruct (OllamaClient._make_request self _ _ _) as [v | e'] eqn:Hm;
      simpl; [discriminate|].
    intros [= <-]. left. now apply make_request_raises_client_errors in Hm.
  - unfold OllamaClient.delete_model.
    destruct (OllamaClient._make_request self _ _ _) as [v | e'] eqn:Hm;
      simpl; [discriminate|].
    intros [= <-]. left. now apply make_request_raises_client_errors in Hm.
  - unfold OllamaClient.generate. simpl.
    destruct (match OllamaClient._make_request self _ _ _ with
              | Ok _ => _ | Raise _ => _ end) as [r | e'] eqn:Hp;
      simpl; [discriminate|].
    intros [= <-]. now apply parsed_error_kind in Hp.
  - unfold OllamaClient.chat, OllamaClient.chat_request.
    destruct (Pydantic.validate_items _ messages) as [ms|].
    + simpl.
      destruct (match OllamaClient._make_request self _ _ _ with
                | Ok _ => _ | Raise _ => _ end) as [r | e'] eqn:Hp;
        simpl; [discriminate|].
      intros [= <-]. now apply parsed_error_kind in Hp.
    + intros [= <-]. right. now right.
  - unfold OllamaClient.embeddings.
    destruct (OllamaClient._make_request self _ _ _) as [data | e'] eqn:Hm;
      simpl.
    + destruct (OllamaClient.except_validation_error _ _) as [r | e'] eqn:Hp;
        simpl; [discriminate|].
      intros [= <-]. apply except_validation_error_classes in Hp as [Hc | Hc].
      * left. unfold isinstance. now rewrite Hc.
      * right. now left.
    + intros [= <-]. left. now apply make_request_raises_client_errors in Hm.
  - unfold OllamaClient.health_check.
    destruct (OllamaClient._make_request self _ _ _) as [v | e']; simpl;
      [discriminate|].
    unfold isinstance. rewrite every_class_is_an_exception. discriminate.
Qed.

End UnaryErrors.

(** C9 at the failing input: [GET /api/tags] answered 200 with the JSON
    list [[]].  [list_models] is a unary operation and raises a
    [TypeError], which is no instance of [OllamaClientError]: a handler
    for the base class of the client does not catch it.  The two subclass
    links themselves hold. *)
Theorem list_models_leaks_type_error :
  let e :=
    mk_exn TypeError
      (JStr "ListModelsResponse() argument after ** must be a mapping") None in
  OllamaClient.is_unary OllamaClient.ListModels = true
  /\ @OllamaClient.call_error Reference.libs
       (Examples.client_of (Examples.answering 200 "[]"))
       OllamaClient.ListModels = Some e
  /\ isinstance e OllamaClientError = false
  /\ issubclass OllamaConnectionError OllamaClientError = true
  /\ issubclass OllamaAPIError OllamaClientError = true.
Proof. repeat split; vm_compute; reflexivity. Qed.

(** * Further properties *)

(** ** Integers as text *)

Lemma string_length_append (a b : str) :
  length (a ++ b) = (length a + length b)%nat.
Proof. induction a as [|c a IH]; simpl; [reflexivity | now rewrite IH]. Qed.

















(** ** Splitting at the last colon *)

Lemma rsplit_colon_none (s : str) :
  no_colon s = true -> rsplit_colon s = None.
Proof.
  unfold no_colon. induction s as [|c r IH]; simpl; [reflexivity|].
  intros H. apply andb_prop in H as [Hc Hr]. apply negb_true_iff in Hc.
  now rewrite (IH Hr), Hc.
Qed.

Lemma rsplit_colon_joined (h t : str) :
  no_colon t = true -> rsplit_colon (h ++ ":" ++ t) = Some (h, t).
Proof.
  intros Ht. induction h as [|c h IH]; simpl.
  - now rewrite (rsplit_colon_none t Ht).
  - simpl in IH. now rewrite IH.
Qed.

Lemma rsplit_colon_parts (s a b : str) :
  rsplit_colon s = Some (a, b) -> s = a ++ ":" ++ b /\ no_colon b = true.
Proof.
  revert a. induction s as [|c r IH]; intros a; simpl; [discriminate|].
  destruct (rsplit_colon r) as [[a' b']|] eqn:Hr.
  - intros [= <- <-]. destruct (IH a' eq_refl) as [-> Hb].
    split; [reflexivity | exact Hb].
  - destruct (is_colon c) eqn:Hc; [|discriminate].
    intros [= <- <-]. split.
    + simpl. f_equal. unfold is_colon in Hc. apply N.eqb_eq in Hc.
      unfold code in Hc. rewrite <- (ascii_N_embedding c), Hc. reflexivity.
    + clear IH. unfold no_colon.
      induction r as [|x r IHr]; simpl in *; [reflexivity|].
      destruct (rsplit_colon r) as [[a' b']|]; [discriminate|].
      destruct (is_colon x); [discriminate|]. simpl. now apply IHr.
Qed.

(** ** parse_host_arg *)


(** X2: [parse_host_arg] loses nothing of its argument, for an argument
    of at most 4300 characters (so that [int] is within its limit of
    digits).  When it returns a port, the argument is the returned
    hostname, a colon and a text without colon that [int] reads as the
    port.  When it returns no port, the hostname is the whole argument,
    or [localhost] for an empty argument, and the argument holds no colon
    or [int] refuses the text after its last colon.  A missing argument
    gives [localhost] and no port. *)
Theorem parse_host_arg_keeps_the_text (host : str) :
  (py_len host <= 4300)%Z ->
  match HostArg.parse_host_arg (Some host) with
  | (hostname, Some port) =>
      exists port_str,
        host = hostname ++ ":" ++ port_str
        /\ no_colon port_str = true
        /\ py_int port_str = Some port
  | (hostname, None) =>
      hostname = (if truthy host then host else "localhost")
      /\ forall before port_str,
           host = before ++ ":" ++ port_str ->
           no_colon port_str = true ->
           py_int port_str = None
  end
  /\ HostArg.parse_host_arg None = ("localhost", None).
Proof.
  intros _. split; [|reflexivity].
  unfold HostArg.parse_host_arg. destruct (truthy host) eqn:Ht; simpl.
  - destruct (rsplit_colon host) as [[hostname port_str]|] eqn:Hr.
    + destruct (py_int port_str) as [port|] eqn:Hp.
      * apply rsplit_colon_parts in Hr as [-> Hn].
        exists port_str. auto.
      * split; [reflexivity|]. intros before text -> Hn.
        pose proof (rsplit_colon_joined before text Hn) as Hj.
      simpl in Hj, Hr. rewrite Hj in Hr.
        injection Hr as _ <-. exact Hp.
    + split; [reflexivity|]. intros before text -> Hn.
      pose proof (rsplit_colon_joined before text Hn) as Hj.
      simpl in Hj, Hr. rewrite Hj in Hr. discriminate Hr.
  - split; [reflexivity|]. intros before text -> _.
    destruct before; discriminate Ht.
Qed.

Lemma parse_host_arg_keeps_the_text_witness :
  (py_len "192.168.1.100:8080" <= 4300)%Z
  /\ HostArg.parse_host_arg (Some "192.168.1.100:8080")
     = ("192.168.1.100", Some 8080%Z)
  /\ exists port_str,
       "192.168.1.100:8080" = "192.168.1.100" ++ ":" ++ port_str
       /\ no_colon port_str = true
       /\ py_int port_str = Some 8080%Z.
Proof.
  assert (py_len "192.168.1.100:8080" <= 4300)%Z as Hlen
    by (vm_compute; discriminate).
  split; [exact Hlen|]. split; [reflexivity|].
  exact (proj1 (parse_host_arg_keeps_the_text "192.168.1.100:8080" Hlen)).
Defined.

(** ** Config.get_host_config *)

Lemma get_base_url_host_at (hostname : str) (port : Z) :
  HostConfig.get_base_url (Config.host_at hostname port)
  = "http://" ++ hostname ++ ":" ++ str_of_int port.
Proof. reflexivity. Qed.



(** X4: [get_host_config] never fails and never rewrites a configured
    host, for an alias of at most 4300 characters (so that [int] is
    within its limit of digits): a configured alias gives its entry as it
    is, also when the alias looks like [host:port]; any other alias gives
    a host with protocol [http] and TLS verification on, which is the
    alias split at its last colon into hostname and port when [int]
    reads the text after that colon, and the alias itself on port 11434
    when the alias holds no colon or [int] refuses that text.  Without
    an alias the default host is looked up in the same way. *)
Theorem get_host_config_cases (self : Config.t) (alias : str) :
  (py_len alias <= 4300)%Z ->
  let h := Config.get_host_config self (Some alias) in
  match Config.hosts_get alias (Config.hosts self) with
  | Some configured => h = configured
  | None =>
      HostConfig.protocol h = "http"
      /\ HostConfig.verify_ssl h = true
      /\ ((HostConfig.hostname h = alias /\ HostConfig.port h = 11434%Z
           /\ forall before port_str,
                alias = before ++ ":" ++ port_str ->
                no_colon port_str = true ->
                py_int port_str = None)
          \/ exists port_str,
               alias = HostConfig.hostname h ++ ":" ++ port_str
               /\ no_colon port_str = true
               /\ py_int port_str = Some (HostConfig.port h))
  end
  /\ Config.get_host_config self None
     = Config.get_host_config self (Some (Config.default_host self)).
Proof.
  intros _ h. split; [|reflexivity]. subst h.
  unfold Config.get_host_config.
  destruct (Config.hosts_get alias (Config.hosts self)); [reflexivity|].
  destruct (rsplit_colon alias) as [[hostname port_str]|] eqn:Hr.
  - destruct (py_int port_str) as [port|] eqn:Hp.
    + apply rsplit_colon_parts in Hr as [-> Hn].
      repeat split. right. exists port_str. simpl. auto.
    + repeat split. left. repeat split.
      intros before text -> Hn.
      pose proof (rsplit_colon_joined before text Hn) as Hj.
      simpl in Hj, Hr. rewrite Hj in Hr.
      injection Hr as _ <-. exact Hp.
  - repeat split. left. repeat split.
    intros before text -> Hn.
    pose proof (rsplit_colon_joined before text Hn) as Hj.
    simpl in Hj, Hr. rewrite Hj in Hr. discriminate Hr.
Qed.

Lemma get_host_config_cases_witness :
  (py_len "cloud" <= 4300)%Z
  /\ Config.hosts_get "cloud" (Config.hosts MoreExamples.config)
     = Some MoreExamples.cloud
  /\ Config.get_host_config MoreExamples.config (Some "cloud")
     = MoreExamples.cloud
  /\ Config.get_host_config MoreExamples.config None
     = Config.get_host_config MoreExamples.config
         (Some (Config.default_host MoreExamples.config)).
Proof.
  assert (py_len "cloud" <= 4300)%Z as Hlen by (vm_compute; discriminate).
  split; [exact Hlen|]. split; [reflexivity|].
  exact (get_host_config_cases MoreExamples.config "cloud" Hlen).
Defined.

(** ** truncate_string *)

Lemma substring_prefix_length (k : nat) (s : str) :
  length (substring 0 k s) = Nat.min k (length s).
Proof.
  revert k. induction s as [|c r IH]; intros [|k]; simpl; try reflexivity.
  now rewrite IH.
Qed.

Lemma substring_is_prefix (k : nat) (s : str) :
  exists rest, s = substring 0 k s ++ rest.
Proof.
  revert k. induction s as [|c r IH]; intros [|k]; simpl.
  - now exists EmptyString.
  - now exists EmptyString.
  - now exists (String c r).
  - destruct (IH k) as [rest Hr]. exists rest. now rewrite <- Hr.
Qed.

Lemma py_len_append (a b : str) : py_len (a ++ b) = (py_len a + py_len b)%Z.
Proof. unfold py_len. rewrite string_length_append. lia. Qed.

Lemma py_len_nonneg (s : str) : (0 <= py_len s)%Z.
Proof. unfold py_len. lia. Qed.

Lemma py_len_slice_to (s : str) (stop : Z) :
  py_len (slice_to s stop)
  = (if (stop <? 0)%Z then Z.max 0 (py_len s + stop)
     else Z.min stop (py_len s))%Z.
Proof.
  unfold slice_to. pose proof (Nat2Z.is_nonneg (length s)) as Hn.
  unfold py_len in *. rewrite substring_prefix_length.
  destruct (stop <? 0)%Z eqn:Hs; [apply Z.ltb_lt in Hs | apply Z.ltb_ge in Hs]; lia.
Qed.

(** X5: when the suffix fits into [max_length], the result of
    [truncate_string] never exceeds [max_length]: a text within the limit
    comes back unchanged, a longer one comes back with exactly
    [max_length] characters, made of its first
    [max_length - len(suffix)] characters followed by the suffix. *)
Theorem truncate_string_fits (text : str) (max_length : Z) (suffix : str) :
  (py_len suffix <= max_length)%Z ->
  let result := HostArg.truncate_string text max_length suffix in
  py_len result = Z.min (py_len text) max_length
  /\ ((py_len text <= max_length)%Z -> result = text)
  /\ ((max_length < py_len text)%Z ->
      exists kept rest,
        text = kept ++ rest
        /\ py_len kept = (max_length - py_len suffix)%Z
        /\ result = kept ++ suffix).
Proof.
  intros Hs result. subst result. unfold HostArg.truncate_string.
  pose proof (py_len_nonneg suffix) as Hsuffix.
  destruct (py_len text <=? max_length)%Z eqn:Hl;
    [apply Z.leb_le in Hl | apply Z.leb_gt in Hl].
  - split; [lia|]. split; [reflexivity | intros; lia].
  - assert (py_len (slice_to text (max_length - py_len suffix))
            = (max_length - py_len suffix)%Z) as Hk.
    { rewrite py_len_slice_to.
      destruct (max_length - py_len suffix <? 0)%Z eqn:Hn;
        [apply Z.ltb_lt in Hn | apply Z.ltb_ge in Hn]; lia. }
    split; [rewrite py_len_append, Hk; lia|].
    split; [intros; lia|]. intros _.
    destruct (substring_is_prefix
                (Z.to_nat (if (max_length - py_len suffix <? 0)%Z
                           then Z.max 0 (py_len text
                                         + (max_length - py_len suffix))
                           else Z.min (max_length - py_len suffix)
                                  (py_len text)))
                text) as [rest Hr].
    exists (slice_to text (max_length - py_len suffix)), rest.
    split; [exact Hr|]. split; [exact Hk | reflexivity].
Qed.

Lemma truncate_string_fits_witness :
  (py_len "..." <= 8)%Z
  /\ let result := HostArg.truncate_string "llama2:13b-chat" 8 "..." in
     py_len result = Z.min (py_len "llama2:13b-chat") 8
     /\ ((py_len "llama2:13b-chat" <= 8)%Z -> result = "llama2:13b-chat")
     /\ ((8 < py_len "llama2:13b-chat")%Z ->
         exists kept rest,
           "llama2:13b-chat" = kept ++ rest
           /\ py_len kept = (8 - py_len "...")%Z
           /\ result = kept ++ "...").
Proof.
  split; [vm_compute; discriminate|].
  apply (truncate_string_fits "llama2:13b-chat" 8 "...").
  vm_compute; discriminate.
Defined.

(** X6: when the suffix is longer than [max_length], a text over the
    limit is not cut down to it: the result still ends with the whole
    suffix and is longer than [max_length]; the negative slice bound drops
    characters from the end of the text instead. *)
Theorem truncate_string_overlong_suffix
    (text : str) (max_length : Z) (suffix : str) :
  (max_length < py_len suffix)%Z ->
  (max_length < py_len text)%Z ->
  let result := HostArg.truncate_string text max_length suffix in
  (max_length < py_len result)%Z
  /\ py_len result
     = (Z.max 0 (py_len text - (py_len suffix - max_length))
        + py_len suffix)%Z
  /\ exists kept, result = kept ++ suffix.
Proof.
  intros Hs Hl result. subst result. unfold HostArg.truncate_string.
  pose proof (py_len_nonneg suffix) as Hsuffix.
  apply Z.leb_gt in Hl. rewrite Hl. apply Z.leb_gt in Hl.
  assert (py_len (slice_to text (max_length - py_len suffix))
          = Z.max 0 (py_len text - (py_len suffix - max_length))) as Hk.
  { rewrite py_len_slice_to.
    assert ((max_length - py_len suffix <? 0)%Z = true) as ->
      by (apply Z.ltb_lt; lia).
    lia. }
  rewrite py_len_append, Hk.
  split; [lia|]. split; [reflexivity|]. now eexists.
Qed.

Lemma truncate_string_overlong_suffix_witness :
  (2 < py_len "...")%Z
  /\ (2 < py_len "abcdefghij")%Z
  /\ let result := HostArg.truncate_string "abcdefghij" 2 "..." in
     (2 < py_len result)%Z
     /\ py_len result
        = (Z.max 0 (py_len "abcdefghij" - (py_len "..." - 2))
           + py_len "...")%Z
     /\ exists kept, result = kept ++ "...".
Proof.
  split; [reflexivity|]. split; [reflexivity|].
  apply (truncate_string_overlong_suffix "abcdefghij" 2 "..."); reflexivity.
Defined.

(** ** _sanitize_alias *)

Section Sanitize.
Import AliasShape.
Variable P : ascii -> bool.

Lemma keep_alias_chars_all (s : str) :
  forallb Mcp.alias_char (chars (Mcp.keep_alias_chars s)) = true.
Proof.
  induction s as [|c r IH]; simpl; [reflexivity|].
  destruct (Mcp.alias_char c) eqn:Hc; simpl; [now rewrite Hc | exact IH].
Qed.

Lemma collapse_hyphens_forallb (s : str) :
  forallb P (chars s) = true ->
  forallb P (chars (Mcp.collapse_hyphens s)) = true.
Proof.
  induction s as [|c r IH]; simpl; [reflexivity|].
  intros H. apply andb_prop in H as [Hc Hr]. specialize (IH Hr).
  destruct (Mcp.is_hyphen c).
  - destruct r as [|c' r']; [simpl; now rewrite Hc|].
    destruct (Mcp.is_hyphen c'); [exact IH|].
    change (P c && forallb P (chars (Mcp.collapse_hyphens (String c' r')))
            = true).
    now rewrite Hc, IH.
  - change (P c && forallb P (chars (Mcp.collapse_hyphens r)) = true).
    now rewrite Hc, IH.
Qed.

Lemma collapse_hyphens_start (s : str) :
  starts_with_hyphen (Mcp.collapse_hyphens s) = starts_with_hyphen s.
Proof.
  induction s as [|c r IH]; [reflexivity|].
  simpl. destruct (Mcp.is_hyphen c) eqn:Hc.
  - destruct r as [|c' r']; [simpl; exact Hc|].
    destruct (Mcp.is_hyphen c') eqn:Hc'.
    + rewrite IH. simpl. exact Hc'.
    + simpl. exact Hc.
  - simpl. exact Hc.
Qed.

Lemma collapse_hyphens_no_double (s : str) :
  no_double_hyphen (Mcp.collapse_hyphens s) = true.
Proof.
  induction s as [|c r IH]; [reflexivity|].
  simpl. destruct (Mcp.is_hyphen c) eqn:Hc.
  - destruct r as [|c' r']; [simpl; now rewrite andb_false_r|].
    destruct (Mcp.is_hyphen c') eqn:Hc'; [exact IH|].
    change (negb (Mcp.is_hyphen c
                  && starts_with_hyphen
                       (Mcp.collapse_hyphens (String c' r')))
            && no_double_hyphen (Mcp.collapse_hyphens (String c' r'))
            = true).
    rewrite collapse_hyphens_start, IH.
    change (starts_with_hyphen (String c' r')) with (Mcp.is_hyphen c').
    now rewrite Hc', andb_false_r.
  - change (negb (Mcp.is_hyphen c
                  && starts_with_hyphen (Mcp.collapse_hyphens r))
            && no_double_hyphen (Mcp.collapse_hyphens r) = true).
    now rewrite Hc, IH.
Qed.

Lemma lstrip_hyphens_forallb (s : str) :
  forallb P (chars s) = true ->
  forallb P (chars (Mcp.lstrip_hyphens s)) = true.
Proof.
  induction s as [|c r IH]; simpl; [reflexivity|].
  intros H. destruct (Mcp.is_hyphen c); [|exact H].
  apply andb_prop in H as [_ Hr]. auto.
Qed.

Lemma lstrip_hyphens_start (s : str) :
  starts_with_hyphen (Mcp.lstrip_hyphens s) = false.
Proof.
  induction s as [|c r IH]; simpl; [reflexivity|].
  destruct (Mcp.is_hyphen c) eqn:Hc; [exact IH | simpl; exact Hc].
Qed.

Lemma lstrip_hyphens_no_double (s : str) :
  no_double_hyphen s = true -> no_double_hyphen (Mcp.lstrip_hyphens s) = true.
Proof.
  induction s as [|c r IH]; [reflexivity|].
  intros H. simpl. destruct (Mcp.is_hyphen c); [|exact H].
  simpl in H. apply andb_prop in H as [_ Hr]. auto.
Qed.

Lemma rstrip_hyphens_forallb (s : str) :
  forallb P (chars s) = true ->
  forallb P (chars (Mcp.rstrip_hyphens s)) = true.
Proof.
  induction s as [|c r IH]; simpl; [reflexivity|].
  intros H. apply andb_prop in H as [Hc Hr]. specialize (IH Hr).
  destruct (Mcp.rstrip_hyphens r) as [|x y].
  - destruct (Mcp.is_hyphen c); simpl; [reflexivity | now rewrite Hc].
  - simpl in *. now rewrite Hc, IH.
Qed.

Lemma rstrip_hyphens_head (s : str) (x : ascii) (y : str) :
  Mcp.rstrip_hyphens s = String x y ->
  starts_with_hyphen (Mcp.rstrip_hyphens s) = starts_with_hyphen s.
Proof.
  destruct s as [|c r]; [discriminate|]. simpl.
  destruct (Mcp.rstrip_hyphens r); [|reflexivity].
  destruct (Mcp.is_hyphen c) eqn:Hc; [discriminate | simpl; now rewrite Hc].
Qed.

Lemma rstrip_hyphens_start (s : str) :
  starts_with_hyphen s = false ->
  starts_with_hyphen (Mcp.rstrip_hyphens s) = false.
Proof.
  intros Hs. destruct (Mcp.rstrip_hyphens s) as [|x y] eqn:Hr; [reflexivity|].
  rewrite <- Hr. now rewrite (rstrip_hyphens_head s x y Hr).
Qed.

Lemma rstrip_hyphens_end (s : str) :
  ends_with_hyphen (Mcp.rstrip_hyphens s) = false.
Proof.
  induction s as [|c r IH]; [reflexivity|].
  simpl. destruct (Mcp.rstrip_hyphens r) as [|x y].
  - destruct (Mcp.is_hyphen c) eqn:Hc; [reflexivity | simpl; exact Hc].
  - exact IH.
Qed.

Lemma rstrip_hyphens_no_double (s : str) :
  no_double_hyphen s = true -> no_double_hyphen (Mcp.rstrip_hyphens s) = true.
Proof.
  induction s as [|c r IH]; [reflexivity|].
  intros H. simpl in H. apply andb_prop in H as [Hc Hr]. specialize (IH Hr).
  simpl. destruct (Mcp.rstrip_hyphens r) as [|x y] eqn:Hrs.
  - destruct (Mcp.is_hyphen c); [reflexivity|].
    simpl. now rewrite andb_false_r.
  - pose proof (rstrip_hyphens_head r x y Hrs) as Hh. rewrite Hrs in Hh.
    change (negb (Mcp.is_hyphen c && starts_with_hyphen (String x y))
            && no_double_hyphen (String x y) = true).
    now rewrite Hh, Hc, IH.
Qed.

End Sanitize.

Lemma sanitize_alias_parts (name : str) :
  let alias := Mcp._sanitize_alias name in
  forallb Mcp.alias_char (chars alias) = true
  /\ AliasShape.starts_with_hyphen alias = false
  /\ AliasShape.ends_with_hyphen alias = false
  /\ AliasShape.no_double_hyphen alias = true.
Proof.
  unfold Mcp._sanitize_alias, Mcp.strip_hyphens.
  set (t := Mcp.collapse_hyphens (Mcp.keep_alias_chars _)).
  assert (forallb Mcp.alias_char (chars t) = true) as Ha
    by (apply collapse_hyphens_forallb, keep_alias_chars_all).
  assert (AliasShape.no_double_hyphen t = true) as Hd
    by apply collapse_hyphens_no_double.
  repeat split.
  - apply rstrip_hyphens_forallb, lstrip_hyphens_forallb, Ha.
  - apply rstrip_hyphens_start, lstrip_hyphens_start.
  - apply rstrip_hyphens_end.
  - apply rstrip_hyphens_no_double, lstrip_hyphens_no_double, Hd.
Qed.

(** X7: whatever the server name, the alias [_sanitize_alias] returns is
    made of lowercase letters, digits and hyphens only, has no hyphen at
    either end and no two hyphens in a row.  (It may be empty.) *)
Theorem sanitize_alias_shape (name : str) :
  AliasShape.well_formed (Mcp._sanitize_alias name) = true.
Proof.
  destruct (sanitize_alias_parts name) as (Ha & Hs & He & Hd).
  unfold AliasShape.well_formed.
  rewrite Ha, Hs, He, Hd. reflexivity.
Qed.

Lemma alias_char_code (c : ascii) :
  Mcp.alias_char c = true ->
  ((97 <= code c <= 122) \/ (48 <= code c <= 57) \/ code c = 45)%N.
Proof.
  unfold Mcp.alias_char.
  rewrite !orb_true_iff, !andb_true_iff, !N.leb_le, N.eqb_eq. tauto.
Qed.

Lemma alias_char_lower (c : ascii) :
  Mcp.alias_char c = true -> lower_char c = c.
Proof.
  intros H. apply alias_char_code in H. unfold lower_char.
  assert (((65 <=? code c) && (code c <=? 90))%N = false) as ->.
  { apply andb_false_iff.
    destruct (N.leb_spec 65 (code c)); [right; apply N.leb_gt; lia | now left]. }
  assert (((192 <=? code c) && (code c <=? 222) && negb (code c =? 215))%N
          = false) as ->.
  { apply andb_false_iff. left. apply andb_false_iff. left.
    apply N.leb_gt. lia. }
  reflexivity.
Qed.

Section SanitizeFixedPoints.
Import AliasShape.

Lemma lower_alias (s : str) :
  forallb Mcp.alias_char (chars s) = true -> lower s = s.
Proof.
  induction s as [|c r IH]; simpl; [reflexivity|].
  intros H. apply andb_prop in H as [Hc Hr].
  now rewrite (alias_char_lower c Hc), (IH Hr).
Qed.

Lemma replace_char_alias (old new : ascii) (s : str) :
  Mcp.alias_char old = false ->
  forallb Mcp.alias_char (chars s) = true -> Mcp.replace_char old new s = s.
Proof.
  intros Ho. induction s as [|c r IH]; simpl; [reflexivity|].
  intros H. apply andb_prop in H as [Hc Hr]. rewrite (IH Hr).
  destruct (code c =? code old)%N eqn:He; [|reflexivity].
  apply N.eqb_eq in He. unfold code in He.
  assert (c = old) as ->
    by (rewrite <- (ascii_N_embedding c), He; apply ascii_N_embedding).
  congruence.
Qed.

Lemma keep_alias_chars_alias (s : str) :
  forallb Mcp.alias_char (chars s) = true -> Mcp.keep_alias_chars s = s.
Proof.
  induction s as [|c r IH]; simpl; [reflexivity|].
  intros H. apply andb_prop in H as [Hc Hr]. now rewrite Hc, (IH Hr).
Qed.

Lemma collapse_hyphens_single (s : str) :
  no_double_hyphen s = true -> Mcp.collapse_hyphens s = s.
Proof.
  induction s as [|c r IH]; [reflexivity|].
  intros H. simpl in H. apply andb_prop in H as [Hc Hr]. specialize (IH Hr).
  simpl. destruct (Mcp.is_hyphen c).
  - destruct r as [|c' r']; [reflexivity|].
    simpl in Hc. apply negb_true_iff in Hc. rewrite Hc. now rewrite IH.
  - now rewrite IH.
Qed.

Lemma lstrip_hyphens_none (s : str) :
  starts_with_hyphen s = false -> Mcp.lstrip_hyphens s = s.
Proof. destruct s; simpl; [reflexivity | now intros ->]. Qed.

Lemma rstrip_hyphens_none (s : str) :
  ends_with_hyphen s = false -> Mcp.rstrip_hyphens s = s.
Proof.
  induction s as [|c r IH]; [reflexivity|].
  intros H. simpl. destruct r as [|c' r'].
  - simpl in *. now rewrite H.
  - rewrite (IH H). reflexivity.
Qed.

End SanitizeFixedPoints.

(** X8: a name that already has the shape of an alias (lowercase letters,
    digits and single hyphens, none at either end) is left unchanged by
    [_sanitize_alias]. *)
Theorem sanitize_alias_keeps_aliases (name : str) :
  AliasShape.well_formed name = true -> Mcp._sanitize_alias name = name.
Proof.
  unfold AliasShape.well_formed. rewrite !andb_true_iff, !negb_true_iff.
  intros [[[Ha Hs] He] Hd].
  unfold Mcp._sanitize_alias, Mcp.strip_hyphens.
  rewrite (lower_alias name Ha).
  rewrite (replace_char_alias " " "-" name eq_refl Ha).
  rewrite (replace_char_alias "_" "-" name eq_refl Ha).
  rewrite (keep_alias_chars_alias name Ha).
  rewrite (collapse_hyphens_single name Hd).
  rewrite (lstrip_hyphens_none name Hs).
  now apply rstrip_hyphens_none.
Qed.

Lemma sanitize_alias_keeps_aliases_witness :
  AliasShape.well_formed "ollama-local" = true
  /\ Mcp._sanitize_alias "ollama-local" = "ollama-local".
Proof.
  split; [reflexivity|].
  apply (sanitize_alias_keeps_aliases "ollama-local"). reflexivity.
Defined.

(** X9: [_sanitize_alias] is idempotent: sanitizing an alias again
    changes nothing. *)
Theorem sanitize_alias_idempotent (name : str) :
  Mcp._sanitize_alias (Mcp._sanitize_alias name) = Mcp._sanitize_alias name.
Proof.
  pose proof (sanitize_alias_parts name) as H. cbv zeta in H.
  revert H. generalize (Mcp._sanitize_alias name).
  intros s (Ha & Hs & He & Hd).
  unfold Mcp._sanitize_alias, Mcp.strip_hyphens.
  rewrite (lower_alias s Ha).
  rewrite (replace_char_alias " " "-" s eq_refl Ha).
  rewrite (replace_char_alias "_" "-" s eq_refl Ha).
  rewrite (keep_alias_chars_alias s Ha).
  rewrite (collapse_hyphens_single s Hd).
  rewrite (lstrip_hyphens_none s Hs).
  now apply rstrip_hyphens_none.
Qed.

(** ** validate_model_name, with the trailing newline *)

Lemma lower_append (a b : str) : lower (a ++ b) = lower a ++ lower b.
Proof. induction a as [|c a IH]; simpl; [reflexivity | now rewrite IH]. Qed.

Lemma at_dollar_before_line_feed (r : str) :
  Utils.at_dollar (snd (Utils.span_class (r ++ line_feed)))
  = forallb Utils.model_name_char (chars r).
Proof.
  induction r as [|c r IH]; [reflexivity|].
  simpl. destruct (Utils.model_name_char c) eqn:Hc.
  - destruct (Utils.span_class (r ++ line_feed)) as [w rest]. exact IH.
  - simpl. destruct r; reflexivity.
Qed.

Lemma re_match_pattern_line_feed (w : str) :
  Utils.re_match_pattern (w ++ line_feed)
  = truthy w && forallb Utils.model_name_char (chars w).
Proof.
  unfold Utils.re_match_pattern. destruct w as [|c r]; [reflexivity|].
  pose proof (at_dollar_before_line_feed (String c r)) as Hd.
  simpl in *. destruct (Utils.model_name_char c).
  - destruct (Utils.span_class (r ++ line_feed)) as [w rest]. exact Hd.
  - reflexivity.
Qed.

Lemma validate_model_name_line_feed (core : str) :
  Utils.validate_model_name (core ++ line_feed)
  = truthy core
    && forallb (fun c => Utils.model_name_char (lower_char c)) (chars core).
Proof.
  unfold Utils.validate_model_name.
  assert (truthy (core ++ line_feed) = true) as -> by (destruct core; reflexivity).
  simpl negb. cbv iota.
  rewrite lower_append.
  change (lower line_feed) with line_feed.
  rewrite re_match_pattern_line_feed, truthy_lower, chars_lower.
  now rewrite forallb_over_map.
Qed.

Lemma ends_with_newline_split (s : str) :
  Utils.ends_with_newline s = true -> exists core, s = core ++ line_feed.
Proof.
  induction s as [|c r IH]; [discriminate|].
  simpl. destruct r as [|c' r'].
  - intros Hc. exists EmptyString. simpl. unfold line_feed. f_equal.
    apply N.eqb_eq in Hc. unfold code in Hc.
    rewrite <- (ascii_N_embedding c), Hc. reflexivity.
  - intros Hr. destruct (IH Hr) as [core ->]. now exists (String c core).
Qed.

Lemma name_chars_no_newline (s : str) :
  forallb (fun c => Utils.model_name_char (lower_char c)) (chars s) = true ->
  Utils.ends_with_newline s = false.
Proof.
  induction s as [|c r IH]; [reflexivity|].
  simpl. intros H. apply andb_prop in H as [Hc Hr].
  destruct r as [|c' r']; [|now apply IH].
  rewrite <- lower_char_newline.
  destruct (code (lower_char c) =? 10)%N eqn:He; [|reflexivity].
  apply N.eqb_eq in He. unfold Utils.model_name_char in Hc. rewrite He in Hc.
  discriminate Hc.
Qed.

(** X10: the complete behaviour of [validate_model_name]: it returns true
    exactly for the names made of a non-empty core, each character of
    which is, once lowercased, a lowercase letter, a digit or one of
    [. _ : / -], and optionally followed by one newline (which [$]
    lets through); every other name is refused. *)
Theorem validate_model_name_complete (name : str) :
  Utils.validate_model_name name = true <->
  exists core,
    core <> EmptyString
    /\ forallb (fun c => Utils.model_name_char (lower_char c)) (chars core)
       = true
    /\ (name = core \/ name = core ++ line_feed).
Proof.
  split.
  - intros Hv. destruct (Utils.ends_with_newline name) eqn:Hn.
    + destruct (ends_with_newline_split name Hn) as [core ->].
      rewrite validate_model_name_line_feed in Hv.
      apply andb_prop in Hv as [Ht Ha].
      exists core. split; [intros ->; discriminate Ht|]. auto.
    + rewrite (validate_model_name_bool name Hn) in Hv.
      apply andb_prop in Hv as [Ht Ha].
      exists name. split; [intros ->; discriminate Ht|]. auto.
  - intros (core & Hne & Ha & [-> | ->]).
    + rewrite (validate_model_name_bool core (name_chars_no_newline core Ha)).
      rewrite Ha. destruct core; [congruence | reflexivity].
    + rewrite validate_model_name_line_feed, Ha.
      destruct core; [congruence | reflexivity].
Qed.

(** ** Dictionaries *)

Lemma dict_get_set_same (k : str) (v : JSON) (d : dict) :
  dict_get k (dict_set k v d) = Some v.
Proof.
  induction d as [|[k' v'] rest IH]; simpl.
  - now rewrite String.eqb_refl.
  - destruct (k' =? k) eqn:He; simpl; rewrite He; [reflexivity | exact IH].
Qed.

Lemma dict_get_set_other (k k' : str) (v : JSON) (d : dict) :
  k <> k' -> dict_get k (dict_set k' v d) = dict_get k d.
Proof.
  intros Hne. induction d as [|[k0 v0] rest IH]; simpl.
  - assert ((k' =? k) = false) as -> by (apply String.eqb_neq; congruence).
    reflexivity.
  - destruct (k0 =? k') eqn:He; simpl.
    + apply String.eqb_eq in He. subst k0.
      assert ((k' =? k) = false) as -> by (apply String.eqb_neq; congruence).
      reflexivity.
    + destruct (k0 =? k); [reflexivity | exact IH].
Qed.

Lemma dict_get_absent (k : str) (d : dict) :
  ~ In k (keys d) -> dict_get k d = None.
Proof.
  induction d as [|[k' v'] rest IH]; simpl; [reflexivity|].
  intros Hn. destruct (k' =? k) eqn:He.
  - apply String.eqb_eq in He. elim Hn. now left.
  - apply IH. intros Hi. apply Hn. now right.
Qed.

Lemma dict_set_absent (k : str) (v : JSON) (d : dict) :
  ~ In k (keys d) -> dict_set k v d = (d ++ [(k, v)])%list.
Proof.
  induction d as [|[k' v'] rest IH]; simpl; [reflexivity|].
  intros Hn. destruct (k' =? k) eqn:He.
  - apply String.eqb_eq in He. elim Hn. now left.
  - rewrite IH; [reflexivity|]. intros Hi. apply Hn. now right.
Qed.

(** ** merge_configs *)

Lemma merge_loop_lookup (merge : option JSON -> JSON -> JSON)
    (items : list (str * JSON)) (result : dict) (k : str) :
  NoDup (keys items) ->
  dict_get k (ConfigFile.merge_loop merge result items)
  = match dict_get k items with
    | Some v => Some (merge (dict_get k result) v)
    | None => dict_get k result
    end.
Proof.
  revert result. induction items as [|[k0 v0] rest IH]; intros result Hnd;
    [reflexivity|].
  simpl in Hnd. inversion Hnd as [|? ? Hnotin Hnd']; subst.
  simpl. rewrite (IH _ Hnd').
  destruct (k0 =? k) eqn:He.
  - apply String.eqb_eq in He. subst k0.
    rewrite (dict_get_absent k rest Hnotin). apply dict_get_set_same.
  - assert (k <> k0) as Hne by (apply String.eqb_neq in He; congruence).
    rewrite (dict_get_set_other k k0 _ result Hne). reflexivity.
Qed.

Lemma merge_configs_lookup_aux (base override : dict) (k : str) :
  NoDup (keys override) ->
  dict_get k (ConfigFile.merge_configs base override)
  = match dict_get k override with
    | None => dict_get k base
    | Some (JDict o) =>
        match dict_get k base with
        | Some (JDict b) => Some (JDict (ConfigFile.merge_configs b o))
        | _ => Some (JDict o)
        end
    | Some v => Some v
    end.
Proof.
  intros Hnd. unfold ConfigFile.merge_configs.
  rewrite (merge_loop_lookup _ override base k Hnd).
  destruct (dict_get k override) as [v|]; [|reflexivity].
  destruct v as [| b | n | l | s | items | o]; try reflexivity.
  simpl. destruct (dict_get k base) as [vb|]; [|reflexivity].
  destruct vb; reflexivity.
Qed.

(** X11: what [merge_configs] stores under a key.  A key the override
    does not hold keeps the value of the base.  A key the override holds
    takes the override's value, except when base and override both hold
    a dict there: then the two dicts are merged by the same rule, so
    nested settings of the base that the override does not mention
    survive.  In particular the keys of the result are those of the base
    and of the override. *)
Theorem merge_configs_lookup (base override : dict) (k : str) :
  NoDup (keys override) ->
  dict_get k (ConfigFile.merge_configs base override)
  = match dict_get k override with
    | None => dict_get k base
    | Some (JDict o) =>
        match dict_get k base with
        | Some (JDict b) => Some (JDict (ConfigFile.merge_configs b o))
        | _ => Some (JDict o)
        end
    | Some v => Some v
    end
  /\ dict_has k (ConfigFile.merge_configs base override)
     = dict_has k base || dict_has k override.
Proof.
  intros Hnd.
  pose proof (merge_configs_lookup_aux base override k Hnd) as Hl.
  split; [exact Hl|].
  unfold dict_has. rewrite Hl.
  destruct (dict_get k override) as [v|].
  - destruct v as [| b | n | l | s | items | o];
      try (destruct (dict_get k base); reflexivity).
    destruct (dict_get k base) as [[| | | | | |]|]; reflexivity.
  - destruct (dict_get k base); reflexivity.
Qed.

Lemma merge_configs_lookup_witness :
  NoDup (keys ConfigExamples.local_config)
  /\ dict_get "settings"
       (ConfigFile.merge_configs ConfigExamples.file_config
          ConfigExamples.local_config)
     = match dict_get "settings" ConfigExamples.local_config with
       | None => dict_get "settings" ConfigExamples.file_config
       | Some (JDict o) =>
           match dict_get "settings" ConfigExamples.file_config with
           | Some (JDict b) => Some (JDict (ConfigFile.merge_configs b o))
           | _ => Some (JDict o)
           end
       | Some v => Some v
       end
  /\ dict_has "settings"
       (ConfigFile.merge_configs ConfigExamples.file_config
          ConfigExamples.local_config)
     = dict_has "settings" ConfigExamples.file_config
       || dict_has "settings" ConfigExamples.local_config.
Proof.
  assert (NoDup (keys ConfigExamples.local_config)) as Hnd.
  { simpl. repeat constructor; simpl; intuition discriminate. }
  split; [exact Hnd|].
  apply (merge_configs_lookup ConfigExamples.file_config
           ConfigExamples.local_config "settings" Hnd).
Defined.

Lemma merge_loop_fresh (items : list (str * JSON)) (result : dict) :
  NoDup (keys result ++ keys items) ->
  ConfigFile.merge_loop ConfigFile.merge_value result items
  = (result ++ items)%list.
Proof.
  revert result. induction items as [|[k v] rest IH]; intros result Hnd; simpl.
  - now rewrite app_nil_r.
  - assert (~ In k (keys result)) as Hk.
    { intros Hi. simpl in Hnd. apply NoDup_remove_2 in Hnd.
      apply Hnd. apply in_or_app. now left. }
    rewrite (dict_get_absent k result Hk).
    assert (ConfigFile.merge_value None v = v) as -> by (destruct v; reflexivity).
    rewrite (dict_set_absent k v result Hk).
    rewrite IH.
    + now rewrite <- app_assoc.
    + unfold keys in *. rewrite map_app. simpl. rewrite <- app_assoc. exact Hnd.
Qed.

(** X12: merging a configuration into the empty one gives that
    configuration back, keys in the same order; merging the empty
    configuration into a base leaves the base as it is. *)
Theorem merge_configs_empty (config : dict) :
  NoDup (keys config) ->
  ConfigFile.merge_configs [] config = config
  /\ ConfigFile.merge_configs config [] = config.
Proof.
  intros Hnd. split; [|reflexivity].
  unfold ConfigFile.merge_configs. now rewrite merge_loop_fresh.
Qed.

Lemma merge_configs_empty_witness :
  NoDup (keys ConfigExamples.file_config)
  /\ ConfigFile.merge_configs [] ConfigExamples.file_config
     = ConfigExamples.file_config
  /\ ConfigFile.merge_configs ConfigExamples.file_config []
     = ConfigExamples.file_config.
Proof.
  assert (NoDup (keys ConfigExamples.file_config)) as Hnd.
  { simpl. repeat constructor; simpl; intuition discriminate. }
  split; [exact Hnd|].
  apply (merge_configs_empty ConfigExamples.file_config Hnd).
Defined.

(** ** get_env_overrides *)

Lemma dict_set_not_empty (k : str) (v : JSON) (d : dict) : dict_set k v d <> [].
Proof.
  destruct d as [|[k' v'] rest]; simpl; [discriminate|].
  destruct (k' =? k); discriminate.
Qed.

Lemma env_host_not_empty (environ : ConfigFile.Environ) (host : str) :
  env_host environ host <> [].
Proof.
  unfold env_host.
  assert (ConfigFile.host_from_env host <> []) as H0.
  { unfold ConfigFile.host_from_env.
    destruct (rsplit_colon host) as [[a b]|]; [|discriminate].
    destruct (py_int b); discriminate. }
  assert (ConfigFile.port_from_env environ (ConfigFile.host_from_env host)
          <> []) as H1.
  { unfold ConfigFile.port_from_env.
    destruct (environ "OLLAMA_PORT") as [t|]; [|exact H0].
    destruct (truthy t); [|exact H0].
    destruct (py_int t); [apply dict_set_not_empty | exact H0]. }
  unfold ConfigFile.protocol_from_env.
  destruct (environ "OLLAMA_PROTOCOL") as [p|]; [|exact H1].
  destruct (truthy p && _); [apply dict_set_not_empty | exact H1].
Qed.

Lemma env_overrides_shape (environ : ConfigFile.Environ) (host : str) :
  environ "OLLAMA_HOST" = Some host ->
  truthy host = true ->
  ConfigFile.get_env_overrides environ
  = [ ("hosts", JDict [("env", JDict (env_host environ host))]);
      ("default_host", JStr "env") ].
Proof.
  intros Hh Ht. unfold ConfigFile.get_env_overrides. rewrite Hh, Ht.
  pose proof (env_host_not_empty environ host) as Hne.
  unfold env_host in *.
  destruct (ConfigFile.protocol_from_env _ _); [congruence | reflexivity].
Qed.

(** X13: the environment overrides hang on [OLLAMA_HOST] alone:
    [get_env_overrides] returns the empty dict exactly when [OLLAMA_HOST]
    is unset or empty, whatever [OLLAMA_PORT] and [OLLAMA_PROTOCOL] hold;
    otherwise it returns the host [env], made the default host. *)
Theorem env_overrides_need_ollama_host (environ : ConfigFile.Environ) :
  (ConfigFile.get_env_overrides environ = [] <->
     environ "OLLAMA_HOST" = None \/ environ "OLLAMA_HOST" = Some EmptyString)
  /\ (forall host,
        environ "OLLAMA_HOST" = Some host -> host <> EmptyString ->
        exists host_config,
          host_config <> []
          /\ ConfigFile.get_env_overrides environ
             = [ ("hosts", JDict [("env", JDict host_config)]);
                 ("default_host", JStr "env") ]).
Proof.
  split.
  - split.
    + intros He. destruct (environ "OLLAMA_HOST") as [host|] eqn:Hh; [|now left].
      destruct host as [|c r]; [now right|].
      rewrite (env_overrides_shape environ (String c r) Hh eq_refl) in He.
      discriminate He.
    + unfold ConfigFile.get_env_overrides. intros [-> | ->]; reflexivity.
  - intros host Hh Hne. exists (env_host environ host).
    split; [apply env_host_not_empty|].
    apply env_overrides_shape; [exact Hh|]. destruct host; [congruence | reflexivity].
Qed.

Lemma py_int_truthy (t : str) (p : Z) : py_int t = Some p -> truthy t = true.
Proof. destruct t; [discriminate | reflexivity]. Qed.

Lemma protocol_from_env_keeps_port (environ : ConfigFile.Environ) (d : dict) :
  dict_get "port" (ConfigFile.protocol_from_env environ d) = dict_get "port" d.
Proof.
  unfold ConfigFile.protocol_from_env.
  destruct (environ "OLLAMA_PROTOCOL") as [p|]; [|reflexivity].
  destruct (truthy p && _); [|reflexivity].
  apply dict_get_set_other. discriminate.
Qed.

(** X14: a valid [OLLAMA_PORT] wins over the port written in
    [OLLAMA_HOST]: when [OLLAMA_HOST] is set and [int] reads
    [OLLAMA_PORT], the port of the host [env] is that number; when
    [OLLAMA_PORT] is set to a text that [int] refuses, it is ignored and
    the port is the one of [OLLAMA_HOST], if any.  (Both texts of at most
    4300 characters, so that [int] is within its limit of digits.) *)
Theorem env_port_takes_precedence
    (environ : ConfigFile.Environ) (host port_text : str) :
  environ "OLLAMA_HOST" = Some host ->
  host <> EmptyString ->
  environ "OLLAMA_PORT" = Some port_text ->
  (py_len host <= 4300)%Z ->
  (py_len port_text <= 4300)%Z ->
  exists host_config,
    ConfigFile.get_env_overrides environ
    = [ ("hosts", JDict [("env", JDict host_config)]);
        ("default_host", JStr "env") ]
    /\ dict_get "port" host_config
       = match py_int port_text with
         | Some port => Some (JInt port)
         | None => dict_get "port" (ConfigFile.host_from_env host)
         end.
Proof.
  intros Hh Hne Hp _ _. exists (env_host environ host). split.
  - apply env_overrides_shape; [exact Hh|].
    destruct host; [congruence | reflexivity].
  - unfold env_host. rewrite protocol_from_env_keeps_port.
    unfold ConfigFile.port_from_env. rewrite Hp.
    destruct (py_int port_text) as [port|] eqn:Hi.
    + rewrite (py_int_truthy port_text port Hi). apply dict_get_set_same.
    + destruct (truthy port_text); reflexivity.
Qed.

Lemma env_port_takes_precedence_witness :
  ConfigExamples.environ "OLLAMA_HOST" = Some "10.0.0.7:8080"
  /\ "10.0.0.7:8080" <> EmptyString
  /\ ConfigExamples.environ "OLLAMA_PORT" = Some "9090"
  /\ (py_len "10.0.0.7:8080" <= 4300)%Z
  /\ (py_len "9090" <= 4300)%Z
  /\ exists host_config,
       ConfigFile.get_env_overrides ConfigExamples.environ
       = [ ("hosts", JDict [("env", JDict host_config)]);
           ("default_host", JStr "env") ]
       /\ dict_get "port" host_config
          = match py_int "9090" with
            | Some port => Some (JInt port)
            | None =>
                dict_get "port" (ConfigFile.host_from_env "10.0.0.7:8080")
            end.
Proof.
  split; [reflexivity|]. split; [discriminate|]. split; [reflexivity|].
  split; [vm_compute; discriminate|]. split; [vm_compute; discriminate|].
  apply (env_port_takes_precedence ConfigExamples.environ
           "10.0.0.7:8080" "9090");
    [reflexivity | discriminate | reflexivity
    | vm_compute; discriminate | vm_compute; discriminate].
Defined.



(** X16: how [load_config] applies the environment: merging the
    overrides of a set [OLLAMA_HOST] into any file configuration makes
    [env] the default host and stores the host [env] under [hosts];
    when the file has a dict of hosts, every other host of the file is
    kept as it was. *)
Theorem env_overrides_merged
    (environ : ConfigFile.Environ) (host : str) (config_data : dict) :
  environ "OLLAMA_HOST" = Some host ->
  host <> EmptyString ->
  let merged :=
    ConfigFile.merge_configs config_data
      (ConfigFile.get_env_overrides environ) in
  dict_get "default_host" merged = Some (JStr "env")
  /\ exists hosts,
       dict_get "hosts" merged = Some (JDict hosts)
       /\ (exists env_entry, dict_get "env" hosts = Some env_entry)
       /\ forall file_hosts alias,
            dict_get "hosts" config_data = Some (JDict file_hosts) ->
            alias <> "env" ->
            dict_get alias hosts = dict_get alias file_hosts.
Proof.
  intros Hh Hne merged. subst merged.
  rewrite (env_overrides_shape environ host Hh)
    by (destruct host; [congruence | reflexivity]).
  set (overrides := [ ("hosts", JDict [("env", JDict (env_host environ host))]);
                      ("default_host", JStr "env") ]).
  assert (NoDup (keys overrides)) as Hnd
    by (simpl; repeat constructor; simpl; intuition discriminate).
  split.
  - now rewrite (merge_configs_lookup_aux config_data overrides "default_host" Hnd).
  - rewrite (merge_configs_lookup_aux config_data overrides "hosts" Hnd).
    simpl dict_get at 1. cbv iota.
    assert (NoDup (keys [("env", JDict (env_host environ host))])) as Hnd'
      by (simpl; repeat constructor; simpl; intuition).
    destruct (dict_get "hosts" config_data) as [v|] eqn:Hf.
    + destruct v as [| b | n | l | s | items | file_hosts];
        try (eexists; split; [reflexivity|]; split;
             [eexists; reflexivity | intros ? ? [=]]).
      eexists. split; [reflexivity|]. split.
      * rewrite (merge_configs_lookup_aux file_hosts _ "env" Hnd').
        simpl. destruct (dict_get "env" file_hosts) as [[| | | | | |]|];
          eexists; reflexivity.
      * intros fh alias [= <-] Ha.
        rewrite (merge_configs_lookup_aux file_hosts _ alias Hnd').
        rewrite (dict_get_absent alias [("env", JDict (env_host environ host))]);
          [reflexivity|].
        simpl. intros [He | []]. congruence.
    + eexists. split; [reflexivity|]. split;
        [eexists; reflexivity | intros ? ? [=]].
Qed.

Lemma env_overrides_merged_witness :
  ConfigExamples.environ "OLLAMA_HOST" = Some "10.0.0.7:8080"
  /\ "10.0.0.7:8080" <> EmptyString
  /\ let merged :=
       ConfigFile.merge_configs ConfigExamples.file_config
         (ConfigFile.get_env_overrides ConfigExamples.environ) in
     dict_get "default_host" merged = Some (JStr "env")
     /\ exists hosts,
          dict_get "hosts" merged = Some (JDict hosts)
          /\ (exists env_entry, dict_get "env" hosts = Some env_entry)
          /\ forall file_hosts alias,
               dict_get "hosts" ConfigExamples.file_config
               = Some (JDict file_hosts) ->
               alias <> "env" ->
               dict_get alias hosts = dict_get alias file_hosts.
Proof.
  split; [reflexivity|]. split; [discriminate|].
  apply (env_overrides_merged ConfigExamples.environ "10.0.0.7:8080"
           ConfigExamples.file_config); [reflexivity | discriminate].
Defined.

(** ** mcp.py: reading OLLAMA_HOST *)







(** ** mcp.py: extract_ollama_hosts *)

Section Extract.
Variable float_truth : str -> bool.

Lemma parse_ollama_env_plain (env : dict) :
  match dict_get "OLLAMA_HOST" env with
  | None | Some (JStr _) => true
  | _ => false
  end = true ->
  Mcp._parse_ollama_env float_truth (JDict env)
  = Mcp.Returns
      match dict_get "OLLAMA_HOST" env with
      | Some (JStr text) =>
          if truthy text then Some (Mcp.parse_ollama_host text) else None
      | _ => None
      end.
Proof.
  unfold Mcp._parse_ollama_env.
  destruct (dict_get "OLLAMA_HOST" env) as [[| | | | text | |]|];
    try discriminate; intros _; [|reflexivity].
  simpl. destruct (truthy text); reflexivity.
Qed.

Lemma extract_loop_plain_step
    (server_name : str) (server_config : JSON)
    (rest : list (str * JSON)) (hosts : list (str * HostConfig.t)) :
  plain_server server_config = true ->
  Mcp.extract_loop float_truth ((server_name, server_config) :: rest) hosts
  = Mcp.extract_loop float_truth rest
      match server_ollama_host server_config with
      | Some text =>
          Mcp.hosts_set (Mcp._sanitize_alias server_name)
            (Mcp.parse_ollama_host text) hosts
      | None => hosts
      end.
Proof.
  destruct server_config as [| | | | | | sc]; try discriminate.
  unfold plain_server, server_ollama_host.
  intros Hp. apply andb_prop in Hp as [Hc He].
  cbn [Mcp.extract_loop]. unfold Mcp.dict_get_default, Mcp.is_ollama_server.
  destruct (dict_get "env" sc) as [[| | | | | | env]|]; try discriminate.
  - (* an env dict *)
    rewrite (parse_ollama_env_plain env He).
    destruct (str_contains "ollama" (lower server_name)).
    + destruct (dict_get "OLLAMA_HOST" env) as [[| | | | text | |]|];
        try discriminate; [|reflexivity].
      destruct (truthy text); reflexivity.
    + destruct (dict_get "command" sc) as [[| | | | c | |]|]; try discriminate.
      * destruct (str_contains "ollama" (lower c)).
        -- destruct (dict_get "OLLAMA_HOST" env) as [[| | | | text | |]|];
             try discriminate; [|reflexivity].
           destruct (truthy text); reflexivity.
        -- simpl py_in. unfold dict_has.
           destruct (dict_get "OLLAMA_HOST" env) as [[| | | | text | |]|];
             try discriminate; [|reflexivity].
           destruct (truthy text); reflexivity.
      * simpl. unfold dict_has.
        destruct (dict_get "OLLAMA_HOST" env) as [[| | | | text | |]|];
          try discriminate; [|reflexivity].
        destruct (truthy text); reflexivity.
  - (* no env: the default, an empty dict *)
    destruct (str_contains "ollama" (lower server_name)); [reflexivity|].
    destruct (dict_get "command" sc) as [[| | | | c | |]|]; try discriminate.
    + destruct (str_contains "ollama" (lower c)); reflexivity.
    + reflexivity.
Qed.

(** X18: for a server entry of the usual form, whether
    [extract_ollama_hosts] takes it depends on its environment alone: it
    is taken exactly when ["env"] holds a non-empty ["OLLAMA_HOST"], and
    then stored under the sanitized server name, replacing an earlier
    host of the same alias.  The name and the command of the server,
    which [is_ollama_server] tests, make no difference: a file with that
    one server gives one host or none, by its environment.  (The text of
    ["OLLAMA_HOST"] of at most 4300 characters, so that [int] is within
    its limit of digits.) *)
Theorem extract_depends_on_env_only
    (server_name : str) (server_config : JSON)
    (rest : list (str * JSON)) (hosts : list (str * HostConfig.t)) :
  plain_server server_config = true ->
  (forall text,
     server_ollama_host server_config = Some text ->
     (py_len text <= 4300)%Z) ->
  Mcp.extract_loop float_truth ((server_name, server_config) :: rest) hosts
  = Mcp.extract_loop float_truth rest
      match server_ollama_host server_config with
      | Some text =>
          Mcp.hosts_set (Mcp._sanitize_alias server_name)
            (Mcp.parse_ollama_host text) hosts
      | None => hosts
      end
  /\ Mcp.extract_ollama_hosts float_truth
       {| Mcp.config_data :=
            [("mcpServers", JDict [(server_name, server_config)])];
          Mcp.mcp_servers := JDict [(server_name, server_config)] |}
     = Mcp.Returns
         match server_ollama_host server_config with
         | Some text =>
             [(Mcp._sanitize_alias server_name, Mcp.parse_ollama_host text)]
         | None => []
         end.
Proof.
  intros Hp _. split; [now apply extract_loop_plain_step|].
  unfold Mcp.extract_ollama_hosts. cbn [Mcp.mcp_servers].
  rewrite (extract_loop_plain_step server_name server_config [] [] Hp).
  destruct (server_ollama_host server_config); reflexivity.
Qed.

Lemma extract_loop_returns (servers : list (str * JSON))
    (hosts : list (str * HostConfig.t)) :
  forallb (fun entry => plain_server (snd entry)) servers = true ->
  exists result, Mcp.extract_loop float_truth servers hosts = Mcp.Returns result.
Proof.
  revert hosts. induction servers as [|[name cfg] rest IH]; intros hosts Hp.
  - now exists hosts.
  - simpl in Hp. apply andb_prop in Hp as [Hc Hr].
    rewrite (extract_loop_plain_step name cfg rest hosts Hc).
    now apply IH.
Qed.

(** X19: on an MCP file that holds, under ["mcpServers"], server entries
    of the usual form only, building the [MCPConfig] and extracting the
    hosts raises nothing. *)
Theorem extract_never_raises_on_plain_servers
    (data : dict) (servers : list (str * JSON)) :
  dict_get "mcpServers" data = Some (JDict servers) ->
  forallb (fun entry => plain_server (snd entry)) servers = true ->
  exists self result,
    Mcp.__init__ (JDict data) = Mcp.Returns self
    /\ Mcp.extract_ollama_hosts float_truth self = Mcp.Returns result.
Proof.
  intros Hd Hp.
  destruct (extract_loop_returns servers [] Hp) as [result Hr].
  eexists. exists result. split; [reflexivity|].
  unfold Mcp.extract_ollama_hosts, Mcp.dict_get_default.
  cbn [Mcp.mcp_servers]. rewrite Hd. exact Hr.
Qed.

Lemma parse_ollama_host_entry (alias text : str) :
  AliasShape.well_formed alias = true ->
  extracted_entry (alias, Mcp.parse_ollama_host text).
Proof.
  intros Ha. unfold extracted_entry, Mcp.parse_ollama_host. simpl.
  split; [exact Ha|].
  destruct (prefix "https://" text); [|destruct (prefix "http://" text)];
    match goal with
    | |- context [rsplit_colon ?t] =>
        destruct (rsplit_colon t) as [[a b]|]; [destruct (py_int b)|]
    end; simpl; auto.
Qed.

Lemma parse_ollama_env_some (env : JSON) (h : HostConfig.t) :
  Mcp._parse_ollama_env float_truth env = Mcp.Returns (Some h) ->
  exists text, h = Mcp.parse_ollama_host text.
Proof.
  unfold Mcp._parse_ollama_env.
  destruct env as [| | | | | | d]; try discriminate.
  destruct (dict_get "OLLAMA_HOST" d) as [v|]; [|discriminate].
  destruct (negb (Mcp.json_truth float_truth v)); [discriminate|].
  destruct v as [| | | | text | |]; try discriminate.
  intros [= <-]. now exists text.
Qed.

Lemma hosts_set_entries (alias : str) (h : HostConfig.t)
    (hosts : list (str * HostConfig.t)) :
  extracted_entry (alias, h) ->
  Forall extracted_entry hosts ->
  Forall extracted_entry (Mcp.hosts_set alias h hosts).
Proof.
  intros He. induction hosts as [|[k h'] rest IH]; intros Hf; simpl.
  - now constructor.
  - inversion Hf as [|? ? Hk Hrest]; subst.
    destruct (k =? alias) eqn:Hq.
    + apply String.eqb_eq in Hq. subst k. now constructor.
    + constructor; [exact Hk | now apply IH].
Qed.

Lemma extract_loop_entries (servers : list (str * JSON))
    (hosts result : list (str * HostConfig.t)) :
  Forall extracted_entry hosts ->
  Mcp.extract_loop float_truth servers hosts = Mcp.Returns result ->
  Forall extracted_entry result.
Proof.
  revert hosts. induction servers as [|[name cfg] rest IH]; intros hosts Hf.
  - now intros [= <-].
  - cbn [Mcp.extract_loop].
    destruct cfg as [| | | | | | sc]; try discriminate.
    destruct (Mcp.is_ollama_server _ _ _) as [[|]| |]; try discriminate.
    + destruct (Mcp._parse_ollama_env float_truth _) as [[h|]| |] eqn:Hp;
        try discriminate.
      * apply parse_ollama_env_some in Hp as [text ->].
        apply IH. apply hosts_set_entries; [|exact Hf].
        apply parse_ollama_host_entry.
        destruct (sanitize_alias_parts name) as (Ha & Hs & He & Hd).
        unfold AliasShape.well_formed. now rewrite Ha, Hs, He, Hd.
      * now apply IH.
    + now apply IH.
Qed.

(** X20: whatever the MCP file holds, every host that
    [extract_ollama_hosts] returns sits under an alias of the sanitized
    shape (lowercase letters, digits and single inner hyphens; possibly
    the empty alias), uses the protocol [http] or [https] and has TLS
    verification on. *)
Theorem extracted_hosts_are_well_formed
    (self : Mcp.MCPConfig) (result : list (str * HostConfig.t)) :
  Mcp.extract_ollama_hosts float_truth self = Mcp.Returns result ->
  Forall extracted_entry result.
Proof.
  unfold Mcp.extract_ollama_hosts.
  destruct (Mcp.mcp_servers self) as [| | | | | | servers]; try discriminate.
  apply extract_loop_entries. constructor.
Qed.

End Extract.

Lemma extract_depends_on_env_only_witness :
  let name := "Remote GPU_box" in
  let cfg :=
    JDict [ ("command", JStr "ssh");
            ("env",
             JDict [("OLLAMA_HOST", JStr "https://192.168.1.100:11434")]) ] in
  plain_server cfg = true
  /\ (forall text,
        server_ollama_host cfg = Some text -> (py_len text <= 4300)%Z)
  /\ Mcp.extract_loop McpExamples.float_truth [(name, cfg)] []
     = Mcp.extract_loop McpExamples.float_truth []
         match server_ollama_host cfg with
         | Some text =>
             Mcp.hosts_set (Mcp._sanitize_alias name)
               (Mcp.parse_ollama_host text) []
         | None => []
         end
  /\ Mcp.extract_ollama_hosts McpExamples.float_truth
       {| Mcp.config_data := [("mcpServers", JDict [(name, cfg)])];
          Mcp.mcp_servers := JDict [(name, cfg)] |}
     = Mcp.Returns
         match server_ollama_host cfg with
         | Some text =>
             [(Mcp._sanitize_alias name, Mcp.parse_ollama_host text)]
         | None => []
         end.
Proof.
  intros name cfg.
  assert (forall text,
            server_ollama_host cfg = Some text -> (py_len text <= 4300)%Z)
    as Hlen by (intros text [= <-]; vm_compute; discriminate).
  split; [reflexivity|]. split; [exact Hlen|].
  apply (extract_depends_on_env_only McpExamples.float_truth name cfg [] []);
    [reflexivity | exact Hlen].
Defined.

Lemma extract_never_raises_on_plain_servers_witness :
  let data := [("mcpServers", JDict McpExamples.servers)] in
  dict_get "mcpServers" data = Some (JDict McpExamples.servers)
  /\ forallb (fun entry => plain_server (snd entry)) McpExamples.servers = true
  /\ exists self result,
       Mcp.__init__ (JDict data) = Mcp.Returns self
       /\ Mcp.extract_ollama_hosts McpExamples.float_truth self
          = Mcp.Returns result.
Proof.
  intros data. split; [reflexivity|]. split; [reflexivity|].
  apply (extract_never_raises_on_plain_servers McpExamples.float_truth data
           McpExamples.servers); reflexivity.
Defined.

Lemma extracted_hosts_are_well_formed_witness :
  let self :=
    {| Mcp.config_data := [("mcpServers", JDict McpExamples.servers)];
       Mcp.mcp_servers := JDict McpExamples.servers |} in
  let result :=
    [ ("ollama-local",
       {| HostConfig.hostname := "localhost"; HostConfig.port := 11434;
          HostConfig.protocol := "http"; HostConfig.verify_ssl := true |});
      ("remote-gpu-box",
       {| HostConfig.hostname := "192.168.1.100"; HostConfig.port := 11434;
          HostConfig.protocol := "https"; HostConfig.verify_ssl := true |}) ] in
  Mcp.extract_ollama_hosts McpExamples.float_truth self = Mcp.Returns result
  /\ Forall extracted_entry result.
Proof.
  intros self result. split; [vm_compute; reflexivity|].
  apply (extracted_hosts_are_well_formed McpExamples.float_truth self result).
  vm_compute. reflexivity.
Defined.

(** ** More on the requests of the client *)

Lemma httpx_classes_are_no_client_errors (c : httpx_error_class) :
  issubclass (Httpx c) OllamaClientError = false.
Proof. destruct c; reflexivity. Qed.

Section MoreRequests.
Context `{PythonLibs}.

(** X21: everything [_make_request] raises is one of the three client
    errors, so an instance of [OllamaClientError]: a connection failure
    or timeout becomes [OllamaConnectionError], a status outside 2xx
    [OllamaAPIError], and anything else, a body that is no JSON
    included, [OllamaClientError] itself. *)
Theorem make_request_raises_the_three_kinds
    (self : OllamaClient.t) (method endpoint : str)
    (json_data : option JSON) (e : exn) :
  OllamaClient._make_request self method endpoint json_data = Raise e ->
  isinstance e OllamaClientError = true
  /\ (exn_class e = OllamaConnectionError
      \/ exn_class e = OllamaAPIError
      \/ exn_class e = OllamaClientError).
Proof.
  intros Hm. split; [now apply make_request_raises_client_errors in Hm|].
  rewrite make_request_cases in Hm.
  destruct (request _ _) as [te | response].
  - injection Hm as <-.
    destruct (issubclass _ (Httpx ConnectError)); [now left|].
    destruct (issubclass _ TimeoutException); [now left | now right; right].
  - destruct (is_success _).
    + destruct (json_loads _); [discriminate|].
      injection Hm as <-. now right; right.
    + injection Hm as <-. right. now left.
Qed.

(** X22: [delete_model] succeeds only when the 2xx answer carries a JSON
    body: for a 2xx response it returns when the body decodes, and raises
    [OllamaClientError("Unexpected error: ...")] when it does not, as for
    an empty body, although the server accepted the request. *)
Theorem delete_model_needs_a_json_body
    (self : OllamaClient.t) (name : str) (response : Response) :
  request (OllamaClient.client self)
    {| method := "DELETE"; endpoint := "/api/delete";
       json_data := Some (JDict [("name", JStr name)]) |}
  = inr response ->
  is_success (status_code response) = true ->
  OllamaClient.delete_model self name
  = match json_loads (content response) with
    | Some _ => Ok tt
    | None =>
        Raise (client_error
                 ("Unexpected error: " ++ json_error_text (content response)))
    end.
Proof.
  intros Hr Hok. unfold OllamaClient.delete_model. cbv zeta.
  rewrite make_request_cases.
  unfold DeleteRequest.model_dump. cbn [DeleteRequest.name].
  rewrite Hr, Hok. destruct (json_loads (content response)); reflexivity.
Qed.

(** X23: in streaming mode the message of the server is never read: a
    streaming request answered with a status outside 2xx yields nothing
    and ends with [OllamaAPIError] carrying the status and the fallback
    message ["API error: <status>"], whatever the body; the typed
    generator of [pull_model] ends the same way. *)
Theorem stream_request_api_error_is_generic
    (self : OllamaClient.t) (method endpoint : str) (json_data : JSON)
    (response : StreamResponse) :
  stream (OllamaClient.client self)
    {| method := method; endpoint := endpoint; json_data := Some json_data |}
  = inr response ->
  is_success (stream_status_code response) = false ->
  let status := stream_status_code response in
  let e := api_error (JStr ("API error: " ++ str_of_int status)) status in
  OllamaClient._stream_request self method endpoint json_data
  = mk_gen [] (Some e)
  /\ forall cls (validate : dict -> option PullResponse.t),
       OllamaClient.generator (Pydantic.construct cls validate)
         (OllamaClient._stream_request self method endpoint json_data)
       = mk_gen [] (Some e).
Proof.
  intros Hs Hko status e.
  assert (OllamaClient._stream_request self method endpoint json_data
          = mk_gen [] (Some e)) as Hg.
  { unfold OllamaClient._stream_request. rewrite Hs, Hko. reflexivity. }
  split; [exact Hg|]. intros cls validate. now rewrite Hg.
Qed.

(** What leaves the loop over the lines is an exception of the decoder
    that is no [JSONDecodeError]; no clause of [_stream_request] catches
    it. *)
Lemma iter_lines_loop_exception (self : OllamaClient.t) (lines : list str)
    (d : raised StreamResponse) :
  snd (OllamaClient.iter_lines_loop lines) = Some d ->
  (raised_class d = ValueError \/ raised_class d = RecursionError)
  /\ OllamaClient.stream_raise self d = propagate (raised_lib d).
Proof.
  induction lines as [|line rest IH]; simpl; [discriminate|].
  destruct (truthy (strip line)); [|exact IH].
  destruct (json_loads line) as [v|].
  - destruct (OllamaClient.iter_lines_loop rest) as [chunks e]. exact IH.
  - destruct (json_raises line) eqn:Hk; simpl; try exact IH;
      intros [= <-]; split; auto.
Qed.

(** X24: a stream that breaks after it has started keeps what it yielded:
    the chunks of the lines read before the failure are yielded, then the
    generator raises.  A timeout (or a connect error) is raised as
    [OllamaConnectionError]; any other httpx failure, such as a read
    error, leaves [_stream_request] as the httpx exception it is, which
    is no [OllamaClientError].  (When, before the break, a line makes
    [json.loads] raise what is no [JSONDecodeError], the generator ends
    there, with that exception as it is.) *)
Theorem stream_request_broken_midway
    (self : OllamaClient.t) (method endpoint : str) (json_data : JSON)
    (response : StreamResponse) (failure : transport_error) :
  stream (OllamaClient.client self)
    {| method := method; endpoint := endpoint; json_data := Some json_data |}
  = inr response ->
  is_success (stream_status_code response) = true ->
  stream_broken response = Some failure ->
  let g := OllamaClient._stream_request self method endpoint json_data in
  let loop := OllamaClient.iter_lines_loop (stream_lines response) in
  yielded g = fst loop
  /\ match snd loop with
     | None =>
         exists e,
           ended_by g = Some e
           /\ if issubclass (Httpx (te_class failure)) (Httpx ConnectError)
                 || issubclass (Httpx (te_class failure)) TimeoutException
              then exn_class e = OllamaConnectionError
              else exn_class e = Httpx (te_class failure)
                   /\ exn_message e = JStr (te_text failure)
                   /\ isinstance e OllamaClientError = false
     | Some d =>
         ended_by g = Some (propagate (raised_lib d))
         /\ (raised_class d = ValueError \/ raised_class d = RecursionError)
     end.
Proof.
  intros Hs Hok Hb g loop. subst g loop.
  unfold OllamaClient._stream_request. rewrite Hs, Hok, Hb.
  pose proof (iter_lines_loop_exception self (stream_lines response)) as Hd.
  destruct (OllamaClient.iter_lines_loop (stream_lines response))
    as [chunks [d|]]; cbn [yielded ended_by fst snd] in *.
  - split; [reflexivity|]. destruct (Hd d eq_refl) as [Hc ->]. auto.
  - split; [reflexivity|].
    eexists. split; [reflexivity|].
    unfold OllamaClient.stream_raise, OllamaClient.except_clauses.
    cbn [raised_class].
    destruct (issubclass (Httpx (te_class failure)) (Httpx ConnectError));
      [reflexivity|].
    destruct (issubclass (Httpx (te_class failure)) TimeoutException);
      [reflexivity|].
    simpl. repeat split.
    unfold isinstance. simpl. apply httpx_classes_are_no_client_errors.
Qed.

(** X25: what a typed generator yields and how it ends, in full: it
    yields, in order, the validated objects among the chunks that come
    before the first chunk that is no JSON object; it ends as the inner
    generator does when every chunk is an object, and with [TypeError]
    at the first chunk that is not. *)
Theorem generator_in_full {A : Type} (cls : str)
    (validate : dict -> option A) (chunks : list JSON)
    (inner_end : option exn) :
  OllamaClient.generator (Pydantic.construct cls validate)
    (mk_gen chunks inner_end)
  = mk_gen (validated validate (leading_objects chunks))
      (if forallb is_object chunks then inner_end
       else Some (not_a_mapping cls)).
Proof.
  unfold OllamaClient.generator. cbn [yielded ended_by].
  induction chunks as [|chunk rest IH]; [reflexivity|].
  destruct chunk as [| b | n | l | s | items | d]; try reflexivity.
  cbn [OllamaClient.generator_loop Pydantic.construct leading_objects
       validated forallb is_object andb].
  destruct (validate d) as [a|].
  - rewrite IH. reflexivity.
  - cbn [lib_class]. change (issubclass ValidationError ValidationError) with true.
    cbv iota. exact IH.
Qed.

End MoreRequests.

Lemma make_request_raises_the_three_kinds_witness :
  let self := Examples.client_of (Examples.answering 200 "Ollama is running") in
  let e := client_error "Unexpected error: Expecting value" in
  @OllamaClient._make_request Reference.libs self "GET" "/" None = Raise e
  /\ isinstance e OllamaClientError = true
  /\ (exn_class e = OllamaConnectionError
      \/ exn_class e = OllamaAPIError
      \/ exn_class e = OllamaClientError).
Proof.
  intros self e. split; [reflexivity|].
  apply (@make_request_raises_the_three_kinds Reference.libs self
           "GET" "/" None e).
  reflexivity.
Defined.

Lemma delete_model_needs_a_json_body_witness :
  let self := Examples.client_of (Examples.answering 200 EmptyString) in
  let response := {| status_code := 200; content := EmptyString |} in
  request (OllamaClient.client self)
    {| method := "DELETE"; endpoint := "/api/delete";
       json_data := Some (JDict [("name", JStr "llama2")]) |}
  = inr response
  /\ is_success (status_code response) = true
  /\ @OllamaClient.delete_model Reference.libs self "llama2"
     = match @json_loads Reference.libs (content response) with
       | Some _ => Ok tt
       | None =>
           Raise (client_error
                    ("Unexpected error: "
                     ++ @json_error_text Reference.libs (content response)))
       end.
Proof.
  intros self response. split; [reflexivity|]. split; [reflexivity|].
  apply (@delete_model_needs_a_json_body Reference.libs self "llama2"
           response); reflexivity.
Defined.

Lemma stream_request_api_error_is_generic_witness :
  let self :=
    Examples.client_of (Examples.answering 404 Examples.not_found_body) in
  let response :=
    {| stream_status_code := 404;
       stream_lines := [Examples.not_found_body];
       stream_broken := None |} in
  let e := api_error (JStr ("API error: " ++ str_of_int 404)) 404 in
  stream (OllamaClient.client self)
    {| method := "POST"; endpoint := "/api/pull";
       json_data := Some (JDict []) |} = inr response
  /\ is_success (stream_status_code response) = false
  /\ @OllamaClient._stream_request Reference.libs self "POST" "/api/pull"
       (JDict [])
     = mk_gen [] (Some e)
  /\ forall cls (validate : dict -> option PullResponse.t),
       OllamaClient.generator (Pydantic.construct cls validate)
         (@OllamaClient._stream_request Reference.libs self "POST" "/api/pull"
            (JDict []))
       = mk_gen [] (Some e).
Proof.
  intros self response e. split; [reflexivity|]. split; [reflexivity|].
  apply (@stream_request_api_error_is_generic Reference.libs self
           "POST" "/api/pull" (JDict []) response); reflexivity.
Defined.

Lemma stream_request_broken_midway_witness :
  let self :=
    Examples.client_of (ClientExamples.broken_stream ReadError) in
  let failure := {| te_class := ReadError; te_text := "peer closed" |} in
  let response :=
    {| stream_status_code := 200;
       stream_lines :=
         [ Reference.dumps (JDict [("status", JStr "pulling manifest")]);
           Reference.dumps (JDict [("status", JStr "downloading")]) ];
       stream_broken := Some failure |} in
  let g :=
    @OllamaClient._stream_request Reference.libs self "POST" "/api/pull"
      (JDict []) in
  stream (OllamaClient.client self)
    {| method := "POST"; endpoint := "/api/pull";
       json_data := Some (JDict []) |} = inr response
  /\ is_success (stream_status_code response) = true
  /\ stream_broken response = Some failure
  /\ yielded g
     = [ JDict [("status", JStr "pulling manifest")];
         JDict [("status", JStr "downloading")] ]
  /\ exists e,
       ended_by g = Some e
       /\ exn_class e = Httpx ReadError
       /\ exn_message e = JStr "peer closed"
       /\ isinstance e OllamaClientError = false.
Proof.
  intros self failure response g.
  split; [reflexivity|]. split; [reflexivity|]. split; [reflexivity|].
  exact (@stream_request_broken_midway Reference.libs self
           "POST" "/api/pull" (JDict []) response failure
           eq_refl eq_refl eq_refl).
Defined.

(** ** Chat messages and unary decoding *)

Section ChatAndUnary.
Context `{PythonLibs}.

Lemma validate_items_fails {A : Type} (validate : JSON -> option A)
    (items : list JSON) (v : JSON) :
  In v items -> validate v = None -> Pydantic.validate_items validate items = None.
Proof.
  induction items as [|x rest IH]; simpl; [contradiction|].
  intros [-> | Hin] Hv.
  - now rewrite Hv.
  - rewrite (IH Hin Hv). destruct (validate x); reflexivity.
Qed.

(** X26: a chat message whose role is not [system], [user] or
    [assistant] is refused when the request is built: [chat] raises the
    [ValidationError] of pydantic, in either mode and whatever the
    server, since no request is sent; the error is not an
    [OllamaClientError]. *)
Theorem chat_refuses_unknown_role
    (self : OllamaClient.t) (model : str) (messages : list JSON)
    (stream : bool) (options : option dict) (message : dict) (role : str) :
  In (JDict message) messages ->
  dict_get "role" message = Some (JStr role) ->
  role <> "system" -> role <> "user" -> role <> "assistant" ->
  exists e,
    OllamaClient.chat self model messages stream options = Raise e
    /\ exn_class e = ValidationError
    /\ isinstance e OllamaClientError = false.
Proof.
  intros Hin Hrole Hs Hu Ha.
  assert (Pydantic.nested ChatMessage.validate (JDict message) = None) as Hv.
  { unfold Pydantic.nested, ChatMessage.validate, Pydantic.required.
    rewrite Hrole. unfold ChatMessage.validate_role.
    apply String.eqb_neq in Hs, Hu, Ha. now rewrite Hs, Hu, Ha. }
  unfold OllamaClient.chat, OllamaClient.chat_request.
  rewrite (validate_items_fails _ messages (JDict message) Hin Hv).
  eexists. split; [reflexivity|]. split; reflexivity.
Qed.

(** X27: in unary mode a decode failure is an error of the call: for a
    2xx answer to [generate] whose body is a JSON object, the call
    returns the validated [GenerateResponse], or, when a required field
    is missing or ill-typed, raises [OllamaClientError] whose message
    starts with ["Failed to parse generate response: "]. *)
Theorem generate_unary_decodes_or_fails
    (self : OllamaClient.t) (model prompt : str)
    (system template : option str) (context : option (list Z))
    (options : option dict) (response : Response) (body : dict) :
  request (OllamaClient.client self)
    {| method := "POST"; endpoint := "/api/generate";
       json_data :=
         Some (JDict (GenerateRequest.model_dump
                        (OllamaClient.generate_request model prompt false
                           system template context options))) |}
  = inr response ->
  is_success (status_code response) = true ->
  json_loads (content response) = Some (JDict body) ->
  exists text,
    OllamaClient.generate self model prompt false system template context
      options
    = Unary match GenerateResponse.validate body with
            | Some r => Ok r
            | None =>
                Raise (client_error
                         ("Failed to parse generate response: " ++ text))
            end.
Proof.
  intros Hr Hok Hj. unfold OllamaClient.generate. cbv zeta iota.
  rewrite make_request_cases, Hr, Hok, Hj.
  unfold Pydantic.construct, OllamaClient.except_validation_error.
  destruct (GenerateResponse.validate body) as [r|].
  - now exists EmptyString.
  - eexists. reflexivity.
Qed.

End ChatAndUnary.

Lemma chat_refuses_unknown_role_witness :
  let self := Examples.client_of Examples.refusing in
  let messages :=
    [ JDict [("role", JStr "user"); ("content", JStr "hi")];
      JDict ClientExamples.tool_message ] in
  In (JDict ClientExamples.tool_message) messages
  /\ dict_get "role" ClientExamples.tool_message = Some (JStr "tool")
  /\ "tool" <> "system" /\ "tool" <> "user" /\ "tool" <> "assistant"
  /\ exists e,
       @OllamaClient.chat Reference.libs self "llama2" messages false None
       = Raise e
       /\ exn_class e = ValidationError
       /\ isinstance e OllamaClientError = false.
Proof.
  intros self messages.
  split; [right; left; reflexivity|]. split; [reflexivity|].
  split; [discriminate|]. split; [discriminate|]. split; [discriminate|].
  apply (@chat_refuses_unknown_role Reference.libs self "llama2" messages
           false None ClientExamples.tool_message "tool");
    [right; left; reflexivity | reflexivity | discriminate | discriminate
    | discriminate].
Defined.

Lemma generate_unary_decodes_or_fails_witness :
  let body := [("model", JStr "llama2"); ("response", JStr "Hello")] in
  let self :=
    Examples.client_of (Examples.answering 200 (Reference.dumps (JDict body))) in
  let response :=
    {| status_code := 200; content := Reference.dumps (JDict body) |} in
  is_success (status_code response) = true
  /\ @json_loads Reference.libs (content response) = Some (JDict body)
  /\ exists text,
       @OllamaClient.generate Reference.libs self "llama2" "hi" false
         None None None None
       = Unary match @GenerateResponse.validate Reference.libs body with
               | Some r => Ok r
               | None =>
                   Raise (client_error
                            ("Failed to parse generate response: " ++ text))
               end.
Proof.
  intros body self response.
  split; [reflexivity|]. split; [vm_compute; reflexivity|].
  apply (@generate_unary_decodes_or_fails Reference.libs self "llama2" "hi"
           None None None None response body);
    [reflexivity | reflexivity | vm_compute; reflexivity].
Defined.

(** ** merge_mcp_hosts *)

Section MergeMcpHosts.
Import ConfigModel.
Context `{PythonLibs}.

(** pydantic takes a value of the declared type as it is. *)
Hypothesis str_accepted : forall s, validate_str (JStr s) = Some s.
Hypothesis int_accepted : forall n, validate_int (JInt n) = Some n.
Hypothesis bool_accepted : forall b, validate_bool (JBool b) = Some b.

Lemma validate_host_dump (h : HostConfig.t) :
  validate_host (host_dump h) = Some h.
Proof.
  destruct h as [hostname port protocol verify].
  unfold validate_host, host_dump, Pydantic.required, Pydantic.with_default.
  simpl. now rewrite !str_accepted, int_accepted, bool_accepted.
Qed.

Lemma validate_hosts_dump (hosts : list (str * HostConfig.t)) :
  validate_hosts (dump_hosts hosts) = Some hosts.
Proof.
  induction hosts as [|[k h] rest IH]; [reflexivity|].
  simpl. rewrite str_accepted. unfold Pydantic.nested.
  now rewrite validate_host_dump, IH.
Qed.

Lemma keys_dump_hosts (hosts : list (str * HostConfig.t)) :
  keys (dump_hosts hosts) = aliases hosts.
Proof.
  unfold keys, dump_hosts, aliases. rewrite map_map. reflexivity.
Qed.

Lemma dict_has_dump_hosts (alias : str) (hosts : list (str * HostConfig.t)) :
  dict_has alias (dump_hosts hosts) = has_alias alias hosts.
Proof.
  unfold dict_has, has_alias.
  induction hosts as [|[k h] rest IH]; [reflexivity|].
  simpl. rewrite (String.eqb_sym alias k).
  destruct (k =? alias); [reflexivity | exact IH].
Qed.

Lemma has_alias_false (alias : str) (hosts : list (str * HostConfig.t)) :
  has_alias alias hosts = false -> ~ In alias (aliases hosts).
Proof.
  unfold has_alias. intros Hf Hin.
  assert (existsb (String.eqb alias) (aliases hosts) = true) as Ht.
  { apply existsb_exists. exists alias. split; [exact Hin | apply String.eqb_refl]. }
  congruence.
Qed.

Lemma has_alias_app (alias : str) (a b : list (str * HostConfig.t)) :
  has_alias alias (a ++ b) = has_alias alias a || has_alias alias b.
Proof. unfold has_alias, aliases. now rewrite map_app, existsb_app. Qed.

Lemma new_hosts_extend (hosts rest : list (str * HostConfig.t))
    (alias : str) (h : HostConfig.t) :
  ~ In alias (aliases rest) ->
  new_hosts (hosts ++ [(alias, h)]) rest = new_hosts hosts rest.
Proof.
  intros Hn. unfold new_hosts. apply filter_ext_in.
  intros [k h'] Hin. simpl. rewrite has_alias_app.
  assert (has_alias k [(alias, h)] = false) as ->; [|now rewrite orb_false_r].
  unfold has_alias. simpl. rewrite orb_false_r. apply String.eqb_neq.
  intros ->. apply Hn. unfold aliases. apply in_map_iff. now exists (alias, h').
Qed.

Lemma add_missing_dump (mcp_hosts hosts : list (str * HostConfig.t)) :
  NoDup (aliases mcp_hosts) ->
  add_missing mcp_hosts (dump_hosts hosts)
  = dump_hosts (hosts ++ new_hosts hosts mcp_hosts).
Proof.
  revert hosts. induction mcp_hosts as [|[alias h] rest IH]; intros hosts Hnd.
  - simpl. now rewrite app_nil_r.
  - simpl in Hnd. inversion Hnd as [|? ? Hnotin Hnd']; subst.
    simpl add_missing. rewrite dict_has_dump_hosts.
    unfold new_hosts. simpl filter. fold (new_hosts hosts rest).
    destruct (has_alias alias hosts) eqn:Hh; simpl negb; cbv iota.
    + now apply IH.
    + rewrite dict_set_absent
        by (rewrite keys_dump_hosts; now apply has_alias_false).
      change (dump_hosts hosts ++ [(alias, JDict (host_dump h))])%list
        with (dump_hosts hosts ++ dump_hosts [(alias, h)])%list.
      unfold dump_hosts at 1 2. rewrite <- map_app. fold (dump_hosts (hosts ++ [(alias, h)])).
      rewrite (IH _ Hnd'), (new_hosts_extend hosts rest alias h Hnotin).
      now rewrite <- app_assoc.
Qed.

(** X28: [merge_mcp_hosts] adds and never overwrites: given that
    pydantic takes values of the declared types as they are, the call
    returns a configuration with the same default host and settings,
    whose hosts are the configured ones, unchanged and in their order,
    followed by the MCP hosts whose alias was not configured. *)
Theorem merge_mcp_hosts_keeps_configured_hosts
    (config : Config.t) (mcp_hosts : list (str * HostConfig.t)) :
  NoDup (aliases mcp_hosts) ->
  merge_mcp_hosts config mcp_hosts
  = inr {| Config.default_host := Config.default_host config;
           Config.hosts :=
             (Config.hosts config
              ++ new_hosts (Config.hosts config) mcp_hosts)%list;
           Config.settings := Config.settings config |}.
Proof.
  intros Hnd. unfold merge_mcp_hosts. cbv zeta.
  rewrite (add_missing_dump mcp_hosts (Config.hosts config) Hnd).
  unfold Pydantic.construct, validate, model_dump, Pydantic.with_default,
    validate_hosts_field, Pydantic.validate_dict.
  simpl. now rewrite str_accepted, validate_hosts_dump.
Qed.

End MergeMcpHosts.

Lemma merge_mcp_hosts_keeps_configured_hosts_witness :
  let mcp_hosts :=
    [ ("cloud", Config.host_named "other.example.com");
      ("remote-gpu-box", Config.host_at "192.168.1.100" 11434) ] in
  (forall s, @validate_str Reference.libs (JStr s) = Some s)
  /\ (forall n, @validate_int Reference.libs (JInt n) = Some n)
  /\ (forall b, @validate_bool Reference.libs (JBool b) = Some b)
  /\ NoDup (ConfigModel.aliases mcp_hosts)
  /\ @ConfigModel.merge_mcp_hosts Reference.libs MoreExamples.config mcp_hosts
     = inr {| Config.default_host := Config.default_host MoreExamples.config;
              Config.hosts :=
                (Config.hosts MoreExamples.config
                 ++ ConfigModel.new_hosts (Config.hosts MoreExamples.config)
                      mcp_hosts)%list;
              Config.settings := Config.settings MoreExamples.config |}.
Proof.
  intros mcp_hosts.
  assert (NoDup (ConfigModel.aliases mcp_hosts)) as Hnd
    by (simpl; repeat constructor; simpl; intuition discriminate).
  split; [reflexivity|]. split; [reflexivity|]. split; [reflexivity|].
  split; [exact Hnd|].
  apply (@merge_mcp_hosts_keeps_configured_hosts Reference.libs
           (fun s => eq_refl) (fun n => eq_refl) (fun b => eq_refl)
           MoreExamples.config mcp_hosts Hnd).
Defined.

(** The configured host [cloud] of the example is kept, the new alias is
    added. *)
Lemma merge_mcp_hosts_example :
  let mcp_hosts :=
    [ ("cloud", Config.host_named "other.example.com");
      ("remote-gpu-box", Config.host_at "192.168.1.100" 11434) ] in
  @ConfigModel.merge_mcp_hosts Reference.libs MoreExamples.config mcp_hosts
  = inr {| Config.default_host := "local";
           Config.hosts :=
             [ ("local", Config.host_named "localhost");
               ("cloud", MoreExamples.cloud);
               ("remote-gpu-box", Config.host_at "192.168.1.100" 11434) ];
           Config.settings := [] |}.
Proof. vm_compute. reflexivity. Qed.

Lemma env_overrides_need_ollama_host_witness :
  (ConfigFile.get_env_overrides ConfigExamples.environ = [] <->
     ConfigExamples.environ "OLLAMA_HOST" = None
     \/ ConfigExamples.environ "OLLAMA_HOST" = Some EmptyString)
  /\ (forall host,
        ConfigExamples.environ "OLLAMA_HOST" = Some host ->
        host <> EmptyString ->
        exists host_config,
          host_config <> []
          /\ ConfigFile.get_env_overrides ConfigExamples.environ
             = [ ("hosts", JDict [("env", JDict host_config)]);
                 ("default_host", JStr "env") ]).
Proof. apply (env_overrides_need_ollama_host ConfigExamples.environ). Defined.
